(** * DashBoard: cut navigator and series configurator

    A shallow embedding of the parts of [DashBoard_V2.py] that carry state:
    the 2D tab of [MainWindow] ([_load_and_plot_2d], [update_2d_cuts],
    [navigate_2d_cut], [set_2d_cut_indices], the label handlers and
    [DataPlotter.plot_image]), its 1D tab ([add_plot_series_input],
    [remove_last_plot_series_input], [_load_and_plot_1d],
    [update_1d_plot_from_column_selection], [DataPlotter.plot_line]), the
    folder dialog and the theme; and of the 1D loader of the first version,
    [DashBoard.py].

    The window object is a record that is passed through every handler.
    Qt widgets are represented by what the handlers read and write of them
    (the text of a line edit, the state of a check box, the content of a
    canvas or of a read-only text area); message boxes are appended to a log.
    Python exceptions are values of [result]. What pandas reads from a file
    is given to the loaders as a value. *)

From Stdlib Require Import ZArith QArith List String Ascii Bool Lia.
From Stdlib Require Import Decimal DecimalString DecimalPos.
Import ListNotations.

Local Open Scope Z_scope.

(** ** Python values *)

Module Py.

(** Exceptions the modelled handlers can raise or catch, with their text:
    the two classes that an [except] clause of the window names, and any
    other exception. *)
Inductive exn : Type :=
| IndexError (msg : string)
| ValueError (msg : string)
| OtherError (msg : string).

Inductive result (A : Type) : Type :=
| Ok (a : A)
| Raise (e : exn).
Arguments Ok {A} a.
Arguments Raise {A} e.

(** [str(e)] of an exception, as the handlers print it. *)
Definition exn_text (e : exn) : string :=
  match e with
  | IndexError msg => msg
  | ValueError msg => msg
  | OtherError msg => msg
  end.

(** A [float]: its exact rational value when finite, the negative zero
    (which no rational tells from zero), an infinity, or NaN. *)
Inductive pyfloat : Type :=
| Finite (q : Q)
| NegZero
| Inf (negative : bool)
| NaN.

Definition isnan (f : pyfloat) : bool :=
  match f with
  | NaN => true
  | _ => false
  end.

(** [np.isfinite] *)
Definition isfinite (f : pyfloat) : bool :=
  match f with
  | Finite _ | NegZero => true
  | Inf _ | NaN => false
  end.

(** [str(n)] for an [int]. *)
Definition str (n : Z) : string := NilZero.string_of_int (Z.to_int n).

(** Characters [int()] skips at both ends of an ASCII text: 0x09-0x0D and
    space. *)
Definition is_space (c : ascii) : bool :=
  let n := nat_of_ascii c in
  ((9 <=? n)%nat && (n <=? 13)%nat) || Nat.eqb n 32.

Definition is_digit (c : ascii) : bool :=
  let n := nat_of_ascii c in
  (48 <=? n)%nat && (n <=? 57)%nat.

Fixpoint lstrip (s : string) : string :=
  match s with
  | EmptyString => EmptyString
  | String c r => if is_space c then lstrip r else s
  end.

Fixpoint rstrip (s : string) : string :=
  match s with
  | EmptyString => EmptyString
  | String c r =>
      match rstrip r with
      | EmptyString => if is_space c then EmptyString else String c EmptyString
      | r' => String c r'
      end
  end.

Definition strip (s : string) : string := rstrip (lstrip s).

Fixpoint all_digits (s : string) : bool :=
  match s with
  | EmptyString => true
  | String c r => is_digit c && all_digits r
  end.

(** The digit scan of [int()]: digits, with single underscores allowed
    between two digits. [prev_us] tells that the previous character was an
    underscore. The result is the digits without the underscores. *)
Fixpoint scan_digits (prev_us : bool) (s : string) : option string :=
  match s with
  | EmptyString => if prev_us then None else Some EmptyString
  | String c r =>
      if Ascii.eqb c "_"%char then
        if prev_us then None else scan_digits true r
      else if is_digit c then
        option_map (String c) (scan_digits false r)
      else None
  end.

Definition unsigned_of_string (s : string) : option Z :=
  match s with
  | EmptyString => None
  | String c _ =>
      if Ascii.eqb c "_"%char then None
      else
        match scan_digits false s with
        | Some ds =>
            match NilEmpty.uint_of_string ds with
            | Some u => Some (Z.of_N (N.of_uint u))
            | None => None
            end
        | None => None
        end
  end.

(** [int(text)] in base 10: [None] stands for [ValueError]. Strings are
    byte strings, and the model is that of [int] on ASCII text of at most
    4300 digits: the digits and the white space outside ASCII, which [int]
    takes too, and the limit on the number of digits are not modelled. *)
Definition int (text : string) : option Z :=
  match strip text with
  | String "+"%char r => unsigned_of_string r
  | String "-"%char r => option_map Z.opp (unsigned_of_string r)
  | s => unsigned_of_string s
  end.

(** [len(l)] as a Python integer. *)
Definition len {A : Type} (l : list A) : Z := Z.of_nat (List.length l).

(** [l[i]] on a sequence: negative indices count from the end, and an index
    outside [-len, len) raises [IndexError]. *)
Definition getitem {A : Type} (l : list A) (i : Z) : result A :=
  let j := if i <? 0 then i + len l else i in
  if (0 <=? j) && (j <? len l) then
    match nth_error l (Z.to_nat j) with
    | Some a => Ok a
    | None => Raise (IndexError "index out of bounds")
    end
  else Raise (IndexError "index out of bounds").

(** Rounding of a rational to the nearest integer, ties to even. *)
Definition round_half_even (q : Q) : Z :=
  let n := Qnum q in
  let d := Zpos (Qden q) in
  let f := n / d in
  let r := n mod d in
  match 2 * r ?= d with
  | Lt => f
  | Gt => f + 1
  | Eq => if Z.even f then f else f + 1
  end.

Definition two_digits (n : Z) : string :=
  if n <? 10 then ("0" ++ str n)%string else str n.

(** [f"{x:.2f}"]: the exact value rounded to two decimals, ties to even;
    the sign of a negative value is kept even when it rounds to zero. *)
Definition format_2f (x : pyfloat) : string :=
  match x with
  | NaN => "nan"%string
  | Inf false => "inf"%string
  | Inf true => "-inf"%string
  | NegZero => "-0.00"%string
  | Finite q =>
      let c := Z.abs (round_half_even (q * (100 # 1))%Q) in
      let sign := if Qnum q <? 0 then "-"%string else ""%string in
      (sign ++ str (c / 100) ++ "." ++ two_digits (c mod 100))%string
  end.

(** [int(text)] with its exception. The text of the exception goes on with
    the literal; no handler shows it. *)
Definition int_ (text : string) : result Z :=
  match int text with
  | Some n => Ok n
  | None => Raise (ValueError "invalid literal for int() with base 10")
  end.

(** The dtype of an array: a number type, or [object], which pandas gives
    to the values of a table that holds text. *)
Inductive dtype : Type :=
| number
| object.

(** A two-dimensional [numpy] array: its shape, its items and its dtype. The
    items of an array of dtype [object] that are not numbers are NaN. *)
Record ndarray : Type := {
  shape0 : nat;
  shape1 : nat;
  item : nat -> nat -> pyfloat;
  array_dtype : dtype
}.

(** Normalisation of one index along an axis of the given length. *)
Definition axis_index (n : nat) (i : Z) : result nat :=
  let j := if i <? 0 then i + Z.of_nat n else i in
  if (0 <=? j) && (j <? Z.of_nat n) then Ok (Z.to_nat j)
  else Raise (IndexError "index is out of bounds for axis").

(** [a[i, :]] *)
Definition row (a : ndarray) (i : Z) : result (list pyfloat) :=
  match axis_index (shape0 a) i with
  | Ok r => Ok (map (fun c => item a r c) (seq 0 (shape1 a)))
  | Raise e => Raise e
  end.

(** [a[:, j]] *)
Definition column (a : ndarray) (j : Z) : result (list pyfloat) :=
  match axis_index (shape1 a) j with
  | Ok c => Ok (map (fun r => item a r c) (seq 0 (shape0 a)))
  | Raise e => Raise e
  end.

(** [np.arange(n)] *)
Definition arange (n : nat) : list pyfloat :=
  map (fun i => Finite (Z.of_nat i # 1)) (seq 0 n).

(** A [dict] with string keys, in insertion order. [dict_set] is
    [d[k] = v]: an existing key keeps its place and takes the new value. *)
Definition dict (V : Type) : Type := list (string * V).

Fixpoint dict_set {V : Type} (d : dict V) (k : string) (v : V) : dict V :=
  match d with
  | [] => [(k, v)]
  | (k', v') :: r =>
      if String.eqb k' k then (k', v) :: r else (k', v') :: dict_set r k v
  end.

Fixpoint dict_mem {V : Type} (d : dict V) (k : string) : bool :=
  match d with
  | [] => false
  | (k', _) :: r => String.eqb k' k || dict_mem r k
  end.

(** A dict display [{k1: v1, k2: v2}]. *)
Definition dict_literal2 {V : Type} (k1 : string) (v1 : V) (k2 : string) (v2 : V)
  : dict V :=
  dict_set (dict_set [] k1 v1) k2 v2.

(** [pd.DataFrame(d)] of a dict of arrays: the arrays must have one length. *)
Definition DataFrame (d : dict (list pyfloat)) : result (dict (list pyfloat)) :=
  match d with
  | [] => Ok d
  | (_, v) :: r =>
      if forallb (fun kv => Nat.eqb (List.length (snd kv)) (List.length v)) r
      then Ok d
      else Raise (ValueError "All arrays must be of the same length")
  end.

(** [s.lower()] on ASCII letters. *)
Definition lower_char (c : ascii) : ascii :=
  let n := nat_of_ascii c in
  if (65 <=? n)%nat && (n <=? 90)%nat then ascii_of_nat (n + 32) else c.

Fixpoint lower (s : string) : string :=
  match s with
  | EmptyString => EmptyString
  | String c r => String (lower_char c) (lower r)
  end.

Definition endswith (s suffix : string) : bool :=
  let n := String.length s in
  let m := String.length suffix in
  (m <=? n)%nat && String.eqb (substring (n - m) m s) suffix.

(** [os.path.basename(path)]: what follows the last slash. *)
Fixpoint basename_from (acc s : string) : string :=
  match s with
  | EmptyString => acc
  | String c r =>
      if Ascii.eqb c "/"%char then basename_from EmptyString r
      else basename_from (acc ++ String c EmptyString)%string r
  end.

Definition basename (path : string) : string := basename_from EmptyString path.

End Py.

(** ** Message boxes *)

Module Qt.

Inductive icon : Type :=
| Warning
| Information
| Critical.

(** A [QMessageBox]: icon, title and text. *)
Definition message : Type := (icon * string * string)%type.

Definition newline : string := String (ascii_of_nat 10) EmptyString.

End Qt.

(** ** DataPlotter *)

Module DataPlotter.
Import Py.

(** One entry of [series_data_list]. Every dict the window builds has the
    four keys, so the [.get] defaults of [plot_line] are never taken. *)
Record series_data : Type := {
  x_data : list pyfloat;
  y_data : list pyfloat;
  label : string;
  use_twinx : bool
}.

(** The axes a line is drawn on: [self.ax] or the twin [ax2]. *)
Inductive axes : Type :=
| PrimaryAxes
| TwinAxes.

Record line : Type := {
  line_x : list pyfloat;
  line_y : list pyfloat;
  line_color : string;
  line_label : string;
  line_axes : axes
}.

(** What a canvas shows. *)
Inductive figure : Type :=
| Cleared
| Image (data : ndarray) (extent : list pyfloat)
        (title xlabel ylabel cbar_label : string)
| Lines (drawn : list line) (title xlabel ylabel : string).

Definition colors : list string :=
  ["b"; "g"; "r"; "c"; "m"; "y"; "k"; "purple"; "orange"]%string.

(** The loop of [plot_line], [i] being the counter of [enumerate]. *)
Fixpoint plot_series (i : nat) (series_data_list : list series_data) : list line :=
  match series_data_list with
  | [] => []
  | sd :: rest =>
      {| line_x := x_data sd;
         line_y := y_data sd;
         line_color := nth (i mod List.length colors) colors EmptyString;
         line_label := label sd;
         line_axes := if use_twinx sd then TwinAxes else PrimaryAxes |}
      :: plot_series (S i) rest
  end.

Definition plot_line (series_data_list : list series_data)
    (title xlabel ylabel : string) : figure :=
  Lines (plot_series 0 series_data_list) title xlabel ylabel.

(** The extent is computed before [imshow] is called. [imshow] takes no
    array of dtype [object], and then sets the limits of the axes from the
    extent, which must be finite. *)
Definition plot_image (data : ndarray) (x_coords y_coords : list pyfloat)
    (title xlabel ylabel cbar_label : string) : result figure :=
  match getitem x_coords 0, getitem x_coords (-1),
        getitem y_coords 0, getitem y_coords (-1) with
  | Ok x0, Ok x1, Ok y0, Ok y1 =>
      match array_dtype data with
      | object =>
          Raise (OtherError
                   "Image data of dtype object cannot be converted to float")
      | number =>
          if forallb isfinite [x0; x1; y0; y1] then
            Ok (Image data [x0; x1; y0; y1] title xlabel ylabel cbar_label)
          else Raise (ValueError "Axis limits cannot be NaN or Inf")
      end
  | Raise e, _, _, _ => Raise e
  | _, Raise e, _, _ => Raise e
  | _, _, Raise e, _ => Raise e
  | _, _, _, Raise e => Raise e
  end.

Definition clear_plot : figure := Cleared.

End DataPlotter.

(** ** MainWindow: the 2D tab *)

Module Cuts.
Import Py Qt DataPlotter.

(** The attributes of the window the 2D handlers use. A [QLineEdit] is its
    text, a [QTextEdit] its content, a [DataPlotter] the figure on its
    canvas. [message_boxes] logs the message boxes shown, oldest first, and
    [cut_updates] counts the runs of [update_2d_cuts]. *)
Record window : Type := mk_window {
  data_2d_loaded : option ndarray;
  x_coords_2d : option (list pyfloat);
  y_coords_2d : option (list pyfloat);
  current_2d_file_path : option string;
  current_x_cut_idx : Z;
  current_y_cut_idx : Z;
  x_cut_index_input : string;
  y_cut_index_input : string;
  plot_2d_title_input : string;
  plot_2d_xaxis_input : string;
  plot_2d_yaxis_input : string;
  plot_2d_cbar_input : string;
  data_plotter_2d_main : figure;
  data_plotter_2d_x_cut : figure;
  data_plotter_2d_y_cut : figure;
  x_cut_data_display : string;
  y_cut_data_display : string;
  message_boxes : list message;
  cut_updates : nat
}.

Definition set_data_2d_loaded (v : option ndarray) (w : window) : window :=
  mk_window v (x_coords_2d w) (y_coords_2d w) (current_2d_file_path w)
    (current_x_cut_idx w) (current_y_cut_idx w) (x_cut_index_input w)
    (y_cut_index_input w) (plot_2d_title_input w) (plot_2d_xaxis_input w)
    (plot_2d_yaxis_input w) (plot_2d_cbar_input w) (data_plotter_2d_main w)
    (data_plotter_2d_x_cut w) (data_plotter_2d_y_cut w) (x_cut_data_display
    w) (y_cut_data_display w) (message_boxes w) (cut_updates w).

Definition set_x_coords_2d (v : option (list pyfloat)) (w : window) : window :=
  mk_window (data_2d_loaded w) v (y_coords_2d w) (current_2d_file_path w)
    (current_x_cut_idx w) (current_y_cut_idx w) (x_cut_index_input w)
    (y_cut_index_input w) (plot_2d_title_input w) (plot_2d_xaxis_input w)
    (plot_2d_yaxis_input w) (plot_2d_cbar_input w) (data_plotter_2d_main w)
    (data_plotter_2d_x_cut w) (data_plotter_2d_y_cut w) (x_cut_data_display
    w) (y_cut_data_display w) (message_boxes w) (cut_updates w).

Definition set_y_coords_2d (v : option (list pyfloat)) (w : window) : window :=
  mk_window (data_2d_loaded w) (x_coords_2d w) v (current_2d_file_path w)
    (current_x_cut_idx w) (current_y_cut_idx w) (x_cut_index_input w)
    (y_cut_index_input w) (plot_2d_title_input w) (plot_2d_xaxis_input w)
    (plot_2d_yaxis_input w) (plot_2d_cbar_input w) (data_plotter_2d_main w)
    (data_plotter_2d_x_cut w) (data_plotter_2d_y_cut w) (x_cut_data_display
    w) (y_cut_data_display w) (message_boxes w) (cut_updates w).

Definition set_current_2d_file_path (v : option string) (w : window) : window :=
  mk_window (data_2d_loaded w) (x_coords_2d w) (y_coords_2d w) v
    (current_x_cut_idx w) (current_y_cut_idx w) (x_cut_index_input w)
    (y_cut_index_input w) (plot_2d_title_input w) (plot_2d_xaxis_input w)
    (plot_2d_yaxis_input w) (plot_2d_cbar_input w) (data_plotter_2d_main w)
    (data_plotter_2d_x_cut w) (data_plotter_2d_y_cut w) (x_cut_data_display
    w) (y_cut_data_display w) (message_boxes w) (cut_updates w).

Definition set_current_x_cut_idx (v : Z) (w : window) : window :=
  mk_window (data_2d_loaded w) (x_coords_2d w) (y_coords_2d w)
    (current_2d_file_path w) v (current_y_cut_idx w) (x_cut_index_input w)
    (y_cut_index_input w) (plot_2d_title_input w) (plot_2d_xaxis_input w)
    (plot_2d_yaxis_input w) (plot_2d_cbar_input w) (data_plotter_2d_main w)
    (data_plotter_2d_x_cut w) (data_plotter_2d_y_cut w) (x_cut_data_display
    w) (y_cut_data_display w) (message_boxes w) (cut_updates w).

Definition set_current_y_cut_idx (v : Z) (w : window) : window :=
  mk_window (data_2d_loaded w) (x_coords_2d w) (y_coords_2d w)
    (current_2d_file_path w) (current_x_cut_idx w) v (x_cut_index_input w)
    (y_cut_index_input w) (plot_2d_title_input w) (plot_2d_xaxis_input w)
    (plot_2d_yaxis_input w) (plot_2d_cbar_input w) (data_plotter_2d_main w)
    (data_plotter_2d_x_cut w) (data_plotter_2d_y_cut w) (x_cut_data_display
    w) (y_cut_data_display w) (message_boxes w) (cut_updates w).

Definition set_x_cut_index_input (v : string) (w : window) : window :=
  mk_window (data_2d_loaded w) (x_coords_2d w) (y_coords_2d w)
    (current_2d_file_path w) (current_x_cut_idx w) (current_y_cut_idx w) v
    (y_cut_index_input w) (plot_2d_title_input w) (plot_2d_xaxis_input w)
    (plot_2d_yaxis_input w) (plot_2d_cbar_input w) (data_plotter_2d_main w)
    (data_plotter_2d_x_cut w) (data_plotter_2d_y_cut w) (x_cut_data_display
    w) (y_cut_data_display w) (message_boxes w) (cut_updates w).

Definition set_y_cut_index_input (v : string) (w : window) : window :=
  mk_window (data_2d_loaded w) (x_coords_2d w) (y_coords_2d w)
    (current_2d_file_path w) (current_x_cut_idx w) (current_y_cut_idx w)
    (x_cut_index_input w) v (plot_2d_title_input w) (plot_2d_xaxis_input w)
    (plot_2d_yaxis_input w) (plot_2d_cbar_input w) (data_plotter_2d_main w)
    (data_plotter_2d_x_cut w) (data_plotter_2d_y_cut w) (x_cut_data_display
    w) (y_cut_data_display w) (message_boxes w) (cut_updates w).

Definition set_plot_2d_xaxis_input (v : string) (w : window) : window :=
  mk_window (data_2d_loaded w) (x_coords_2d w) (y_coords_2d w)
    (current_2d_file_path w) (current_x_cut_idx w) (current_y_cut_idx w)
    (x_cut_index_input w) (y_cut_index_input w) (plot_2d_title_input w) v
    (plot_2d_yaxis_input w) (plot_2d_cbar_input w) (data_plotter_2d_main w)
    (data_plotter_2d_x_cut w) (data_plotter_2d_y_cut w) (x_cut_data_display
    w) (y_cut_data_display w) (message_boxes w) (cut_updates w).

Definition set_plot_2d_yaxis_input (v : string) (w : window) : window :=
  mk_window (data_2d_loaded w) (x_coords_2d w) (y_coords_2d w)
    (current_2d_file_path w) (current_x_cut_idx w) (current_y_cut_idx w)
    (x_cut_index_input w) (y_cut_index_input w) (plot_2d_title_input w)
    (plot_2d_xaxis_input w) v (plot_2d_cbar_input w) (data_plotter_2d_main
    w) (data_plotter_2d_x_cut w) (data_plotter_2d_y_cut w)
    (x_cut_data_display w) (y_cut_data_display w) (message_boxes w)
    (cut_updates w).

Definition set_plot_2d_cbar_input (v : string) (w : window) : window :=
  mk_window (data_2d_loaded w) (x_coords_2d w) (y_coords_2d w)
    (current_2d_file_path w) (current_x_cut_idx w) (current_y_cut_idx w)
    (x_cut_index_input w) (y_cut_index_input w) (plot_2d_title_input w)
    (plot_2d_xaxis_input w) (plot_2d_yaxis_input w) v (data_plotter_2d_main
    w) (data_plotter_2d_x_cut w) (data_plotter_2d_y_cut w)
    (x_cut_data_display w) (y_cut_data_display w) (message_boxes w)
    (cut_updates w).

Definition set_data_plotter_2d_main (v : figure) (w : window) : window :=
  mk_window (data_2d_loaded w) (x_coords_2d w) (y_coords_2d w)
    (current_2d_file_path w) (current_x_cut_idx w) (current_y_cut_idx w)
    (x_cut_index_input w) (y_cut_index_input w) (plot_2d_title_input w)
    (plot_2d_xaxis_input w) (plot_2d_yaxis_input w) (plot_2d_cbar_input w) v
    (data_plotter_2d_x_cut w) (data_plotter_2d_y_cut w) (x_cut_data_display
    w) (y_cut_data_display w) (message_boxes w) (cut_updates w).

Definition set_data_plotter_2d_x_cut (v : figure) (w : window) : window :=
  mk_window (data_2d_loaded w) (x_coords_2d w) (y_coords_2d w)
    (current_2d_file_path w) (current_x_cut_idx w) (current_y_cut_idx w)
    (x_cut_index_input w) (y_cut_index_input w) (plot_2d_title_input w)
    (plot_2d_xaxis_input w) (plot_2d_yaxis_input w) (plot_2d_cbar_input w)
    (data_plotter_2d_main w) v (data_plotter_2d_y_cut w) (x_cut_data_display
    w) (y_cut_data_display w) (message_boxes w) (cut_updates w).

Definition set_data_plotter_2d_y_cut (v : figure) (w : window) : window :=
  mk_window (data_2d_loaded w) (x_coords_2d w) (y_coords_2d w)
    (current_2d_file_path w) (current_x_cut_idx w) (current_y_cut_idx w)
    (x_cut_index_input w) (y_cut_index_input w) (plot_2d_title_input w)
    (plot_2d_xaxis_input w) (plot_2d_yaxis_input w) (plot_2d_cbar_input w)
    (data_plotter_2d_main w) (data_plotter_2d_x_cut w) v (x_cut_data_display
    w) (y_cut_data_display w) (message_boxes w) (cut_updates w).

Definition set_x_cut_data_display (v : string) (w : window) : window :=
  mk_window (data_2d_loaded w) (x_coords_2d w) (y_coords_2d w)
    (current_2d_file_path w) (current_x_cut_idx w) (current_y_cut_idx w)
    (x_cut_index_input w) (y_cut_index_input w) (plot_2d_title_input w)
    (plot_2d_xaxis_input w) (plot_2d_yaxis_input w) (plot_2d_cbar_input w)
    (data_plotter_2d_main w) (data_plotter_2d_x_cut w)
    (data_plotter_2d_y_cut w) v (y_cut_data_display w) (message_boxes w)
    (cut_updates w).

Definition set_y_cut_data_display (v : string) (w : window) : window :=
  mk_window (data_2d_loaded w) (x_coords_2d w) (y_coords_2d w)
    (current_2d_file_path w) (current_x_cut_idx w) (current_y_cut_idx w)
    (x_cut_index_input w) (y_cut_index_input w) (plot_2d_title_input w)
    (plot_2d_xaxis_input w) (plot_2d_yaxis_input w) (plot_2d_cbar_input w)
    (data_plotter_2d_main w) (data_plotter_2d_x_cut w)
    (data_plotter_2d_y_cut w) (x_cut_data_display w) v (message_boxes w)
    (cut_updates w).

Definition set_message_boxes (v : list message) (w : window) : window :=
  mk_window (data_2d_loaded w) (x_coords_2d w) (y_coords_2d w)
    (current_2d_file_path w) (current_x_cut_idx w) (current_y_cut_idx w)
    (x_cut_index_input w) (y_cut_index_input w) (plot_2d_title_input w)
    (plot_2d_xaxis_input w) (plot_2d_yaxis_input w) (plot_2d_cbar_input w)
    (data_plotter_2d_main w) (data_plotter_2d_x_cut w)
    (data_plotter_2d_y_cut w) (x_cut_data_display w) (y_cut_data_display w)
    v (cut_updates w).

Definition set_cut_updates (v : nat) (w : window) : window :=
  mk_window (data_2d_loaded w) (x_coords_2d w) (y_coords_2d w)
    (current_2d_file_path w) (current_x_cut_idx w) (current_y_cut_idx w)
    (x_cut_index_input w) (y_cut_index_input w) (plot_2d_title_input w)
    (plot_2d_xaxis_input w) (plot_2d_yaxis_input w) (plot_2d_cbar_input w)
    (data_plotter_2d_main w) (data_plotter_2d_x_cut w)
    (data_plotter_2d_y_cut w) (x_cut_data_display w) (y_cut_data_display w)
    (message_boxes w) v.

(** Handlers are computations on the window that may raise; the window
    keeps what was written to it before the exception. *)
Definition M (A : Type) : Type := window -> result A * window.

Definition ret {A : Type} (a : A) : M A := fun w => (Ok a, w).

Definition bind {A B : Type} (m : M A) (k : A -> M B) : M B :=
  fun w =>
    match m w with
    | (Ok a, w') => k a w'
    | (Raise e, w') => (Raise e, w')
    end.

Definition gets {A : Type} (f : window -> A) : M A := fun w => (Ok (f w), w).

Definition modify (f : window -> window) : M unit := fun w => (Ok tt, f w).

Definition lift {A : Type} (r : result A) : M A := fun w => (r, w).

(** [try: body except ...: handler e] *)
Definition try_except {A : Type} (body : M A) (handler : exn -> M A) : M A :=
  fun w =>
    match body w with
    | (Ok a, w') => (Ok a, w')
    | (Raise e, w') => handler e w'
    end.

Notation "x <- m ;; k" := (bind m (fun x => k))
  (at level 61, m at next level, right associativity).
Notation "m ;;; k" := (bind m (fun _ => k))
  (at level 61, right associativity).

Definition message_box (i : icon) (title text : string) : M unit :=
  modify (fun w => set_message_boxes (message_boxes w ++ [(i, title, text)]) w).

(** The window as [__init__] and [init_ui] leave it. *)
Definition initial : window :=
  {| data_2d_loaded := None;
     x_coords_2d := None;
     y_coords_2d := None;
     current_2d_file_path := None;
     current_x_cut_idx := 0;
     current_y_cut_idx := 0;
     x_cut_index_input := str 0;
     y_cut_index_input := str 0;
     plot_2d_title_input := "2D Image Plot";
     plot_2d_xaxis_input := "X-axis";
     plot_2d_yaxis_input := "Y-axis";
     plot_2d_cbar_input := "Intensity";
     data_plotter_2d_main := Cleared;
     data_plotter_2d_x_cut := Cleared;
     data_plotter_2d_y_cut := Cleared;
     x_cut_data_display := EmptyString;
     y_cut_data_display := EmptyString;
     message_boxes := [];
     cut_updates := 0 |}.

(** What [pd.read_csv] gives for a file: [structured] is the outcome of the
    first attempt (header row as x coordinates, first column as y
    coordinates, both through [pd.to_numeric(errors='coerce')]), [raw] that of
    the fallback read without header. *)
Record frame : Type := {
  columns : list pyfloat;
  index : list pyfloat;
  values : nat -> nat -> pyfloat;
  values_dtype : dtype
}.

Definition frame_values (df : frame) : ndarray :=
  {| shape0 := List.length (index df);
     shape1 := List.length (columns df);
     item := values df;
     array_dtype := values_dtype df |}.

Record csv_file : Type := {
  structured : result frame;
  raw : result ndarray
}.

Section Handlers.

(** [DataFrame.to_string(index=False, float_format="%.2f")] of pandas. *)
Variable to_string : dict (list pyfloat) -> string.

(** Every [setText] of the handlers below is bracketed by a disconnect and a
    reconnect of the [textChanged] handler of the field it writes, so the
    write does not call [set_2d_cut_indices]. *)
Definition update_2d_cuts : M unit :=
  modify (fun w => set_cut_updates (S (cut_updates w)) w) ;;;
  w <- gets (fun w => w) ;;
  match data_2d_loaded w, x_coords_2d w, y_coords_2d w with
  | Some data, Some x_coords, Some y_coords =>
      modify (fun w => set_current_y_cut_idx
        (Z.max 0 (Z.min (current_y_cut_idx w) (Z.of_nat (shape0 data) - 1))) w) ;;;
      modify (fun w => set_current_x_cut_idx
        (Z.max 0 (Z.min (current_x_cut_idx w) (Z.of_nat (shape1 data) - 1))) w) ;;;
      modify (fun w => set_y_cut_index_input (str (current_y_cut_idx w)) w) ;;;
      modify (fun w => set_x_cut_index_input (str (current_x_cut_idx w)) w) ;;;
      y_idx <- gets current_y_cut_idx ;;
      x_idx <- gets current_x_cut_idx ;;
      xlabel <- gets plot_2d_xaxis_input ;;
      ylabel <- gets plot_2d_yaxis_input ;;
      cbar <- gets plot_2d_cbar_input ;;
      (* X-cut: value against the x coordinate, at a fixed row *)
      x_cut_data_y <- lift (row data y_idx) ;;
      y_coord <- lift (getitem y_coords y_idx) ;;
      modify (set_data_plotter_2d_x_cut
        (plot_line
           [{| x_data := x_coords; y_data := x_cut_data_y;
               label := "X-Cut Data"; use_twinx := false |}]
           ("X-Cut at Y-coord " ++ format_2f y_coord) xlabel cbar)) ;;;
      x_cut_df <- lift (DataFrame (dict_literal2 xlabel x_coords cbar x_cut_data_y)) ;;
      modify (set_x_cut_data_display
        ("Y-Coordinate: " ++ format_2f y_coord ++ newline ++ to_string x_cut_df)) ;;;
      (* Y-cut: value against the y coordinate, at a fixed column *)
      y_cut_data_x <- lift (column data x_idx) ;;
      x_coord <- lift (getitem x_coords x_idx) ;;
      modify (set_data_plotter_2d_y_cut
        (plot_line
           [{| x_data := y_coords; y_data := y_cut_data_x;
               label := "Y-Cut Data"; use_twinx := false |}]
           ("Y-Cut at X-coord " ++ format_2f x_coord) ylabel cbar)) ;;;
      y_cut_df <- lift (DataFrame (dict_literal2 ylabel y_coords cbar y_cut_data_x)) ;;
      modify (set_y_cut_data_display
        ("X-Coordinate: " ++ format_2f x_coord ++ newline ++ to_string y_cut_df))
  | _, _, _ =>
      modify (set_data_plotter_2d_x_cut clear_plot) ;;;
      modify (set_data_plotter_2d_y_cut clear_plot) ;;;
      modify (set_x_cut_data_display EmptyString) ;;;
      modify (set_y_cut_data_display EmptyString) ;;;
      modify (set_x_cut_index_input "0") ;;;
      modify (set_y_cut_index_input "0")
  end.

Definition navigate_2d_cut (cut_type : string) (direction : Z) : M unit :=
  w <- gets (fun w => w) ;;
  match data_2d_loaded w with
  | None => ret tt
  | Some data =>
      (if String.eqb cut_type "x" then
         let max_idx := Z.of_nat (shape0 data) - 1 in
         modify (fun w => set_current_y_cut_idx
           (Z.max 0 (Z.min max_idx (current_y_cut_idx w + direction))) w)
       else if String.eqb cut_type "y" then
         let max_idx := Z.of_nat (shape1 data) - 1 in
         modify (fun w => set_current_x_cut_idx
           (Z.max 0 (Z.min max_idx (current_x_cut_idx w + direction))) w)
       else ret tt) ;;;
      modify (fun w => set_y_cut_index_input (str (current_y_cut_idx w)) w) ;;;
      modify (fun w => set_x_cut_index_input (str (current_x_cut_idx w)) w) ;;;
      update_2d_cuts
  end.

(** The [except ValueError] clause of [set_2d_cut_indices]. *)
Definition revert_on_value_error (axis_type : string) (e : exn) : M unit :=
  match e with
  | ValueError _ =>
      (if String.eqb axis_type "y" then
         modify (fun w => set_y_cut_index_input (str (current_y_cut_idx w)) w)
       else if String.eqb axis_type "x" then
         modify (fun w => set_x_cut_index_input (str (current_x_cut_idx w)) w)
       else ret tt) ;;;
      message_box Warning "Invalid Input" "Please enter a valid integer."
  | _ => lift (Raise e)
  end.

Definition set_2d_cut_indices (text axis_type : string) : M unit :=
  w <- gets (fun w => w) ;;
  match data_2d_loaded w with
  | None => ret tt
  | Some data =>
      if String.eqb text EmptyString then ret tt
      else
        try_except
          (new_index <- lift (int_ text) ;;
           if String.eqb axis_type "y" then
             let max_idx := Z.of_nat (shape0 data) - 1 in
             if (0 <=? new_index) && (new_index <=? max_idx) then
               cur <- gets current_y_cut_idx ;;
               if negb (cur =? new_index) then
                 modify (set_current_y_cut_idx new_index) ;;;
                 update_2d_cuts
               else ret tt
             else
               modify (fun w => set_y_cut_index_input (str (current_y_cut_idx w)) w) ;;;
               message_box Warning "Invalid Y-Index"
                 ("Y-Index must be between 0 and " ++ str max_idx ++ ".")
           else if String.eqb axis_type "x" then
             let max_idx := Z.of_nat (shape1 data) - 1 in
             if (0 <=? new_index) && (new_index <=? max_idx) then
               cur <- gets current_x_cut_idx ;;
               if negb (cur =? new_index) then
                 modify (set_current_x_cut_idx new_index) ;;;
                 update_2d_cuts
               else ret tt
             else
               modify (fun w => set_x_cut_index_input (str (current_x_cut_idx w)) w) ;;;
               message_box Warning "Invalid X-Index"
                 ("X-Index must be between 0 and " ++ str max_idx ++ ".")
           else ret tt)
          (revert_on_value_error axis_type)
  end.

(** The user changes the text of a cut-index field: the field holds the new
    text, and [textChanged] calls the handler connected in [init_ui]. *)
Definition y_cut_text_changed (text : string) : M unit :=
  modify (set_y_cut_index_input text) ;;;
  set_2d_cut_indices text "y".

Definition x_cut_text_changed (text : string) : M unit :=
  modify (set_x_cut_index_input text) ;;;
  set_2d_cut_indices text "x".

(** The body of the inner [try] of [_load_and_plot_2d] and its fallback:
    the three attributes are assigned, and returned for the plot. *)
Definition read_2d (file_path : string) (file : csv_file)
  : M (ndarray * list pyfloat * list pyfloat) :=
  match structured file with
  | Ok data_df =>
      modify (set_x_coords_2d (Some (columns data_df))) ;;;
      modify (set_y_coords_2d (Some (index data_df))) ;;;
      modify (set_data_2d_loaded (Some (frame_values data_df))) ;;;
      (if existsb isnan (columns data_df) || existsb isnan (index data_df) then
         message_box Warning "Coordinate Conversion Warning"
           ("Some non-numeric values were found in X or Y coordinates of '"
            ++ basename file_path ++
            "' and converted to NaN. These might affect plotting accuracy.")
       else ret tt) ;;;
      ret (frame_values data_df, columns data_df, index data_df)
  | Raise parse_error =>
      message_box Warning "2D Data Format Warning"
        ("Could not parse '" ++ basename file_path ++
         "' with first column as Y-axis and header as X-axis. Reason: "
         ++ exn_text parse_error ++ ". " ++ newline ++ newline ++
         "Attempting fallback: loading as raw matrix with numerical indices.") ;;;
      data <- lift (raw file) ;;
      modify (set_data_2d_loaded (Some data)) ;;;
      modify (set_y_coords_2d (Some (arange (shape0 data)))) ;;;
      modify (set_x_coords_2d (Some (arange (shape1 data)))) ;;;
      ret (data, arange (shape1 data), arange (shape0 data))
  end.

Definition _load_and_plot_2d (file_path : string) (file : csv_file) : M unit :=
  try_except
    (modify (set_current_2d_file_path (Some file_path)) ;;;
     modify (set_data_plotter_2d_main clear_plot) ;;;
     modify (set_data_plotter_2d_x_cut clear_plot) ;;;
     modify (set_data_plotter_2d_y_cut clear_plot) ;;;
     modify (set_x_cut_data_display EmptyString) ;;;
     modify (set_y_cut_data_display EmptyString) ;;;
     if endswith (lower file_path) ".csv" || endswith (lower file_path) ".txt" then
       loaded <- read_2d file_path file ;;
       let '(data, x_coords, y_coords) := loaded in
       modify (set_current_x_cut_idx 0) ;;;
       modify (set_current_y_cut_idx 0) ;;;
       modify (fun w => set_x_cut_index_input (str (current_x_cut_idx w)) w) ;;;
       modify (fun w => set_y_cut_index_input (str (current_y_cut_idx w)) w) ;;;
       xlabel <- gets plot_2d_xaxis_input ;;
       ylabel <- gets plot_2d_yaxis_input ;;
       cbar <- gets plot_2d_cbar_input ;;
       image <- lift (plot_image data x_coords y_coords
                        (basename file_path) xlabel ylabel cbar) ;;
       modify (set_data_plotter_2d_main image) ;;;
       update_2d_cuts
     else
       message_box Warning "Unsupported 2D File Type"
         ("File '" ++ basename file_path ++
          "' is not a supported 2D type (.csv, .txt)."))
    (fun e =>
       message_box Critical "2D Data Load Error"
         ("Failed to load 2D data from '" ++ basename file_path ++ "':"
          ++ newline ++ exn_text e) ;;;
       modify (set_data_2d_loaded None) ;;;
       modify (set_data_plotter_2d_main clear_plot) ;;;
       modify (set_data_plotter_2d_x_cut clear_plot) ;;;
       modify (set_data_plotter_2d_y_cut clear_plot) ;;;
       modify (set_x_cut_data_display EmptyString) ;;;
       modify (set_y_cut_data_display EmptyString)).

(** [set_2d_xaxis_label], [set_2d_yaxis_label] and [set_2d_cbar_label]: the
    image is drawn again with [label_text] in the place of one label, then
    the cuts. *)
Definition replot_2d (xlabel_of ylabel_of cbar_of : window -> string) : M unit :=
  w <- gets (fun w => w) ;;
  match data_2d_loaded w with
  | None => ret tt
  | Some data =>
      match x_coords_2d w, y_coords_2d w with
      | Some x_coords, Some y_coords =>
          image <- lift (plot_image data x_coords y_coords (plot_2d_title_input w)
                           (xlabel_of w) (ylabel_of w) (cbar_of w)) ;;
          modify (set_data_plotter_2d_main image) ;;;
          update_2d_cuts
      | _, _ => lift (Raise (OtherError "'NoneType' object is not subscriptable"))
      end
  end.

Definition set_2d_xaxis_label (label_text : string) : M unit :=
  replot_2d (fun _ => label_text) plot_2d_yaxis_input plot_2d_cbar_input.

Definition set_2d_yaxis_label (label_text : string) : M unit :=
  replot_2d plot_2d_xaxis_input (fun _ => label_text) plot_2d_cbar_input.

Definition set_2d_cbar_label (label_text : string) : M unit :=
  replot_2d plot_2d_xaxis_input plot_2d_yaxis_input (fun _ => label_text).

(** The user finishes editing a label: the field holds the new text, and
    [editingFinished] calls the handler with it. *)
Definition xaxis_label_edited (text : string) : M unit :=
  modify (set_plot_2d_xaxis_input text) ;;; set_2d_xaxis_label text.

Definition yaxis_label_edited (text : string) : M unit :=
  modify (set_plot_2d_yaxis_input text) ;;; set_2d_yaxis_label text.

Definition cbar_label_edited (text : string) : M unit :=
  modify (set_plot_2d_cbar_input text) ;;; set_2d_cbar_label text.

(** The three operations of the cut navigator, and their runs. An
    exception that leaves a handler ends the run. *)
Inductive operation : Type :=
| SetCut (text axis_type : string)
| Navigate (cut_type : string) (direction : Z)
| Recompute.

Definition perform (op : operation) : M unit :=
  match op with
  | SetCut text axis_type => set_2d_cut_indices text axis_type
  | Navigate cut_type direction => navigate_2d_cut cut_type direction
  | Recompute => update_2d_cuts
  end.

Fixpoint run (ops : list operation) : M unit :=
  match ops with
  | [] => ret tt
  | op :: rest => perform op ;;; run rest
  end.

End Handlers.

(** The file name has one of the two extensions [_load_and_plot_2d] reads. *)
Definition supported (file_path : string) : bool :=
  endswith (lower file_path) ".csv" || endswith (lower file_path) ".txt".

(** The index, the text field and the largest index that
    [set_2d_cut_indices] works on for an [axis_type]: 'y' is the row of the
    X-cut, 'x' the column of the Y-cut. *)
Definition cut_index (axis_type : string) (w : window) : Z :=
  if String.eqb axis_type "y" then current_y_cut_idx w else current_x_cut_idx w.

Definition cut_field (axis_type : string) (w : window) : string :=
  if String.eqb axis_type "y" then y_cut_index_input w else x_cut_index_input w.

Definition max_index (axis_type : string) (data : ndarray) : Z :=
  if String.eqb axis_type "y" then Z.of_nat (shape0 data) - 1
  else Z.of_nat (shape1 data) - 1.

(** The two warnings of [set_2d_cut_indices]. *)
Definition invalid_input_warning : message :=
  (Warning, "Invalid Input", "Please enter a valid integer.")%string.

Definition range_warning (axis_type : string) (data : ndarray) : message :=
  if String.eqb axis_type "y" then
    (Warning, "Invalid Y-Index",
     "Y-Index must be between 0 and " ++ str (Z.of_nat (shape0 data) - 1) ++ ".")%string
  else
    (Warning, "Invalid X-Index",
     "X-Index must be between 0 and " ++ str (Z.of_nat (shape1 data) - 1) ++ ".")%string.

(** The index and the largest index that [navigate_2d_cut] works on for a
    [cut_type]: 'x' moves the row of the X-cut, 'y' the column of the Y-cut. *)
Definition navigated_index (cut_type : string) (w : window) : Z :=
  if String.eqb cut_type "x" then current_y_cut_idx w else current_x_cut_idx w.

Definition navigated_bound (cut_type : string) (data : ndarray) : Z :=
  if String.eqb cut_type "x" then Z.of_nat (shape0 data) - 1
  else Z.of_nat (shape1 data) - 1.

(** [clamp(v, lo, hi)] in the words of the spec: the value nearest to [v]
    in [lo, hi]. *)
Definition clamp (v lo hi : Z) : Z :=
  if v <? lo then lo else if hi <? v then hi else v.

(** The window a run of [update_2d_cuts] shows for a loaded matrix, given
    the coordinates found at the two cuts. *)
Definition cuts_shown (to_string : dict (list pyfloat) -> string) (w : window)
    (data : ndarray) (xs ys : list pyfloat) (y_coord x_coord : pyfloat) : window :=
  let yi := Z.max 0 (Z.min (current_y_cut_idx w) (Z.of_nat (shape0 data) - 1)) in
  let xi := Z.max 0 (Z.min (current_x_cut_idx w) (Z.of_nat (shape1 data) - 1)) in
  let x_cut := map (fun c => item data (Z.to_nat yi) c) (seq 0 (shape1 data)) in
  let y_cut := map (fun r => item data r (Z.to_nat xi)) (seq 0 (shape0 data)) in
  {| data_2d_loaded := Some data;
     x_coords_2d := Some xs;
     y_coords_2d := Some ys;
     current_2d_file_path := current_2d_file_path w;
     current_x_cut_idx := xi;
     current_y_cut_idx := yi;
     x_cut_index_input := str xi;
     y_cut_index_input := str yi;
     plot_2d_title_input := plot_2d_title_input w;
     plot_2d_xaxis_input := plot_2d_xaxis_input w;
     plot_2d_yaxis_input := plot_2d_yaxis_input w;
     plot_2d_cbar_input := plot_2d_cbar_input w;
     data_plotter_2d_main := data_plotter_2d_main w;
     data_plotter_2d_x_cut :=
       plot_line [{| x_data := xs; y_data := x_cut;
                     label := "X-Cut Data"; use_twinx := false |}]
         ("X-Cut at Y-coord " ++ format_2f y_coord)
         (plot_2d_xaxis_input w) (plot_2d_cbar_input w);
     data_plotter_2d_y_cut :=
       plot_line [{| x_data := ys; y_data := y_cut;
                     label := "Y-Cut Data"; use_twinx := false |}]
         ("Y-Cut at X-coord " ++ format_2f x_coord)
         (plot_2d_yaxis_input w) (plot_2d_cbar_input w);
     x_cut_data_display :=
       "Y-Coordinate: " ++ format_2f y_coord ++ newline ++
       to_string (dict_literal2 (plot_2d_xaxis_input w) xs
                    (plot_2d_cbar_input w) x_cut);
     y_cut_data_display :=
       "X-Coordinate: " ++ format_2f x_coord ++ newline ++
       to_string (dict_literal2 (plot_2d_yaxis_input w) ys
                    (plot_2d_cbar_input w) y_cut);
     message_boxes := message_boxes w;
     cut_updates := S (cut_updates w) |}.

(** The cut indices are within the matrix. *)
Definition in_bounds (w : window) : Prop :=
  match data_2d_loaded w with
  | Some data =>
      0 <= current_y_cut_idx w <= Z.of_nat (shape0 data) - 1 /\
      0 <= current_x_cut_idx w <= Z.of_nat (shape1 data) - 1
  | None => True
  end.

(** What a load leaves when a matrix stays loaded: a matrix with at least
    one row and one column, and one coordinate per row and per column. *)
Definition loaded (w : window) (data : ndarray) : Prop :=
  data_2d_loaded w = Some data /\
  (exists x_coords, x_coords_2d w = Some x_coords /\
                    List.length x_coords = shape1 data) /\
  (exists y_coords, y_coords_2d w = Some y_coords /\
                    List.length y_coords = shape0 data) /\
  (1 <= shape0 data)%nat /\ (1 <= shape1 data)%nat.

(** What [plot_image] needs of the window to draw its matrix: a number
    dtype, and a finite first and last coordinate on each axis. *)
Definition finite_ends (coords : list pyfloat) : bool :=
  match getitem coords 0, getitem coords (-1) with
  | Ok first, Ok last => isfinite first && isfinite last
  | _, _ => false
  end.

Definition drawable (w : window) : Prop :=
  match data_2d_loaded w, x_coords_2d w, y_coords_2d w with
  | Some data, Some x_coords, Some y_coords =>
      array_dtype data = number /\
      finite_ends x_coords = true /\ finite_ends y_coords = true
  | _, _, _ => True
  end.

(** A 4-row by 3-column file: y coordinates 10, 20, 30, 40, x coordinates
    1, 2, 3, and the value [10 * row + column] in each cell. *)
Definition example_frame : frame :=
  {| columns := [Finite (1 # 1); Finite (2 # 1); Finite (3 # 1)];
     index := [Finite (10 # 1); Finite (20 # 1); Finite (30 # 1); Finite (40 # 1)];
     values := fun r c => Finite (Z.of_nat (10 * r + c) # 1);
     values_dtype := number |}.

Definition example_file : csv_file :=
  {| structured := Ok example_frame;
     raw := Raise (OtherError "not read") |}.

Definition plain_table (d : dict (list pyfloat)) : string :=
  String.concat " " (map fst d).

(** The window after the example file is loaded into a new one. *)
Definition example_window : window :=
  snd (_load_and_plot_2d plain_table "scan.csv" example_file initial).

(** *** Folder selection, the plot title and the events of the 2D tab *)

Definition set_plot_2d_title_input (v : string) (w : window) : window :=
  mk_window (data_2d_loaded w) (x_coords_2d w) (y_coords_2d w)
    (current_2d_file_path w) (current_x_cut_idx w) (current_y_cut_idx w)
    (x_cut_index_input w) (y_cut_index_input w) v (plot_2d_xaxis_input w)
    (plot_2d_yaxis_input w) (plot_2d_cbar_input w) (data_plotter_2d_main w)
    (data_plotter_2d_x_cut w) (data_plotter_2d_y_cut w) (x_cut_data_display
    w) (y_cut_data_display w) (message_boxes w) (cut_updates w).

(** [select_root_folder(is_2d=True)]. [folder_path] is what the directory
    dialog returns, the empty string when it is cancelled. The path display
    and the tree view, which no handler reads back, are left out. *)
Definition select_root_folder_2d (folder_path : string) : M unit :=
  if String.eqb folder_path EmptyString then ret tt
  else
    modify (set_data_plotter_2d_main clear_plot) ;;;
    modify (set_data_plotter_2d_x_cut clear_plot) ;;;
    modify (set_data_plotter_2d_y_cut clear_plot) ;;;
    modify (set_data_2d_loaded None) ;;;
    modify (set_x_coords_2d None) ;;;
    modify (set_y_coords_2d None) ;;;
    modify (set_current_2d_file_path None) ;;;
    modify (set_x_cut_data_display EmptyString) ;;;
    modify (set_y_cut_data_display EmptyString) ;;;
    modify (set_current_x_cut_idx 0) ;;;
    modify (set_current_y_cut_idx 0) ;;;
    modify (fun w => set_x_cut_index_input (str (current_x_cut_idx w)) w) ;;;
    modify (fun w => set_y_cut_index_input (str (current_y_cut_idx w)) w).

(** [set_2d_plot_title]: the image is drawn again with the new title; the
    cuts are not. *)
Definition set_2d_plot_title (title_text : string) : M unit :=
  w <- gets (fun w => w) ;;
  match data_2d_loaded w with
  | None => ret tt
  | Some data =>
      match x_coords_2d w, y_coords_2d w with
      | Some x_coords, Some y_coords =>
          image <- lift (plot_image data x_coords y_coords title_text
                           (plot_2d_xaxis_input w) (plot_2d_yaxis_input w)
                           (plot_2d_cbar_input w)) ;;
          modify (set_data_plotter_2d_main image)
      | _, _ => lift (Raise (OtherError "'NoneType' object is not subscriptable"))
      end
  end.

Definition title_edited (text : string) : M unit :=
  modify (set_plot_2d_title_input text) ;;; set_2d_plot_title text.

(** What the user can do on the 2D tab, with the handler [init_ui] connects
    to each: a click in the file tree (on a directory or on a file, [file]
    being what pandas reads from it), the folder dialog, a change of the
    text of a cut-index field, the four Prev/Next buttons and the end of the
    edit of one of the four labels. *)
Inductive event : Type :=
| TreeClicked (path : string) (is_dir : bool) (file : csv_file)
| FolderSelected (folder_path : string)
| YCutTyped (text : string)
| XCutTyped (text : string)
| PrevY
| NextY
| PrevX
| NextX
| TitleEdited (text : string)
| XLabelEdited (text : string)
| YLabelEdited (text : string)
| CbarEdited (text : string).

Section Events.

Variable to_string : dict (list pyfloat) -> string.

(** [on_tree_view_clicked(index, is_2d=True)] *)
Definition on_tree_view_clicked_2d (path : string) (is_dir : bool)
    (file : csv_file) : M unit :=
  if is_dir then ret tt else _load_and_plot_2d to_string path file.

Definition handle (e : event) : M unit :=
  match e with
  | TreeClicked path is_dir file => on_tree_view_clicked_2d path is_dir file
  | FolderSelected folder_path => select_root_folder_2d folder_path
  | YCutTyped text => y_cut_text_changed to_string text
  | XCutTyped text => x_cut_text_changed to_string text
  | PrevY => navigate_2d_cut to_string "x" (-1)
  | NextY => navigate_2d_cut to_string "x" 1
  | PrevX => navigate_2d_cut to_string "y" (-1)
  | NextX => navigate_2d_cut to_string "y" 1
  | TitleEdited text => title_edited text
  | XLabelEdited text => xaxis_label_edited to_string text
  | YLabelEdited text => yaxis_label_edited to_string text
  | CbarEdited text => cbar_label_edited to_string text
  end.

Fixpoint handle_all (events : list event) : M unit :=
  match events with
  | [] => ret tt
  | e :: rest => handle e ;;; handle_all rest
  end.

End Events.

(** A window is consistent when it has no matrix, or a matrix that
    [plot_image] draws, with a row and a column, a coordinate for each, and
    both cut indices within it. *)
Definition consistent (w : window) : Prop :=
  match data_2d_loaded w with
  | Some data => loaded w data /\ in_bounds w /\ drawable w
  | None => True
  end.

(** The matrix and the coordinates of [w'] are those of [w]; a handler that
    leaves them alone, whether it returns or raises. *)
Definition same_matrix (w w' : window) : Prop :=
  data_2d_loaded w' = data_2d_loaded w /\
  x_coords_2d w' = x_coords_2d w /\
  y_coords_2d w' = y_coords_2d w.

Definition keeps_matrix {A : Type} (m : M A) : Prop :=
  forall w, same_matrix w (snd (m w)).

(** The example file with a header that starts with a cell that is no
    number, and with a cell of text among its values. *)
Definition nan_header_file : csv_file :=
  {| structured :=
       Ok {| columns := [NaN; Finite (2 # 1); Finite (3 # 1)];
             index := index example_frame;
             values := values example_frame;
             values_dtype := number |};
     raw := Raise (OtherError "not read") |}.

Definition text_cell_file : csv_file :=
  {| structured :=
       Ok {| columns := columns example_frame;
             index := index example_frame;
             values := fun r c => if (Nat.eqb r 1 && Nat.eqb c 1)%bool then NaN
                                  else values example_frame r c;
             values_dtype := object |};
     raw := Raise (OtherError "not read") |}.

(** A file that pandas cannot read at all, and one it reads only without
    header, as a 2-row by 2-column matrix. *)
Definition unreadable_file : csv_file :=
  {| structured := Raise (OtherError "No columns to parse from file");
     raw := Raise (OtherError "No columns to parse from file") |}.

Definition raw_file : csv_file :=
  {| structured := Raise (OtherError "could not convert string to float");
     raw := Ok {| shape0 := 2; shape1 := 2;
                  item := fun r c => Finite (Z.of_nat (r + c) # 1);
                  array_dtype := number |} |}.

End Cuts.

(** ** MainWindow: the 1D tab *)

Module Series.
Import Py Qt DataPlotter.

Local Open Scope string_scope.
Local Open Scope Z_scope.

(** One row of series controls: the texts of the X and Y line edits and the
    state of the Twinx check box. *)
Record series_input : Type := {
  x_input : string;
  y_input : string;
  twinx_checkbox : bool
}.

(** What [add_plot_series_input] gets as [initial_x_idx]: an integer where
    the window calls it, and the [checked] flag of the [clicked] signal where
    the Add Series button does. *)
Inductive index_argument : Type :=
| int_argument (n : Z)
| bool_argument (b : bool).

Coercion int_argument : Z >-> index_argument.

(** [str(initial_x_idx)] *)
Definition str_argument (a : index_argument) : string :=
  match a with
  | int_argument n => str n
  | bool_argument true => "True"
  | bool_argument false => "False"
  end.

Section Table.

(** A cell of the data frame read from the file, and
    [pd.to_numeric(errors='coerce')] on one cell: NaN when not numeric. *)
Variable cell : Type.
Variable to_numeric : cell -> pyfloat.

(** [DataFrame.to_string(index=False, float_format="%.2f")] of pandas. *)
Variable to_string : dict (list pyfloat) -> string.

(** The data frame of the 1D tab: its column names, its number of rows and
    its cells by row and column. *)
Record table : Type := {
  column_names : list string;
  n_rows : nat;
  cell_at : nat -> nat -> cell
}.

(** [df.shape[1]] *)
Definition num_cols (df : table) : Z := len (column_names df).

(** [df.empty] *)
Definition empty (df : table) : bool :=
  Nat.eqb (n_rows df) 0 || Nat.eqb (List.length (column_names df)) 0.

(** [pd.to_numeric(df.iloc[:, j], errors='coerce').values] for an index the
    caller has checked. *)
Definition numeric_column (df : table) (j : Z) : list pyfloat :=
  map (fun r => to_numeric (cell_at df r (Z.to_nat j))) (seq 0 (n_rows df)).

(** [a[mask]] *)
Fixpoint select {A : Type} (a : list A) (mask : list bool) : list A :=
  match a, mask with
  | x :: a', b :: mask' => if b then x :: select a' mask' else select a' mask'
  | _, _ => []
  end.

(** [~np.isnan(x) & ~np.isnan(y)] *)
Fixpoint valid_mask (x y : list pyfloat) : list bool :=
  match x, y with
  | a :: x', b :: y' => (negb (isnan a) && negb (isnan b)) :: valid_mask x' y'
  | _, _ => []
  end.

Record window : Type := mk_window {
  current_1d_df : option table;
  current_1d_file_path : option string;
  series_input_widgets : list series_input;
  data_plotter_1d : figure;
  data_1d_display : string;
  plot_1d_title_input : string;
  plot_1d_xaxis_input : string;
  plot_1d_yaxis1_input : string;
  message_boxes : list message
}.

Definition set_current_1d_df (v : option table) (w : window) : window :=
  mk_window v (current_1d_file_path w) (series_input_widgets w)
    (data_plotter_1d w) (data_1d_display w) (plot_1d_title_input w)
    (plot_1d_xaxis_input w) (plot_1d_yaxis1_input w) (message_boxes w).

Definition set_current_1d_file_path (v : option string) (w : window) : window :=
  mk_window (current_1d_df w) v (series_input_widgets w)
    (data_plotter_1d w) (data_1d_display w) (plot_1d_title_input w)
    (plot_1d_xaxis_input w) (plot_1d_yaxis1_input w) (message_boxes w).

Definition set_series_input_widgets (v : list series_input) (w : window) : window :=
  mk_window (current_1d_df w) (current_1d_file_path w) v
    (data_plotter_1d w) (data_1d_display w) (plot_1d_title_input w)
    (plot_1d_xaxis_input w) (plot_1d_yaxis1_input w) (message_boxes w).

Definition set_data_plotter_1d (v : figure) (w : window) : window :=
  mk_window (current_1d_df w) (current_1d_file_path w) (series_input_widgets w)
    v (data_1d_display w) (plot_1d_title_input w)
    (plot_1d_xaxis_input w) (plot_1d_yaxis1_input w) (message_boxes w).

Definition set_data_1d_display (v : string) (w : window) : window :=
  mk_window (current_1d_df w) (current_1d_file_path w) (series_input_widgets w)
    (data_plotter_1d w) v (plot_1d_title_input w)
    (plot_1d_xaxis_input w) (plot_1d_yaxis1_input w) (message_boxes w).

Definition message_box (i : icon) (title text : string) (w : window) : window :=
  mk_window (current_1d_df w) (current_1d_file_path w) (series_input_widgets w)
    (data_plotter_1d w) (data_1d_display w) (plot_1d_title_input w)
    (plot_1d_xaxis_input w) (plot_1d_yaxis1_input w)
    (message_boxes w ++ [(i, title, text)]).

(** What the [try] block of one iteration of the loop of
    [update_1d_plot_from_column_selection] comes to when it does not raise:
    a series to plot with the headers of its columns, or no plottable row. *)
Inductive resolved : Type :=
| Plottable (sd : series_data) (x_header y_header : string)
            (x_to_plot y_to_plot : list pyfloat)
| NoValidRows.

(** [f"Series {i+1}"] *)
Definition series_name (i : nat) : string := "Series " ++ str (Z.of_nat i + 1).

Definition resolve (df : table) (i : nat) (widget : series_input) : result resolved :=
  match int_ (x_input widget) with
  | Raise e => Raise e
  | Ok x_col_idx =>
  match int_ (y_input widget) with
  | Raise e => Raise e
  | Ok y_col_idx =>
      let use_twinx := twinx_checkbox widget in
      if negb ((0 <=? x_col_idx) && (x_col_idx <? num_cols df)) then
        Raise (IndexError
          (series_name i ++ ": X Column Index " ++ str x_col_idx ++
           " is out of bounds. Max index is " ++ str (num_cols df - 1) ++ "."))
      else if negb ((0 <=? y_col_idx) && (y_col_idx <? num_cols df)) then
        Raise (IndexError
          (series_name i ++ ": Y Column Index " ++ str y_col_idx ++
           " is out of bounds. Max index is " ++ str (num_cols df - 1) ++ "."))
      else
        let x_data := numeric_column df x_col_idx in
        let y_data := numeric_column df y_col_idx in
        let valid_indices := valid_mask x_data y_data in
        let x_to_plot := select x_data valid_indices in
        let y_to_plot := select y_data valid_indices in
        if len x_to_plot =? 0 then Ok NoValidRows
        else
          let x_header :=
            if x_col_idx <? len (column_names df)
            then nth (Z.to_nat x_col_idx) (column_names df) EmptyString
            else "Column " ++ str x_col_idx in
          let y_header :=
            if y_col_idx <? len (column_names df)
            then nth (Z.to_nat y_col_idx) (column_names df) EmptyString
            else "Column " ++ str y_col_idx in
          let series_label := "(" ++ x_header ++ " vs " ++ y_header ++ ")" in
          Ok (Plottable
                {| x_data := x_to_plot; y_data := y_to_plot;
                   label := series_label; use_twinx := use_twinx |}
                x_header y_header x_to_plot y_to_plot)
  end end.

(** The local variables of the loop, with the message boxes it shows. *)
Record loop_state : Type := {
  series_to_plot : list series_data;
  display_data_dict : dict (list pyfloat);
  shown : list message
}.

Definition warn (title text : string) (st : loop_state) : loop_state :=
  {| series_to_plot := series_to_plot st;
     display_data_dict := display_data_dict st;
     shown := shown st ++ [(Warning, title, text)] |}.

(** One iteration: the [try] block and its [except] clauses. *)
Definition loop_body (df : table) (i : nat) (widget : series_input)
    (st : loop_state) : loop_state :=
  match resolve df i widget with
  | Ok (Plottable sd x_header y_header x_to_plot y_to_plot) =>
      let d1 := if dict_mem (display_data_dict st) x_header
                then display_data_dict st
                else dict_set (display_data_dict st) x_header x_to_plot in
      let d2 := if dict_mem d1 y_header then d1
                else dict_set d1 y_header y_to_plot in
      {| series_to_plot := series_to_plot st ++ [sd];
         display_data_dict := d2;
         shown := shown st |}
  | Ok NoValidRows =>
      warn "No Plottable Data"
        (series_name i ++
         ": No valid numeric data points found for the selected columns to plot.")
        st
  | Raise (ValueError _) =>
      warn "Invalid Column Index"
        (series_name i ++ ": Please enter valid integer numbers for column indices.")
        st
  | Raise (IndexError ie) =>
      warn "Column Index Out of Bounds" ie st
  | Raise (OtherError e) =>
      {| series_to_plot := series_to_plot st;
         display_data_dict := display_data_dict st;
         shown := shown st ++
           [(Critical, "1D Plotting Error",
             "An unexpected error occurred while processing " ++
             series_name i ++ ": " ++ e)] |}
  end.

(** [for i, (...) in enumerate(self.series_input_widgets)], from counter [i]. *)
Fixpoint loop (df : table) (i : nat) (widgets : list series_input)
    (st : loop_state) : loop_state :=
  match widgets with
  | [] => st
  | widget :: rest => loop df (S i) rest (loop_body df i widget st)
  end.

(** [np.pad(arr, (0, max_len - len(arr)), constant_values=np.nan)] *)
Definition pad (max_len : nat) (arr : list pyfloat) : list pyfloat :=
  arr ++ repeat NaN (max_len - List.length arr).

Definition max_len (d : dict (list pyfloat)) : nat :=
  fold_right (fun kv m => Nat.max (List.length (snd kv)) m) 0%nat d.

Definition padded_data (d : dict (list pyfloat)) : dict (list pyfloat) :=
  map (fun kv => (fst kv, pad (max_len d) (snd kv))) d.

Definition update_1d_plot_from_column_selection (w : window) : window :=
  match current_1d_df w with
  | None => set_data_1d_display EmptyString (set_data_plotter_1d clear_plot w)
  | Some df =>
      let st := loop df 0 (series_input_widgets w)
                  {| series_to_plot := []; display_data_dict := [];
                     shown := message_boxes w |} in
      let w := mk_window (current_1d_df w) (current_1d_file_path w)
                 (series_input_widgets w) (data_plotter_1d w) (data_1d_display w)
                 (plot_1d_title_input w) (plot_1d_xaxis_input w)
                 (plot_1d_yaxis1_input w) (shown st) in
      match series_to_plot st with
      | _ :: _ =>
          let w := set_data_plotter_1d
                     (plot_line (series_to_plot st) (plot_1d_title_input w)
                        (plot_1d_xaxis_input w) (plot_1d_yaxis1_input w)) w in
          match display_data_dict st with
          | _ :: _ =>
              set_data_1d_display (to_string (padded_data (display_data_dict st))) w
          | [] => set_data_1d_display EmptyString w
          end
      | [] =>
          message_box Information "No Plottable Series"
            "No valid series configured or found to plot."
            (set_data_1d_display EmptyString (set_data_plotter_1d clear_plot w))
      end
  end.

Definition add_plot_series_input (initial_x_idx : index_argument)
    (initial_y_idx : Z) (default_twinx : bool) (w : window) : window :=
  let w := set_series_input_widgets
             (series_input_widgets w ++
              [{| x_input := str_argument initial_x_idx;
                  y_input := str initial_y_idx;
                  twinx_checkbox := default_twinx |}]) w in
  match current_1d_df w with
  | Some _ => update_1d_plot_from_column_selection w
  | None => w
  end.

(** The Add Series button: [clicked] calls [add_plot_series_input] with its
    [checked] flag, which takes the place of [initial_x_idx]; the two other
    arguments take their defaults. *)
Definition add_series_clicked (checked : bool) (w : window) : window :=
  add_plot_series_input (bool_argument checked) 2 false w.

Definition remove_last_plot_series_input (w : window) : window :=
  match series_input_widgets w with
  | _ :: _ =>
      update_1d_plot_from_column_selection
        (set_series_input_widgets (removelast (series_input_widgets w)) w)
  | [] =>
      message_box Information "No Series to Remove"
        "There are no plot series to remove." w
  end.

Definition clear_all_1d_series_inputs (w : window) : window :=
  set_series_input_widgets [] w.

(** [read] is what the two attempts of [pd.read_csv] come to: the data
    frame, or the exception of the second attempt. *)
Definition _load_and_plot_1d (file_path : string) (read : result table)
    (w : window) : window :=
  let w := set_current_1d_file_path (Some file_path) w in
  let w := set_data_plotter_1d clear_plot w in
  let w := set_data_1d_display EmptyString w in
  let w := set_current_1d_df None w in
  match read with
  | Ok df =>
      if empty df then
        message_box Warning "Empty 1D Data"
          ("File '" ++ basename file_path ++
           "' is empty or contains no valid data.") w
      else
        let w := set_current_1d_df (Some df) w in
        let w := clear_all_1d_series_inputs w in
        let w := if 2 <=? num_cols df
                 then add_plot_series_input 0 1 false w else w in
        let w := if 4 <=? num_cols df
                 then add_plot_series_input 0 3 true w else w in
        let w :=
          match series_input_widgets w with
          | [] =>
              if 0 <? num_cols df then add_plot_series_input 0 0 false w
              else add_plot_series_input 0 0 false w
          | _ :: _ => w
          end in
        update_1d_plot_from_column_selection w
  | Raise e =>
      let w := message_box Critical "1D Data Load Error"
                 ("Failed to load 1D data from '" ++ basename file_path ++ "':"
                  ++ newline ++ exn_text e) w in
      let w := set_data_plotter_1d clear_plot w in
      let w := set_current_1d_df None w in
      let w := set_data_1d_display EmptyString w in
      let w := clear_all_1d_series_inputs w in
      add_plot_series_input 0 0 false w
  end.




(** In the words of the spec: a spec is skipped when an index is not an
    integer or is out of [0, columnCount), or when no row is left after
    dropping the rows where either coordinate is not numeric. *)
Definition survives (df : table) (widget : series_input) : bool :=
  match int (x_input widget), int (y_input widget) with
  | Some x, Some y =>
      (0 <=? x) && (x <? num_cols df) && (0 <=? y) && (y <? num_cols df) &&
      existsb (fun r => negb (isnan (to_numeric (cell_at df r (Z.to_nat x)))) &&
                        negb (isnan (to_numeric (cell_at df r (Z.to_nat y)))))
              (seq 0 (n_rows df))
  | _, _ => false
  end.

(** In the words of the spec: the series of a surviving spec. Its values are
    those of the two columns at the rows where both are numeric, its label
    is "(<xColumnName> vs <yColumnName>)". *)
Definition both_numeric (df : table) (x y : Z) (r : nat) : bool :=
  negb (isnan (to_numeric (cell_at df r (Z.to_nat x)))) &&
  negb (isnan (to_numeric (cell_at df r (Z.to_nat y)))).

Definition series_of (df : table) (widget : series_input) : series_data :=
  match int (x_input widget), int (y_input widget) with
  | Some x, Some y =>
      let rows := filter (both_numeric df x y) (seq 0 (n_rows df)) in
      {| x_data := map (fun r => to_numeric (cell_at df r (Z.to_nat x))) rows;
         y_data := map (fun r => to_numeric (cell_at df r (Z.to_nat y))) rows;
         label := "(" ++ nth (Z.to_nat x) (column_names df) EmptyString ++ " vs "
                  ++ nth (Z.to_nat y) (column_names df) EmptyString ++ ")";
         use_twinx := twinx_checkbox widget |}
  | _, _ =>
      {| x_data := []; y_data := []; label := EmptyString; use_twinx := false |}
  end.

(** The window of the 1D tab as [__init__] and [init_ui] leave it. *)
Definition initial : window :=
  {| current_1d_df := None;
     current_1d_file_path := None;
     series_input_widgets :=
       [{| x_input := str 0; y_input := str 1; twinx_checkbox := false |}];
     data_plotter_1d := Cleared;
     data_1d_display := EmptyString;
     plot_1d_title_input := "1D Line Plot";
     plot_1d_xaxis_input := "X-axis";
     plot_1d_yaxis1_input := "Y-axis";
     message_boxes := [] |}.

(** [select_root_folder(is_2d=False)]. [folder_path] is what the directory
    dialog returns, the empty string when it is cancelled; the path display
    and the tree view are left out. [current_1d_df] is read after it is
    reset, and [.shape] of [None] raises. *)
Definition select_root_folder_1d (folder_path : string) (w : window)
  : result window :=
  if String.eqb folder_path EmptyString then Ok w
  else
    let w := set_data_plotter_1d clear_plot w in
    let w := set_current_1d_df None w in
    let w := set_current_1d_file_path None w in
    let w := set_data_1d_display EmptyString w in
    let w := clear_all_1d_series_inputs w in
    let w := if match current_1d_df w with
                | None => true
                | Some df => 2 <=? num_cols df
                end
             then add_plot_series_input 0 1 false w else w in
    let w := if match current_1d_df w with
                | None => true
                | Some df => 3 <=? num_cols df
                end
             then add_plot_series_input 0 3 true w else w in
    match series_input_widgets w with
    | [] =>
        match current_1d_df w with
        | None => Raise (OtherError "'NoneType' object has no attribute 'shape'")
        | Some df => Ok (add_plot_series_input 0 0 false w)
        end
    | _ :: _ => Ok w
    end.

(** [set_1d_plot_title], [set_1d_xaxis_label] and [set_1d_yaxis1_label]
    ignore their argument and recompute. *)
Definition set_1d_plot_title (title_text : string) (w : window) : window :=
  update_1d_plot_from_column_selection w.

Definition set_1d_xaxis_label (label_text : string) (w : window) : window :=
  update_1d_plot_from_column_selection w.

Definition set_1d_yaxis1_label (label_text : string) (w : window) : window :=
  update_1d_plot_from_column_selection w.

(** The positions, counted from [i], of the controls of a list that do not
    survive. *)
Fixpoint skipped_positions (df : table) (i : nat) (widgets : list series_input)
  : list nat :=
  match widgets with
  | [] => []
  | widget :: rest =>
      if survives df widget then skipped_positions df (S i) rest
      else i :: skipped_positions df (S i) rest
  end.

(** A line that can be drawn: as many x as y values, at least one point,
    no NaN. *)
Definition plottable (xs ys : list pyfloat) : Prop :=
  List.length xs = List.length ys /\
  xs <> [] /\
  Forall (fun v => isnan v = false) xs /\
  Forall (fun v => isnan v = false) ys.

(** What the loop keeps true of the preview dict: its headers are distinct
    column names, and it is not empty once a series has been collected. *)
Definition preview_ok (df : table) (st : loop_state) : Prop :=
  NoDup (map fst (display_data_dict st)) /\
  Forall (fun k => In k (column_names df)) (map fst (display_data_dict st)) /\
  (series_to_plot st <> [] -> display_data_dict st <> []).

(** A warning whose text starts with the name of the series at place [p]. *)
Definition names_series (p : nat) (m : message) : Prop :=
  fst (fst m) = Warning /\ exists rest, snd m = (series_name p ++ rest)%string.

End Table.

Arguments column_names {cell} _.
Arguments n_rows {cell} _.
Arguments cell_at {cell} _ _ _.
Arguments current_1d_df {cell} _.
Arguments current_1d_file_path {cell} _.
Arguments series_input_widgets {cell} _.
Arguments data_plotter_1d {cell} _.
Arguments data_1d_display {cell} _.
Arguments plot_1d_title_input {cell} _.
Arguments plot_1d_xaxis_input {cell} _.
Arguments plot_1d_yaxis1_input {cell} _.
Arguments message_boxes {cell} _.
Arguments num_cols {cell} _.
Arguments empty {cell} _.
Arguments initial {cell}.
Arguments preview_ok {cell} _ _.

(** A table of numbers with [n] columns and two rows; the cell at row [r]
    and column [c] holds [10 * r + c]. Its cells are floats already. *)
Definition number_table (names : list string) : table pyfloat :=
  {| column_names := names;
     n_rows := 2;
     cell_at := fun r c => Finite (Z.of_nat (10 * r + c) # 1) |}.

Definition plain_table (d : dict (list pyfloat)) : string :=
  String.concat " " (map fst d).

(** Two series controls on a two-column table: the first has the x index
    2, out of range, the second is the default (0, 1). *)
Definition shifted_window : window pyfloat :=
  set_series_input_widgets pyfloat
    [{| x_input := "2"; y_input := "1"; twinx_checkbox := false |};
     {| x_input := "0"; y_input := "1"; twinx_checkbox := false |}]
    (set_current_1d_df pyfloat (Some (number_table ["t"; "v"]%string)) initial).

End Series.

(** ** The 1D tab of [DashBoard.py]

    The first version of the window reads one x column and one or two y
    columns from a file, instead of a list of series. *)

Module Legacy.
Import Py Qt.
Local Open Scope string_scope.
Local Open Scope Z_scope.

(** What its 1D canvas shows: [plot_line] draws one line and, given
    [y2_data], a second one in red on twin axes, labelled [y2_label]. *)
Inductive figure : Type :=
| Cleared
| Line (x_data y_data : list pyfloat) (title xlabel ylabel : string)
       (twin : option (list pyfloat * option string)).

Definition plot_line (x_data y_data : list pyfloat) (title xlabel ylabel : string)
    (y2_data : option (list pyfloat)) (y2_label : option string) : figure :=
  Line x_data y_data title xlabel ylabel
    (match y2_data with
     | Some y2 => Some (y2, y2_label)
     | None => None
     end).

Definition clear_plot : figure := Cleared.

(** [valid_indices & ~np.isnan(y2)] *)
Fixpoint and_not_nan (mask : list bool) (y2 : list pyfloat) : list bool :=
  match mask, y2 with
  | b :: mask', v :: y2' => (b && negb (isnan v)) :: and_not_nan mask' y2'
  | _, _ => []
  end.

Section Table.

Variable cell : Type.
Variable to_numeric : cell -> pyfloat.
Variable to_string : dict (list pyfloat) -> string.

Local Abbreviation table := (Series.table cell).
Local Abbreviation numeric_column := (Series.numeric_column cell to_numeric).

Record window : Type := mk_window {
  current_1d_file_path : option string;
  data_1d_loaded_x : option (list pyfloat);
  data_1d_loaded_y1 : option (list pyfloat);
  data_1d_loaded_y2 : option (list pyfloat);
  data_plotter_1d : figure;
  data_1d_display : string;
  plot_1d_title_input : string;
  plot_1d_xaxis_input : string;
  plot_1d_yaxis1_input : string;
  plot_1d_yaxis2_input : string;
  plot_1d_yaxis2_enabled : bool;
  message_boxes : list message
}.

Definition set_current_1d_file_path (v : option string) (w : window) : window :=
  mk_window v (data_1d_loaded_x w) (data_1d_loaded_y1 w) (data_1d_loaded_y2 w)
    (data_plotter_1d w) (data_1d_display w) (plot_1d_title_input w)
    (plot_1d_xaxis_input w) (plot_1d_yaxis1_input w) (plot_1d_yaxis2_input w)
    (plot_1d_yaxis2_enabled w) (message_boxes w).

Definition set_data_1d_loaded (x y1 y2 : option (list pyfloat)) (w : window)
  : window :=
  mk_window (current_1d_file_path w) x y1 y2
    (data_plotter_1d w) (data_1d_display w) (plot_1d_title_input w)
    (plot_1d_xaxis_input w) (plot_1d_yaxis1_input w) (plot_1d_yaxis2_input w)
    (plot_1d_yaxis2_enabled w) (message_boxes w).

Definition set_data_plotter_1d (v : figure) (w : window) : window :=
  mk_window (current_1d_file_path w) (data_1d_loaded_x w) (data_1d_loaded_y1 w)
    (data_1d_loaded_y2 w) v (data_1d_display w) (plot_1d_title_input w)
    (plot_1d_xaxis_input w) (plot_1d_yaxis1_input w) (plot_1d_yaxis2_input w)
    (plot_1d_yaxis2_enabled w) (message_boxes w).

Definition set_data_1d_display (v : string) (w : window) : window :=
  mk_window (current_1d_file_path w) (data_1d_loaded_x w) (data_1d_loaded_y1 w)
    (data_1d_loaded_y2 w) (data_plotter_1d w) v (plot_1d_title_input w)
    (plot_1d_xaxis_input w) (plot_1d_yaxis1_input w) (plot_1d_yaxis2_input w)
    (plot_1d_yaxis2_enabled w) (message_boxes w).

(** [self.plot_1d_yaxis2_input.setEnabled(v)] *)
Definition set_plot_1d_yaxis2_enabled (v : bool) (w : window) : window :=
  mk_window (current_1d_file_path w) (data_1d_loaded_x w) (data_1d_loaded_y1 w)
    (data_1d_loaded_y2 w) (data_plotter_1d w) (data_1d_display w)
    (plot_1d_title_input w) (plot_1d_xaxis_input w) (plot_1d_yaxis1_input w)
    (plot_1d_yaxis2_input w) v (message_boxes w).

Definition message_box (i : icon) (title text : string) (w : window) : window :=
  mk_window (current_1d_file_path w) (data_1d_loaded_x w) (data_1d_loaded_y1 w)
    (data_1d_loaded_y2 w) (data_plotter_1d w) (data_1d_display w)
    (plot_1d_title_input w) (plot_1d_xaxis_input w) (plot_1d_yaxis1_input w)
    (plot_1d_yaxis2_input w) (plot_1d_yaxis2_enabled w)
    (message_boxes w ++ [(i, title, text)]).

(** What the two attempts of [pd.read_csv] come to: the data frame read
    with a header; the text of the exception of the first attempt and the
    data frame read without a header; or the texts of both exceptions. *)
Inductive read_1d : Type :=
| WithHeader (df : table)
| WithoutHeader (reason : string) (df : table)
| Unreadable (reason reason2 : string).

(** What the [try] block comes to: it ends, or it raises an exception of
    which the handler prints the text. *)
Inductive outcome : Type :=
| Done
| Raised (text : string).

(** [[f"Column {i+1}" for i in range(df.shape[1])]] *)
Definition default_header_names (df : table) : list string :=
  map (fun i => "Column " ++ str (Z.of_nat i + 1))
      (seq 0 (List.length (Series.column_names df))).

(** The [try] block from the filter of the NaN values on; the three arrays
    are the [data_1d_loaded_*] just assigned. *)
Definition show_loaded (file_path : string) (header_names : list string)
    (x y1 : list pyfloat) (y2 : option (list pyfloat)) (w : window) : window :=
  let valid_indices := Series.valid_mask x y1 in
  let valid_indices := match y2 with
                       | Some y2 => and_not_nan valid_indices y2
                       | None => valid_indices
                       end in
  let x_to_plot := Series.select x valid_indices in
  let y1_to_plot := Series.select y1 valid_indices in
  let y2_to_plot := match y2 with
                    | Some y2 => Some (Series.select y2 valid_indices)
                    | None => None
                    end in
  let w :=
    if 0 <? len x_to_plot then
      let w := set_data_plotter_1d
                 (plot_line x_to_plot y1_to_plot (basename file_path)
                    (plot_1d_xaxis_input w) (plot_1d_yaxis1_input w) y2_to_plot
                    (match y2_to_plot with
                     | Some _ => Some (plot_1d_yaxis2_input w)
                     | None => None
                     end)) w in
      let data_dict : dict (list pyfloat) := [] in
      let data_dict :=
        dict_set data_dict
          (if 1 <=? len header_names then nth 0 header_names EmptyString
           else plot_1d_xaxis_input w) x_to_plot in
      let data_dict :=
        dict_set data_dict
          (if 2 <=? len header_names then nth 1 header_names EmptyString
           else plot_1d_yaxis1_input w) y1_to_plot in
      let data_dict :=
        match y2_to_plot with
        | Some y2_to_plot =>
            dict_set data_dict
              (if 3 <=? len header_names then nth 2 header_names EmptyString
               else plot_1d_yaxis2_input w) y2_to_plot
        | None => data_dict
        end in
      set_data_1d_display (to_string data_dict) w
    else
      let w := message_box Warning "No Plottable Data"
                 ("No valid numeric data points found in '" ++
                  basename file_path ++ "' to plot.") w in
      let w := set_data_plotter_1d clear_plot w in
      set_data_1d_display EmptyString w in
  set_plot_1d_yaxis2_enabled
    (match y2 with Some _ => true | None => false end) w.

(** The [try] block from "Determine number of columns and assign data" on.
    [df.iloc[:, 3]] raises [IndexError] on a data frame of three columns. *)
Definition assign_and_show (file_path : string) (df : table)
    (header_names : list string) (w : window) : outcome * window :=
  if 3 <=? Series.num_cols df then
    let x := numeric_column df 0 in
    let w := set_data_1d_loaded (Some x) (data_1d_loaded_y1 w)
               (data_1d_loaded_y2 w) w in
    let y1 := numeric_column df 1 in
    let w := set_data_1d_loaded (data_1d_loaded_x w) (Some y1)
               (data_1d_loaded_y2 w) w in
    if 3 <? Series.num_cols df then
      let y2 := numeric_column df 3 in
      let w := set_data_1d_loaded (data_1d_loaded_x w) (data_1d_loaded_y1 w)
                 (Some y2) w in
      (Done, show_loaded file_path header_names x y1 (Some y2) w)
    else
      (Raised "single positional indexer is out-of-bounds", w)
  else if 2 <=? Series.num_cols df then
    let x := numeric_column df 0 in
    let y1 := numeric_column df 1 in
    let w := set_data_1d_loaded (Some x) (Some y1) None w in
    let header_names := if 2 <? len header_names
                        then firstn 2 header_names else header_names in
    (Done, show_loaded file_path header_names x y1 None w)
  else
    (Raised
       "Not enough columns found in 1D data. Expected at least two for X and Y.",
     w).

Definition _load_and_plot_1d (file_path : string) (read : read_1d) (w : window)
  : window :=
  let w := set_current_1d_file_path (Some file_path) w in
  let w := set_data_plotter_1d clear_plot w in
  let w := set_data_1d_display EmptyString w in
  let header_warning reason :=
    message_box Warning "1D Data Header Warning"
      ("Could not read '" ++ basename file_path ++
       "' with header. Attempting without header. Reason: " ++ reason) in
  let '(tried, w) :=
    match read with
    | WithHeader df =>
        assign_and_show file_path df (Series.column_names df) w
    | WithoutHeader reason df =>
        assign_and_show file_path df (default_header_names df)
          (header_warning reason w)
    | Unreadable reason reason2 => (Raised reason2, header_warning reason w)
    end in
  match tried with
  | Done => w
  | Raised e =>
      let w := message_box Critical "1D Data Load Error"
                 ("Failed to load 1D data from '" ++ basename file_path ++ "':"
                  ++ newline ++ e) w in
      let w := set_data_plotter_1d clear_plot w in
      let w := set_data_1d_loaded None None None w in
      let w := set_data_1d_display EmptyString w in
      set_plot_1d_yaxis2_enabled false w
  end.

(** [set_1d_plot_title]: it draws the arrays as they were loaded, not the
    filtered ones. *)
Definition set_1d_plot_title (title_text : string) (w : window) : window :=
  match data_1d_loaded_x w, data_1d_loaded_y1 w with
  | Some x, Some y1 =>
      set_data_plotter_1d
        (plot_line x y1 title_text (plot_1d_xaxis_input w)
           (plot_1d_yaxis1_input w) (data_1d_loaded_y2 w)
           (match data_1d_loaded_y2 w with
            | Some _ => Some (plot_1d_yaxis2_input w)
            | None => None
            end)) w
  | _, _ => w
  end.

(** [set_1d_yaxis2_label] *)
Definition set_1d_yaxis2_label (label_text : string) (w : window) : window :=
  match data_1d_loaded_x w, data_1d_loaded_y1 w, data_1d_loaded_y2 w with
  | Some x, Some y1, Some y2 =>
      set_data_plotter_1d
        (plot_line x y1 (plot_1d_title_input w) (plot_1d_xaxis_input w)
           (plot_1d_yaxis1_input w) (Some y2) (Some label_text)) w
  | _, _, _ => w
  end.

(** [select_root_folder(is_2d=False)], the path display and the tree view
    left out; [folder_path] is empty when the dialog is cancelled. *)
Definition select_root_folder_1d (folder_path : string) (w : window) : window :=
  if String.eqb folder_path EmptyString then w
  else
    let w := set_data_plotter_1d clear_plot w in
    let w := set_data_1d_loaded None None None w in
    let w := set_current_1d_file_path None w in
    set_data_1d_display EmptyString w.

(** The rows of a data frame where the columns 0 and 1 are numeric, and
    those where the column 3 is numeric too. *)
Definition two_numeric (df : table) (r : nat) : bool :=
  negb (isnan (to_numeric (Series.cell_at df r 0))) &&
  negb (isnan (to_numeric (Series.cell_at df r 1))).

Definition three_numeric (df : table) (r : nat) : bool :=
  two_numeric df r && negb (isnan (to_numeric (Series.cell_at df r 3))).

(** The data frame of a read, if there is one. *)
Definition frame_of (read : read_1d) : option table :=
  match read with
  | WithHeader df => Some df
  | WithoutHeader _ df => Some df
  | Unreadable _ _ => None
  end.

(** The window of the 1D tab as [__init__] and [init_ui] leave it. *)
Definition initial : window :=
  {| current_1d_file_path := None;
     data_1d_loaded_x := None;
     data_1d_loaded_y1 := None;
     data_1d_loaded_y2 := None;
     data_plotter_1d := Cleared;
     data_1d_display := EmptyString;
     plot_1d_title_input := "1D Line Plot";
     plot_1d_xaxis_input := "X-axis";
     plot_1d_yaxis1_input := "Y1-axis";
     plot_1d_yaxis2_input := "Y2-axis";
     plot_1d_yaxis2_enabled := true;
     message_boxes := [] |}.

End Table.


(** A table of numbers as [Series.number_table], but for the cell of its
    second row in the column 3, which is not numeric. *)
Definition gap_table (names : list string) : Series.table pyfloat :=
  {| Series.column_names := names;
     Series.n_rows := 2;
     Series.cell_at := fun r c =>
       if (Nat.eqb r 1 && Nat.eqb c 3)%bool then NaN
       else Finite (Z.of_nat (10 * r + c) # 1) |}.

End Legacy.

(** ** The theme *)

Module Theme.
Local Open Scope string_scope.

(** The two stylesheets of [apply_stylesheet]. *)
Inductive stylesheet : Type :=
| light_stylesheet
| dark_stylesheet.

Record window : Type := {
  current_theme : string;
  styleSheet : stylesheet
}.

Definition apply_stylesheet (theme : string) (w : window) : window :=
  {| current_theme := current_theme w;
     styleSheet := if String.eqb theme "light"
                   then light_stylesheet else dark_stylesheet |}.

Definition toggle_theme (w : window) : window :=
  let w := {| current_theme := if String.eqb (current_theme w) "light"
                               then "dark" else "light";
              styleSheet := styleSheet w |} in
  apply_stylesheet (current_theme w) w.

(** The theme as [__init__] leaves it; [blank] is the sheet of a window
    that has none yet. *)
Definition initial (blank : stylesheet) : window :=
  apply_stylesheet "light" {| current_theme := "light"; styleSheet := blank |}.

End Theme.

(** * Properties *)

(** ** Python values *)

Module PyFacts.
Import Py.

Lemma string_of_uint_digits (d : uint) :
  all_digits (NilEmpty.string_of_uint d) = true.
Proof. induction d; cbn [NilEmpty.string_of_uint all_digits]; rewrite ?IHd; reflexivity. Qed.

Lemma digit_not_space (c : ascii) : is_digit c = true -> is_space c = false.
Proof.
  unfold is_digit, is_space. intros H.
  apply andb_true_iff in H. destruct H as [H1 H2].
  apply Nat.leb_le in H1. apply Nat.leb_le in H2.
  destruct (Nat.leb_spec 9 (nat_of_ascii c)), (Nat.leb_spec (nat_of_ascii c) 13),
           (Nat.eqb_spec (nat_of_ascii c) 32);
    cbn; try reflexivity; lia.
Qed.

Lemma digit_not_special (c : ascii) :
  is_digit c = true ->
  Ascii.eqb c "_" = false /\ c <> "+"%char /\ c <> "-"%char.
Proof.
  intros H. repeat split.
  - destruct (Ascii.eqb_spec c "_"); [subst; discriminate|reflexivity].
  - intros ->. discriminate.
  - intros ->. discriminate.
Qed.

Lemma rstrip_digits (s : string) : all_digits s = true -> rstrip s = s.
Proof.
  induction s as [|c r IH]; cbn [all_digits rstrip]; [reflexivity|].
  intros H. apply andb_true_iff in H. destruct H as [Hc Hr].
  rewrite (IH Hr). destruct r; [|reflexivity].
  rewrite (digit_not_space c Hc). reflexivity.
Qed.

Lemma strip_digits (s : string) : all_digits s = true -> strip s = s.
Proof.
  intros H. unfold strip.
  destruct s as [|c r]; [reflexivity|].
  cbn [lstrip]. cbn [all_digits] in H.
  pose proof H as H'. apply andb_true_iff in H'. destruct H' as [Hc _].
  rewrite (digit_not_space c Hc). apply rstrip_digits. exact H.
Qed.

Lemma scan_digits_digits (s : string) :
  all_digits s = true -> scan_digits false s = Some s.
Proof.
  induction s as [|c r IH]; cbn [all_digits scan_digits]; [reflexivity|].
  intros H. apply andb_true_iff in H. destruct H as [Hc Hr].
  destruct (digit_not_special c Hc) as (-> & _ & _).
  rewrite Hc, (IH Hr). reflexivity.
Qed.

Lemma unsigned_of_string_uint (d : uint) :
  d <> Nil ->
  unsigned_of_string (NilEmpty.string_of_uint d) = Some (Z.of_N (N.of_uint d)).
Proof.
  intros Hd. unfold unsigned_of_string.
  pose proof (string_of_uint_digits d) as Hdig.
  destruct (NilEmpty.string_of_uint d) as [|c r] eqn:E.
  - destruct d; try discriminate. congruence.
  - pose proof Hdig as H'. cbn [all_digits] in H'.
    apply andb_true_iff in H'. destruct H' as [Hc _].
    destruct (digit_not_special c Hc) as (-> & _ & _).
    rewrite (scan_digits_digits _ Hdig), <- E, NilEmpty.usu. reflexivity.
Qed.

Lemma int_string_of_uint (d : uint) :
  d <> Nil -> int (NilEmpty.string_of_uint d) = Some (Z.of_N (N.of_uint d)).
Proof.
  intros Hd. unfold int.
  rewrite (strip_digits _ (string_of_uint_digits d)).
  pose proof (string_of_uint_digits d) as Hdig.
  pose proof (unsigned_of_string_uint d Hd) as U.
  destruct (NilEmpty.string_of_uint d) as [|c r] eqn:E; [exact U|].
  cbn [all_digits] in Hdig. apply andb_true_iff in Hdig. destruct Hdig as [Hc _].
  destruct (digit_not_special c Hc) as (_ & Hp & Hm).
  destruct c as [[] [] [] [] [] [] [] []]; try exact U; congruence.
Qed.

(** [int(str(n)) == n] *)
Lemma int_str (n : Z) : int (str n) = Some n.
Proof.
  unfold str. destruct n as [|p|p]; cbn [Z.to_int NilZero.string_of_int].
  - reflexivity.
  - pose proof (Unsigned.to_uint_nonnil p) as Hn.
    assert (S : NilZero.string_of_uint (Pos.to_uint p)
                = NilEmpty.string_of_uint (Pos.to_uint p)).
    { unfold NilZero.string_of_uint. destruct (Pos.to_uint p); congruence. }
    rewrite S, (int_string_of_uint _ Hn).
    unfold N.of_uint. rewrite Unsigned.of_to. reflexivity.
  - pose proof (Unsigned.to_uint_nonnil p) as Hn.
    assert (S : NilZero.string_of_uint (Pos.to_uint p)
                = NilEmpty.string_of_uint (Pos.to_uint p)).
    { unfold NilZero.string_of_uint. destruct (Pos.to_uint p); congruence. }
    rewrite S. unfold int.
    assert (St : strip (String "-" (NilEmpty.string_of_uint (Pos.to_uint p)))
                 = String "-" (NilEmpty.string_of_uint (Pos.to_uint p))).
    { unfold strip. cbn [lstrip]. change (is_space "-") with false. cbn iota.
      cbn [rstrip]. rewrite (rstrip_digits _ (string_of_uint_digits _)).
      destruct (NilEmpty.string_of_uint (Pos.to_uint p)); reflexivity. }
    rewrite St, (unsigned_of_string_uint _ Hn).
    unfold N.of_uint. rewrite Unsigned.of_to. reflexivity.
Qed.

Lemma str_nonempty (n : Z) : str n <> EmptyString.
Proof.
  intros H. pose proof (int_str n) as I. rewrite H in I. discriminate.
Qed.

Example str_0 : str 0 = "0"%string.
Proof. reflexivity. Qed.

Example format_2f_30 : format_2f (Finite (30 # 1)) = "30.00"%string.
Proof. reflexivity. Qed.

Example format_2f_tie : format_2f (Finite (1 # 8)) = "0.12"%string.
Proof. reflexivity. Qed.

Example format_2f_small_negative :
  format_2f (Finite (-1 # 1000)) = "-0.00"%string.
Proof. reflexivity. Qed.

Example int_examples :
  int " +1_000 "%string = Some 1000 /\ int "-07"%string = Some (-7) /\
  int "1__0"%string = None /\ int "abc"%string = None /\
  int ""%string = None /\ int "- 5"%string = None /\
  int (String (ascii_of_nat 28) "1") = None /\ int "False"%string = None.
Proof. repeat split; reflexivity. Qed.

Example format_2f_not_finite :
  format_2f NegZero = "-0.00"%string /\ format_2f (Inf true) = "-inf"%string /\
  format_2f NaN = "nan"%string.
Proof. repeat split; reflexivity. Qed.

Example basename_example : basename "/data/run1/map.CSV"%string = "map.CSV"%string.
Proof. reflexivity. Qed.

Example dict_literal2_same_key :
  dict_literal2 "a"%string 1 "a"%string 2 = [("a"%string, 2)].
Proof. reflexivity. Qed.

End PyFacts.

(** ** The cut navigator *)

Module CutsFacts.
Import Py Qt DataPlotter Cuts.

Lemma axis_index_ok (n : nat) (i : Z) :
  0 <= i < Z.of_nat n -> axis_index n i = Ok (Z.to_nat i).
Proof.
  intros H. unfold axis_index.
  destruct (Z.ltb_spec i 0); [lia|].
  destruct (Z.leb_spec 0 i); [|lia].
  destruct (Z.ltb_spec i (Z.of_nat n)); [|lia].
  reflexivity.
Qed.

Lemma getitem_ok {A : Type} (l : list A) (i : Z) :
  0 <= i < Z.of_nat (List.length l) ->
  exists a, getitem l i = Ok a /\ nth_error l (Z.to_nat i) = Some a.
Proof.
  intros H. unfold getitem, len.
  destruct (Z.ltb_spec i 0); [lia|].
  destruct (Z.leb_spec 0 i); [|lia].
  destruct (Z.ltb_spec i (Z.of_nat (List.length l))); [|lia].
  cbn [andb].
  destruct (nth_error l (Z.to_nat i)) as [a|] eqn:E.
  - exists a. split; reflexivity.
  - apply nth_error_None in E. lia.
Qed.

Lemma DataFrame_literal2_ok (k1 k2 : string) (v1 v2 : list pyfloat) :
  List.length v1 = List.length v2 ->
  DataFrame (dict_literal2 k1 v1 k2 v2) = Ok (dict_literal2 k1 v1 k2 v2).
Proof.
  intros H. unfold dict_literal2. cbn [dict_set].
  destruct (String.eqb k1 k2); cbn.
  - reflexivity.
  - rewrite H, Nat.eqb_refl. reflexivity.
Qed.

Lemma row_ok (a : ndarray) (i : Z) :
  0 <= i < Z.of_nat (shape0 a) ->
  row a i = Ok (map (fun c => item a (Z.to_nat i) c) (seq 0 (shape1 a))).
Proof. intros H. unfold row. rewrite axis_index_ok by exact H. reflexivity. Qed.

Lemma column_ok (a : ndarray) (j : Z) :
  0 <= j < Z.of_nat (shape1 a) ->
  column a j = Ok (map (fun r => item a r (Z.to_nat j)) (seq 0 (shape0 a))).
Proof. intros H. unfold column. rewrite axis_index_ok by exact H. reflexivity. Qed.

Section WithRendering.

Variable to_string : dict (list pyfloat) -> string.

(** With a matrix loaded, [update_2d_cuts] returns and shows [cuts_shown]. *)
Lemma update_2d_cuts_loaded (w : window) (data : ndarray) :
  loaded w data ->
  exists xs ys y_coord x_coord,
    x_coords_2d w = Some xs /\ y_coords_2d w = Some ys /\
    nth_error ys (Z.to_nat (Z.max 0 (Z.min (current_y_cut_idx w)
                              (Z.of_nat (shape0 data) - 1)))) = Some y_coord /\
    nth_error xs (Z.to_nat (Z.max 0 (Z.min (current_x_cut_idx w)
                              (Z.of_nat (shape1 data) - 1)))) = Some x_coord /\
    update_2d_cuts to_string w
    = (Ok tt, cuts_shown to_string w data xs ys y_coord x_coord).
Proof.
  intros (Hd & (xs & Hx & Lx) & (ys & Hy & Ly) & R & C).
  set (yi := Z.max 0 (Z.min (current_y_cut_idx w) (Z.of_nat (shape0 data) - 1))).
  set (xi := Z.max 0 (Z.min (current_x_cut_idx w) (Z.of_nat (shape1 data) - 1))).
  assert (Byi : 0 <= yi < Z.of_nat (shape0 data)) by (subst yi; lia).
  assert (Bxi : 0 <= xi < Z.of_nat (shape1 data)) by (subst xi; lia).
  destruct (getitem_ok ys yi) as (yc & Gy & Ny); [rewrite Ly; exact Byi|].
  destruct (getitem_ok xs xi) as (xc & Gx & Nx); [rewrite Lx; exact Bxi|].
  exists xs, ys, yc, xc. repeat (split; [assumption|]).
  unfold update_2d_cuts, cuts_shown.
  destruct w; cbn in Hd, Hx, Hy, yi, xi.
  subst data_2d_loaded0 x_coords_2d0 y_coords_2d0.
  cbv [bind modify gets lift ret].
  cbn -[String.append format_2f str Z.max Z.min Z.of_nat Z.sub plot_line
        dict_literal2 row column getitem DataFrame].
  fold yi xi.
  rewrite (row_ok data yi Byi), Gy.
  rewrite DataFrame_literal2_ok by (rewrite length_map, length_seq; exact Lx).
  rewrite (column_ok data xi Bxi), Gx.
  rewrite DataFrame_literal2_ok by (rewrite length_map, length_seq; exact Ly).
  reflexivity.
Qed.

(** Without a matrix, [update_2d_cuts] clears the cuts and shows "0". *)
Lemma update_2d_cuts_no_matrix (w : window) :
  data_2d_loaded w = None ->
  update_2d_cuts to_string w
  = (Ok tt,
     set_y_cut_index_input "0"
       (set_x_cut_index_input "0"
          (set_y_cut_data_display EmptyString
             (set_x_cut_data_display EmptyString
                (set_data_plotter_2d_y_cut Cleared
                   (set_data_plotter_2d_x_cut Cleared
                      (set_cut_updates (S (cut_updates w)) w))))))).
Proof.
  intros Hd. unfold update_2d_cuts.
  cbv [bind modify gets lift ret]. cbn. rewrite Hd. reflexivity.
Qed.

Lemma cuts_shown_loaded (w : window) (data : ndarray) (xs ys : list pyfloat)
    (yc xc : pyfloat) :
  List.length xs = shape1 data -> List.length ys = shape0 data ->
  (1 <= shape0 data)%nat -> (1 <= shape1 data)%nat ->
  loaded (cuts_shown to_string w data xs ys yc xc) data /\
  in_bounds (cuts_shown to_string w data xs ys yc xc).
Proof.
  intros Lx Ly R C. split.
  - repeat split; cbn; try assumption; eauto.
  - unfold in_bounds. cbn. lia.
Qed.

(** Clamping leaves an index within the matrix as it is. *)
Lemma cuts_shown_idx (w : window) (data : ndarray) (xs ys : list pyfloat)
    (yc xc : pyfloat) :
  data_2d_loaded w = Some data -> in_bounds w ->
  current_y_cut_idx (cuts_shown to_string w data xs ys yc xc) = current_y_cut_idx w /\
  current_x_cut_idx (cuts_shown to_string w data xs ys yc xc) = current_x_cut_idx w.
Proof.
  intros Hd. unfold in_bounds. rewrite Hd. cbn. lia.
Qed.

Lemma clamp_max_min (v hi : Z) :
  0 <= hi -> Z.max 0 (Z.min hi v) = clamp v 0 hi.
Proof.
  intros H. unfold clamp.
  destruct (Z.ltb_spec v 0); [lia|].
  destruct (Z.ltb_spec hi v); lia.
Qed.

(** [navigate_2d_cut] with a matrix loaded: the move, the two texts, then
    [update_2d_cuts]. *)
Lemma navigate_2d_cut_loaded (w : window) (data : ndarray)
    (cut_type : string) (direction : Z) :
  data_2d_loaded w = Some data ->
  let w1 :=
    if String.eqb cut_type "x" then
      set_current_y_cut_idx
        (Z.max 0 (Z.min (Z.of_nat (shape0 data) - 1)
                        (current_y_cut_idx w + direction))) w
    else if String.eqb cut_type "y" then
      set_current_x_cut_idx
        (Z.max 0 (Z.min (Z.of_nat (shape1 data) - 1)
                        (current_x_cut_idx w + direction))) w
    else w in
  navigate_2d_cut to_string cut_type direction w
  = update_2d_cuts to_string
      (set_x_cut_index_input (str (current_x_cut_idx w1))
         (set_y_cut_index_input (str (current_y_cut_idx w1)) w1)).
Proof.
  intros Hd. unfold navigate_2d_cut.
  cbv [bind gets modify ret]. rewrite Hd.
  destruct (String.eqb cut_type "x"); [reflexivity|].
  destruct (String.eqb cut_type "y"); reflexivity.
Qed.

(** The cases of [set_2d_cut_indices] with a matrix loaded. *)
Lemma set_2d_cut_indices_not_integer (w : window) (data : ndarray)
    (text axis_type : string) :
  data_2d_loaded w = Some data ->
  text <> EmptyString -> int text = None ->
  axis_type = "y"%string \/ axis_type = "x"%string ->
  exists w',
    set_2d_cut_indices to_string text axis_type w = (Ok tt, w') /\
    current_y_cut_idx w' = current_y_cut_idx w /\
    current_x_cut_idx w' = current_x_cut_idx w /\
    cut_field axis_type w' = str (cut_index axis_type w) /\
    cut_updates w' = cut_updates w /\
    data_2d_loaded w' = Some data /\
    message_boxes w' = message_boxes w ++ [invalid_input_warning].
Proof.
  intros Hd Ht Hi Hax. unfold set_2d_cut_indices.
  cbv [bind gets]. rewrite Hd.
  destruct (String.eqb_spec text EmptyString) as [E|_]; [contradiction|].
  unfold try_except, lift, int_. rewrite Hi.
  destruct Hax as [-> | ->];
    (eexists; split; [reflexivity|]; destruct w; cbn in *;
     repeat split; try reflexivity; assumption).
Qed.

Lemma set_2d_cut_indices_out_of_range (w : window) (data : ndarray)
    (text axis_type : string) (v : Z) :
  data_2d_loaded w = Some data ->
  int text = Some v ->
  ~ (0 <= v <= max_index axis_type data) ->
  axis_type = "y"%string \/ axis_type = "x"%string ->
  exists w',
    set_2d_cut_indices to_string text axis_type w = (Ok tt, w') /\
    current_y_cut_idx w' = current_y_cut_idx w /\
    current_x_cut_idx w' = current_x_cut_idx w /\
    cut_field axis_type w' = str (cut_index axis_type w) /\
    cut_updates w' = cut_updates w /\
    data_2d_loaded w' = Some data /\
    message_boxes w' = message_boxes w ++ [range_warning axis_type data].
Proof.
  intros Hd Hi Hr Hax. unfold set_2d_cut_indices.
  cbv [bind gets]. rewrite Hd.
  destruct (String.eqb_spec text EmptyString) as [E|_];
    [subst text; discriminate|].
  unfold try_except, lift, int_. rewrite Hi.
  destruct Hax as [-> | ->]; cbn [String.eqb Ascii.eqb Bool.eqb] in *;
    unfold max_index in Hr; cbn [String.eqb Ascii.eqb Bool.eqb] in Hr.
  - destruct (Z.leb_spec 0 v); [destruct (Z.leb_spec v (Z.of_nat (shape0 data) - 1)); [lia|]|];
      (eexists; split; [reflexivity|]; destruct w; cbn in *;
       repeat split; try reflexivity; assumption).
  - destruct (Z.leb_spec 0 v); [destruct (Z.leb_spec v (Z.of_nat (shape1 data) - 1)); [lia|]|];
      (eexists; split; [reflexivity|]; destruct w; cbn in *;
       repeat split; try reflexivity; assumption).
Qed.

Lemma set_2d_cut_indices_same (w : window) (data : ndarray)
    (text axis_type : string) (v : Z) :
  data_2d_loaded w = Some data ->
  int text = Some v ->
  0 <= v <= max_index axis_type data ->
  axis_type = "y"%string \/ axis_type = "x"%string ->
  cut_index axis_type w = v ->
  set_2d_cut_indices to_string text axis_type w = (Ok tt, w).
Proof.
  intros Hd Hi Hr Hax Hc. unfold set_2d_cut_indices.
  cbv [bind gets]. rewrite Hd.
  destruct (String.eqb_spec text EmptyString) as [E|_];
    [subst text; discriminate|].
  unfold try_except, lift, int_. rewrite Hi.
  destruct Hax as [-> | ->]; cbn [String.eqb Ascii.eqb Bool.eqb] in *;
    unfold max_index, cut_index in *; cbn [String.eqb Ascii.eqb Bool.eqb] in *.
  - destruct (Z.leb_spec 0 v); [|lia].
    destruct (Z.leb_spec v (Z.of_nat (shape0 data) - 1)); [|lia].
    cbn [andb]. rewrite Hc, Z.eqb_refl. reflexivity.
  - destruct (Z.leb_spec 0 v); [|lia].
    destruct (Z.leb_spec v (Z.of_nat (shape1 data) - 1)); [|lia].
    cbn [andb]. rewrite Hc, Z.eqb_refl. reflexivity.
Qed.

Lemma set_2d_cut_indices_new (w : window) (data : ndarray)
    (text axis_type : string) (v : Z) :
  loaded w data ->
  int text = Some v ->
  0 <= v <= max_index axis_type data ->
  axis_type = "y"%string \/ axis_type = "x"%string ->
  cut_index axis_type w <> v ->
  let w1 := if String.eqb axis_type "y" then set_current_y_cut_idx v w
            else set_current_x_cut_idx v w in
  set_2d_cut_indices to_string text axis_type w = update_2d_cuts to_string w1.
Proof.
  intros Hl Hi Hr Hax Hc w1. pose proof Hl as (Hd & _).
  unfold set_2d_cut_indices.
  cbv [bind gets]. rewrite Hd.
  destruct (String.eqb_spec text EmptyString) as [E|_];
    [subst text; discriminate|].
  unfold try_except, lift, int_. rewrite Hi.
  assert (Hl1 : loaded w1 data).
  { subst w1. destruct (String.eqb axis_type "y"); exact Hl. }
  destruct (update_2d_cuts_loaded w1 data Hl1) as (xs & ys & yc & xc & _ & _ & _ & _ & U).
  destruct Hax as [-> | ->]; cbn [String.eqb Ascii.eqb Bool.eqb] in *;
    unfold max_index, cut_index in *; cbn [String.eqb Ascii.eqb Bool.eqb] in *.
  - destruct (Z.leb_spec 0 v); [|lia].
    destruct (Z.leb_spec v (Z.of_nat (shape0 data) - 1)); [|lia].
    cbn [andb]. destruct (Z.eqb_spec (current_y_cut_idx w) v); [contradiction|].
    cbn [negb]. cbv [modify]. fold w1. rewrite U. reflexivity.
  - destruct (Z.leb_spec 0 v); [|lia].
    destruct (Z.leb_spec v (Z.of_nat (shape1 data) - 1)); [|lia].
    cbn [andb]. destruct (Z.eqb_spec (current_x_cut_idx w) v); [contradiction|].
    cbn [negb]. cbv [modify]. fold w1. rewrite U. reflexivity.
Qed.

(** The empty text is ignored, whatever the window. *)
Lemma set_2d_cut_indices_empty (w : window) (axis_type : string) :
  set_2d_cut_indices to_string EmptyString axis_type w = (Ok tt, w).
Proof.
  unfold set_2d_cut_indices. cbv [bind gets ret].
  destruct (data_2d_loaded w); reflexivity.
Qed.

Lemma getitem_first {A : Type} (a : A) (l : list A) : getitem (a :: l) 0 = Ok a.
Proof.
  unfold getitem, len. cbn [Z.ltb Z.compare Z.leb].
  destruct (Z.ltb_spec 0 (Z.of_nat (List.length (a :: l)))) as [_|H].
  - reflexivity.
  - cbn [List.length] in H. lia.
Qed.

Lemma getitem_last {A : Type} (a : A) (l : list A) :
  exists b, getitem (a :: l) (-1) = Ok b.
Proof.
  unfold getitem, len. change (-1 <? 0) with true. cbn iota.
  set (n := Z.of_nat (List.length (a :: l))).
  assert (Hn : 1 <= n) by (subst n; cbn [List.length]; lia).
  destruct (Z.leb_spec 0 (-1 + n)); [|lia].
  destruct (Z.ltb_spec (-1 + n) n); [|lia].
  cbn [andb].
  destruct (nth_error (a :: l) (Z.to_nat (-1 + n))) as [b|] eqn:E.
  - exists b. reflexivity.
  - apply nth_error_None in E. subst n. lia.
Qed.

(** [plot_image] draws exactly when both coordinate vectors have an item,
    the matrix has a number dtype and the ends of both vectors are finite. *)
Lemma plot_image_cases (data : ndarray) (xs ys : list pyfloat)
    (title xlabel ylabel cbar : string) :
  (xs <> [] /\ ys <> [] /\
   (array_dtype data = number /\
    finite_ends xs = true /\ finite_ends ys = true) /\
   exists x0 x1 y0 y1,
     plot_image data xs ys title xlabel ylabel cbar
     = Ok (Image data [x0; x1; y0; y1] title xlabel ylabel cbar)) \/
  ((xs = [] \/ ys = [] \/ array_dtype data = object \/
    finite_ends xs = false \/ finite_ends ys = false) /\
   exists e, plot_image data xs ys title xlabel ylabel cbar = Raise e).
Proof.
  unfold plot_image, finite_ends.
  destruct xs as [|x xs].
  - right. split; [left; reflexivity|]. cbn. eexists. reflexivity.
  - rewrite getitem_first. destruct (getitem_last x xs) as (x1 & ->).
    destruct ys as [|y ys].
    + right. split; [right; left; reflexivity|]. cbn. eexists. reflexivity.
    + rewrite getitem_first. destruct (getitem_last y ys) as (y1 & ->).
      destruct (array_dtype data).
      * cbn [forallb].
        destruct (isfinite x); cbn [andb];
          [|right; split; [auto|eexists; reflexivity]].
        destruct (isfinite x1); cbn [andb];
          [|right; split; [auto|eexists; reflexivity]].
        destruct (isfinite y); cbn [andb];
          [|right; split; [auto 6|eexists; reflexivity]].
        destruct (isfinite y1); cbn [andb];
          [|right; split; [auto 6|eexists; reflexivity]].
        left. split; [discriminate|]. split; [discriminate|].
        split; [auto|]. do 4 eexists. reflexivity.
      * right. split; [auto|]. eexists. reflexivity.
Qed.

Lemma length_arange (n : nat) : List.length (arange n) = n.
Proof. unfold arange. rewrite length_map, length_seq. reflexivity. Qed.

Lemma nonempty_length {A : Type} (l : list A) : l <> [] -> (1 <= List.length l)%nat.
Proof. destruct l; [congruence|cbn; lia]. Qed.

(** A load of a supported file that leaves a matrix loaded ends with
    [update_2d_cuts] on a window with that matrix, its coordinates, and both
    indices at 0. *)
Lemma load_leaves_matrix (w0 : window) (file_path : string) (file : csv_file)
    (data : ndarray) :
  supported file_path = true ->
  data_2d_loaded (snd (_load_and_plot_2d to_string file_path file w0)) = Some data ->
  exists w1,
    loaded w1 data /\
    current_x_cut_idx w1 = 0 /\ current_y_cut_idx w1 = 0 /\
    _load_and_plot_2d to_string file_path file w0 = update_2d_cuts to_string w1.
Proof.
  intros Hs. unfold _load_and_plot_2d, try_except.
  cbv [bind modify gets lift ret]. fold (supported file_path). rewrite Hs.
  unfold read_2d. cbv [bind modify gets lift ret message_box].
  destruct (structured file) as [df|parse_error].
  - destruct (existsb isnan (columns df) || existsb isnan (index df));
      cbn -[update_2d_cuts plot_image];
      match goal with
      | |- context [plot_image ?d ?xs ?ys ?t ?xl ?yl ?cb] =>
          destruct (plot_image_cases d xs ys t xl yl cb)
            as [(Hx & Hy & _ & x0 & x1 & y0 & y1 & P) | (_ & e & P)]
      end; rewrite P; try (cbn; discriminate);
      match goal with
      | |- context [update_2d_cuts to_string ?w] =>
          assert (L : loaded w (frame_values df))
            by (repeat split; cbn; eauto using nonempty_length);
          destruct (update_2d_cuts_loaded w _ L)
            as (xs & ys & yc & xc & _ & _ & _ & _ & U);
          rewrite U; cbn -[update_2d_cuts]; intros [= <-]; exists w;
          split; [exact L|]; repeat split; symmetry; exact U
      end.
  - destruct (raw file) as [m|e]; cbn -[update_2d_cuts plot_image];
      [|discriminate].
    match goal with
    | |- context [plot_image ?d ?xs ?ys ?t ?xl ?yl ?cb] =>
        destruct (plot_image_cases d xs ys t xl yl cb)
          as [(Hx & Hy & _ & x0 & x1 & y0 & y1 & P) | (_ & e & P)]
    end; rewrite P; try (cbn; discriminate).
    match goal with
    | |- context [update_2d_cuts to_string ?w] =>
        assert (L : loaded w m)
    end.
    { repeat split; cbn; eauto using length_arange.
      - rewrite <- (length_arange (shape0 m)). apply nonempty_length. assumption.
      - rewrite <- (length_arange (shape1 m)). apply nonempty_length. assumption. }
    match goal with
    | |- context [update_2d_cuts to_string ?w] =>
        destruct (update_2d_cuts_loaded w _ L)
          as (xs & ys & yc & xc & _ & _ & _ & _ & U);
        rewrite U; cbn -[update_2d_cuts]; intros [= <-]; exists w;
        split; [exact L|]; repeat split; symmetry; exact U
    end.
Qed.

(** [update_2d_cuts] keeps a loaded matrix and leaves the indices within it. *)
Lemma update_2d_cuts_preserves (w : window) (data : ndarray) :
  loaded w data ->
  exists w',
    update_2d_cuts to_string w = (Ok tt, w') /\
    loaded w' data /\ in_bounds w' /\
    cut_updates w' = S (cut_updates w) /\
    message_boxes w' = message_boxes w /\
    current_y_cut_idx w'
    = Z.max 0 (Z.min (current_y_cut_idx w) (Z.of_nat (shape0 data) - 1)) /\
    current_x_cut_idx w'
    = Z.max 0 (Z.min (current_x_cut_idx w) (Z.of_nat (shape1 data) - 1)) /\
    y_cut_index_input w' = str (current_y_cut_idx w') /\
    x_cut_index_input w' = str (current_x_cut_idx w').
Proof.
  intros L.
  destruct (update_2d_cuts_loaded w data L)
    as (xs & ys & yc & xc & Hx & Hy & _ & _ & U).
  destruct L as (Hd & (xs' & Hx' & Lx) & (ys' & Hy' & Ly) & R & C).
  rewrite Hx in Hx'. rewrite Hy in Hy'.
  injection Hx' as <-. injection Hy' as <-.
  eexists. split; [exact U|].
  destruct (cuts_shown_loaded w data xs ys yc xc Lx Ly R C) as (L' & B').
  split; [exact L'|]. split; [exact B'|]. repeat split.
Qed.

Lemma navigate_2d_cut_preserves (w : window) (data : ndarray)
    (cut_type : string) (direction : Z) :
  loaded w data ->
  exists w',
    navigate_2d_cut to_string cut_type direction w = (Ok tt, w') /\
    loaded w' data /\ in_bounds w'.
Proof.
  intros L. pose proof L as (Hd & _).
  rewrite (navigate_2d_cut_loaded w data cut_type direction Hd).
  match goal with
  | |- context [update_2d_cuts to_string ?w2] =>
      assert (L2 : loaded w2 data)
        by (destruct (String.eqb cut_type "x"), (String.eqb cut_type "y"); exact L);
      destruct (update_2d_cuts_preserves w2 data L2) as (w' & U & L' & B' & _)
  end.
  exists w'. auto.
Qed.

Lemma set_2d_cut_indices_preserves (w : window) (data : ndarray)
    (text axis_type : string) :
  loaded w data -> in_bounds w ->
  exists w',
    set_2d_cut_indices to_string text axis_type w = (Ok tt, w') /\
    loaded w' data /\ in_bounds w'.
Proof.
  intros L B. pose proof L as (Hd & _).
  unfold set_2d_cut_indices. cbv [bind gets ret]. rewrite Hd.
  destruct (String.eqb text EmptyString); [exists w; auto|].
  unfold try_except, lift, int_.
  destruct (int text) as [v|].
  - destruct (String.eqb axis_type "y").
    + destruct ((0 <=? v) && (v <=? Z.of_nat (shape0 data) - 1)).
      * destruct (negb (current_y_cut_idx w =? v)); [|exists w; auto].
        cbv [modify].
        destruct (update_2d_cuts_preserves (set_current_y_cut_idx v w) data L)
          as (w' & U & L' & B' & _).
        rewrite U. exists w'. auto.
      * eexists. split; [reflexivity|]. split; [exact L|exact B].
    + destruct (String.eqb axis_type "x"); [|exists w; auto].
      destruct ((0 <=? v) && (v <=? Z.of_nat (shape1 data) - 1)).
      * destruct (negb (current_x_cut_idx w =? v)); [|exists w; auto].
        cbv [modify].
        destruct (update_2d_cuts_preserves (set_current_x_cut_idx v w) data L)
          as (w' & U & L' & B' & _).
        rewrite U. exists w'. auto.
      * eexists. split; [reflexivity|]. split; [exact L|exact B].
  - unfold revert_on_value_error. cbv [bind modify ret message_box].
    destruct (String.eqb axis_type "y");
      [|destruct (String.eqb axis_type "x")];
      (eexists; split; [reflexivity|]; split; [exact L|exact B]).
Qed.

Lemma perform_preserves (w : window) (data : ndarray) (op : operation) :
  loaded w data -> in_bounds w ->
  exists w',
    perform to_string op w = (Ok tt, w') /\ loaded w' data /\ in_bounds w'.
Proof.
  intros L B. destruct op as [text axis_type|cut_type direction|]; cbn [perform].
  - apply set_2d_cut_indices_preserves; assumption.
  - apply navigate_2d_cut_preserves; assumption.
  - destruct (update_2d_cuts_preserves w data L) as (w' & U & L' & B' & _).
    exists w'. auto.
Qed.

(** Every run of the three operations returns, keeps the matrix and leaves
    the indices within it. *)
Lemma run_preserves (ops : list operation) (w : window) (data : ndarray) :
  loaded w data -> in_bounds w ->
  exists w',
    run to_string ops w = (Ok tt, w') /\ loaded w' data /\ in_bounds w'.
Proof.
  revert w. induction ops as [|op ops IH]; intros w L B.
  - exists w. cbn. auto.
  - destruct (perform_preserves w data op L B) as (w1 & P & L1 & B1).
    destruct (IH w1 L1 B1) as (w' & Rn & L' & B').
    exists w'. cbn [run]. unfold bind. rewrite P. auto.
Qed.

(** Without a matrix the three operations show no message box; the two
    setters do nothing and [update_2d_cuts] writes "0" to both fields. *)
Lemma perform_no_matrix (w : window) (op : operation) :
  data_2d_loaded w = None ->
  exists w',
    perform to_string op w = (Ok tt, w') /\
    data_2d_loaded w' = None /\
    message_boxes w' = message_boxes w /\
    (op = Recompute ->
     x_cut_index_input w' = "0"%string /\ y_cut_index_input w' = "0"%string) /\
    (op <> Recompute -> w' = w).
Proof.
  intros Hd. destruct op as [text axis_type|cut_type direction|]; cbn [perform].
  - exists w. unfold set_2d_cut_indices. cbv [bind gets ret]. rewrite Hd.
    repeat split; auto; discriminate.
  - exists w. unfold navigate_2d_cut. cbv [bind gets ret]. rewrite Hd.
    repeat split; auto; discriminate.
  - rewrite (update_2d_cuts_no_matrix w Hd). eexists. split; [reflexivity|].
    cbn. repeat split; auto. congruence.
Qed.

Lemma run_no_matrix (ops : list operation) (w : window) :
  data_2d_loaded w = None ->
  exists w',
    run to_string ops w = (Ok tt, w') /\
    data_2d_loaded w' = None /\
    message_boxes w' = message_boxes w /\
    (In Recompute ops \/
     (x_cut_index_input w = "0"%string /\ y_cut_index_input w = "0"%string) ->
     x_cut_index_input w' = "0"%string /\ y_cut_index_input w' = "0"%string).
Proof.
  revert w. induction ops as [|op ops IH]; intros w Hd.
  - exists w. cbn. split; [reflexivity|]. split; [exact Hd|].
    split; [reflexivity|]. intros [[]|Hz]. exact Hz.
  - destruct (perform_no_matrix w op Hd) as (w1 & P & Hd1 & M1 & Z1 & S1).
    destruct (IH w1 Hd1) as (w' & Rn & Hd' & M' & Z').
    exists w'. cbn [run]. unfold bind. rewrite P.
    split; [exact Rn|]. split; [exact Hd'|]. split; [congruence|].
    intros H. apply Z'.
    destruct op as [text axis_type|cut_type direction|].
    + rewrite (S1 ltac:(discriminate)).
      destruct H as [[H|H]|H]; [discriminate|left; exact H|right; exact H].
    + rewrite (S1 ltac:(discriminate)).
      destruct H as [[H|H]|H]; [discriminate|left; exact H|right; exact H].
    + right. apply Z1. reflexivity.
Qed.

(** Without a matrix, a run of the two setters and the navigation alone
    changes nothing. *)
Lemma run_no_matrix_idle (ops : list operation) (w : window) :
  data_2d_loaded w = None -> ~ In Recompute ops ->
  run to_string ops w = (Ok tt, w).
Proof.
  intros Hd. induction ops as [|op ops IH]; intros Hn.
  - reflexivity.
  - destruct (perform_no_matrix w op Hd) as (w1 & P & _ & _ & _ & S1).
    assert (E : w1 = w) by (apply S1; intros ->; apply Hn; left; reflexivity).
    subst w1. cbn [run]. unfold bind. rewrite P.
    apply IH. intros H. apply Hn. right. exact H.
Qed.

End WithRendering.

(** C1, amended: for every matrix a load leaves loaded, after any sequence
    of [set_2d_cut_indices], [navigate_2d_cut] and [update_2d_cuts] the
    row-cut index is in [0, rowCount-1] and the column-cut index in
    [0, colCount-1], and the same holds from any window whose indices are
    within its matrix; with no matrix loaded the operations show no message,
    [update_2d_cuts] writes "0" to both cursor fields, and fields that show
    "0" keep it: both fields show "0" after a sequence that holds an
    [update_2d_cuts] or that starts with "0" in both, and a sequence without
    [update_2d_cuts] leaves the window as it was, whatever its fields
    show. *)
Theorem cut_indices_stay_in_bounds
    (to_string : dict (list pyfloat) -> string) (ops : list operation) :
  (forall w0 file_path file data,
      supported file_path = true ->
      data_2d_loaded (snd (_load_and_plot_2d to_string file_path file w0))
      = Some data ->
      exists w',
        run to_string ops (snd (_load_and_plot_2d to_string file_path file w0))
        = (Ok tt, w') /\
        data_2d_loaded w' = Some data /\
        0 <= current_y_cut_idx w' <= Z.of_nat (shape0 data) - 1 /\
        0 <= current_x_cut_idx w' <= Z.of_nat (shape1 data) - 1) /\
  (forall w data,
      loaded w data -> in_bounds w ->
      exists w',
        run to_string ops w = (Ok tt, w') /\
        data_2d_loaded w' = Some data /\
        0 <= current_y_cut_idx w' <= Z.of_nat (shape0 data) - 1 /\
        0 <= current_x_cut_idx w' <= Z.of_nat (shape1 data) - 1) /\
  (forall w,
      data_2d_loaded w = None ->
      exists w',
        run to_string ops w = (Ok tt, w') /\
        data_2d_loaded w' = None /\
        message_boxes w' = message_boxes w /\
        (In Recompute ops \/
         (x_cut_index_input w = "0"%string /\ y_cut_index_input w = "0"%string) ->
         x_cut_index_input w' = "0"%string /\ y_cut_index_input w' = "0"%string)) /\
  (forall w,
      data_2d_loaded w = None -> ~ In Recompute ops ->
      run to_string ops w = (Ok tt, w)).
Proof.
  assert (G : forall w data,
             loaded w data -> in_bounds w ->
             exists w',
               run to_string ops w = (Ok tt, w') /\
               data_2d_loaded w' = Some data /\
               0 <= current_y_cut_idx w' <= Z.of_nat (shape0 data) - 1 /\
               0 <= current_x_cut_idx w' <= Z.of_nat (shape1 data) - 1).
  { intros w data L B.
    destruct (run_preserves to_string ops w data L B) as (w' & Rn & L' & B').
    exists w'. split; [exact Rn|]. destruct L' as (Hd' & _).
    split; [exact Hd'|]. unfold in_bounds in B'. rewrite Hd' in B'. exact B'. }
  split; [|split; [exact G|split]].
  - intros w0 file_path file data Hs Hd.
    destruct (load_leaves_matrix to_string w0 file_path file data Hs Hd)
      as (w1 & L1 & _ & _ & E).
    destruct (update_2d_cuts_preserves to_string w1 data L1)
      as (w2 & U & L2 & B2 & _).
    rewrite E, U. cbn [snd]. apply G; assumption.
  - intros w Hd. apply run_no_matrix. exact Hd.
  - intros w Hd Hn. apply run_no_matrix_idle; assumption.
Qed.

Lemma cut_indices_stay_in_bounds_witness :
  let ops := [Navigate "x" 5; SetCut "9" "y"; SetCut "2" "x"; Recompute;
              Navigate "y" 1; SetCut "abc" "x"]%string in
  (exists w',
      run plain_table ops example_window = (Ok tt, w') /\
      data_2d_loaded w' = Some (frame_values example_frame) /\
      0 <= current_y_cut_idx w' <= Z.of_nat 4 - 1 /\
      0 <= current_x_cut_idx w' <= Z.of_nat 3 - 1) /\
  (exists w',
      run plain_table ops (set_current_y_cut_idx 3 example_window) = (Ok tt, w') /\
      data_2d_loaded w' = Some (frame_values example_frame) /\
      0 <= current_y_cut_idx w' <= Z.of_nat 4 - 1 /\
      0 <= current_x_cut_idx w' <= Z.of_nat 3 - 1) /\
  (exists w',
      run plain_table ops initial = (Ok tt, w') /\
      data_2d_loaded w' = None /\
      message_boxes w' = message_boxes initial /\
      (In Recompute ops \/
       (x_cut_index_input initial = "0"%string /\
        y_cut_index_input initial = "0"%string) ->
       x_cut_index_input w' = "0"%string /\ y_cut_index_input w' = "0"%string)).
Proof.
  intros ops.
  destruct (cut_indices_stay_in_bounds plain_table ops) as (H1 & H2 & H3 & _).
  split; [|split].
  - apply (H1 initial "scan.csv"%string example_file (frame_values example_frame)).
    + vm_compute. reflexivity.
    + vm_compute. reflexivity.
  - apply (H2 (set_current_y_cut_idx 3 example_window)
              (frame_values example_frame)).
    + repeat split; try (vm_compute; lia).
      * eexists. split; [reflexivity|]. reflexivity.
      * eexists. split; [reflexivity|]. reflexivity.
    + vm_compute. repeat split; discriminate.
  - apply (H3 initial). reflexivity.
Defined.

(** C1 as stated fails with no matrix loaded: a load that fails after the
    cursor has moved leaves no matrix and the cursor fields as they were,
    here "2" and "1", and the two setters and the navigation, which do
    nothing without a matrix, leave them so. *)
Lemma cut_fields_after_failed_load_counterexample :
  let moved :=
    snd (run plain_table [Navigate "x" 1; Navigate "x" 1; Navigate "y" 1]
           example_window) in
  let w := snd (_load_and_plot_2d plain_table "broken.csv" unreadable_file moved) in
  data_2d_loaded w = None /\
  exists w',
    run plain_table [SetCut "1" "y"; Navigate "x" 1; SetCut "abc" "x"] w
    = (Ok tt, w') /\
    data_2d_loaded w' = None /\
    y_cut_index_input w' = "2"%string /\ x_cut_index_input w' = "1"%string /\
    y_cut_index_input w' <> "0"%string /\ x_cut_index_input w' <> "0"%string.
Proof.
  cbv zeta. split; [vm_compute; reflexivity|].
  eexists. split; [vm_compute; reflexivity|].
  split; [reflexivity|]. split; [reflexivity|]. split; [reflexivity|].
  split; discriminate.
Qed.

(** C9: after every successful 2D load both cut indices are 0 and both
    cursor fields show "0", whatever they were before the load. *)
Theorem load_resets_cut_indices
    (to_string : dict (list pyfloat) -> string)
    (w0 : window) (file_path : string) (file : csv_file) (data : ndarray) :
  supported file_path = true ->
  data_2d_loaded (snd (_load_and_plot_2d to_string file_path file w0)) = Some data ->
  exists w',
    _load_and_plot_2d to_string file_path file w0 = (Ok tt, w') /\
    loaded w' data /\
    current_y_cut_idx w' = 0 /\ current_x_cut_idx w' = 0 /\
    y_cut_index_input w' = "0"%string /\ x_cut_index_input w' = "0"%string.
Proof.
  intros Hs Hd.
  destruct (load_leaves_matrix to_string w0 file_path file data Hs Hd)
    as (w1 & L1 & X1 & Y1 & E).
  destruct (update_2d_cuts_preserves to_string w1 data L1)
    as (w2 & U & L2 & B2 & _ & _ & Y2 & X2 & TY & TX).
  exists w2. rewrite E. split; [exact U|]. split; [exact L2|].
  destruct L1 as (_ & _ & _ & R & C).
  assert (HY : current_y_cut_idx w2 = 0) by (rewrite Y2, Y1; lia).
  assert (HX : current_x_cut_idx w2 = 0) by (rewrite X2, X1; lia).
  rewrite TY, TX, HY, HX. repeat split.
Qed.

Lemma load_resets_cut_indices_witness :
  exists w',
    _load_and_plot_2d plain_table "scan.csv"
      example_file
      (set_current_y_cut_idx 3 (set_current_x_cut_idx 2
         (set_y_cut_index_input "3" (set_x_cut_index_input "2" example_window))))
    = (Ok tt, w') /\
    loaded w' (frame_values example_frame) /\
    current_y_cut_idx w' = 0 /\ current_x_cut_idx w' = 0 /\
    y_cut_index_input w' = "0"%string /\ x_cut_index_input w' = "0"%string.
Proof.
  apply load_resets_cut_indices.
  - vm_compute. reflexivity.
  - vm_compute. reflexivity.
Defined.

(** C4: with a matrix loaded, [navigate_2d_cut] sets the cursor of the axis
    to clamp(current + direction, 0, bound), so a step of +1 at the bound
    stays at the bound; it always runs [update_2d_cuts] once and leaves both
    cursor fields showing the two indices. *)
Theorem navigate_2d_cut_clamps
    (to_string : dict (list pyfloat) -> string)
    (w : window) (data : ndarray) (cut_type : string) (direction : Z) :
  loaded w data ->
  cut_type = "x"%string \/ cut_type = "y"%string ->
  exists w',
    navigate_2d_cut to_string cut_type direction w = (Ok tt, w') /\
    navigated_index cut_type w'
    = clamp (navigated_index cut_type w + direction) 0 (navigated_bound cut_type data) /\
    (navigated_index cut_type w = navigated_bound cut_type data ->
     direction = 1 ->
     navigated_index cut_type w' = navigated_bound cut_type data) /\
    cut_updates w' = S (cut_updates w) /\
    y_cut_index_input w' = str (current_y_cut_idx w') /\
    x_cut_index_input w' = str (current_x_cut_idx w').
Proof.
  intros L Hct. pose proof L as (Hd & _ & _ & R & C).
  rewrite (navigate_2d_cut_loaded to_string w data cut_type direction Hd).
  match goal with
  | |- context [update_2d_cuts to_string ?w2] =>
      assert (L2 : loaded w2 data)
        by (destruct (String.eqb cut_type "x"), (String.eqb cut_type "y"); exact L);
      destruct (update_2d_cuts_preserves to_string w2 data L2)
        as (w' & U & _ & _ & N & _ & Y & X & TY & TX)
  end.
  exists w'. split; [exact U|].
  unfold navigated_index, navigated_bound, clamp.
  destruct Hct as [-> | ->]; cbn [String.eqb Ascii.eqb Bool.eqb] in *;
    cbn in Y, X, N.
  - split; [rewrite Y;
             destruct (Z.ltb_spec (current_y_cut_idx w + direction) 0);
             [lia|destruct (Z.ltb_spec (Z.of_nat (shape0 data) - 1)
                                       (current_y_cut_idx w + direction)); lia]|].
    split; [intros; rewrite Y; lia|]. repeat split; assumption.
  - split; [rewrite X;
             destruct (Z.ltb_spec (current_x_cut_idx w + direction) 0);
             [lia|destruct (Z.ltb_spec (Z.of_nat (shape1 data) - 1)
                                       (current_x_cut_idx w + direction)); lia]|].
    split; [intros; rewrite X; lia|]. repeat split; assumption.
Qed.

Lemma navigate_2d_cut_clamps_witness :
  let w := set_current_y_cut_idx 3 example_window in
  exists w',
    navigate_2d_cut plain_table "x" 1 w = (Ok tt, w') /\
    navigated_index "x" w'
    = clamp (navigated_index "x" w + 1) 0
        (navigated_bound "x" (frame_values example_frame)) /\
    (navigated_index "x" w = navigated_bound "x" (frame_values example_frame) ->
     1 = 1 ->
     navigated_index "x" w' = navigated_bound "x" (frame_values example_frame)) /\
    cut_updates w' = S (cut_updates w) /\
    y_cut_index_input w' = str (current_y_cut_idx w') /\
    x_cut_index_input w' = str (current_x_cut_idx w').
Proof.
  intros w. apply navigate_2d_cut_clamps.
  - repeat split; try (vm_compute; lia).
    + eexists. split; [reflexivity|]. reflexivity.
    + eexists. split; [reflexivity|]. reflexivity.
  - left. reflexivity.
Defined.

(** C3 as stated fails when the value is already the current index: the
    example window has its row cut at 0, and two calls with the text "0"
    recompute nothing, not once. *)
Lemma set_cut_twice_counterexample :
  let first := set_2d_cut_indices plain_table "0" "y" example_window in
  let second := set_2d_cut_indices plain_table "0" "y" (snd first) in
  int "0" = Some 0 /\
  0 <= 0 <= max_index "y" (frame_values example_frame) /\
  fst first = Ok tt /\ fst second = Ok tt /\
  cut_updates (snd second) = cut_updates example_window.
Proof.
  cbv zeta.
  split; [reflexivity|].
  split; [vm_compute; split; discriminate|].
  split; [vm_compute; reflexivity|].
  split; vm_compute; reflexivity.
Qed.

(** C3, amended: for an in-bounds value, [set_2d_cut_indices] is idempotent.
    When the value is the current index nothing is recomputed and the
    window is unchanged; when it is new, [update_2d_cuts] runs once. A
    second call with the same text changes nothing, so two calls recompute
    exactly once for a new value, never twice, and not at all for the
    current one. *)
Theorem set_cut_idempotent
    (to_string : dict (list pyfloat) -> string)
    (w : window) (data : ndarray) (text axis_type : string) (v : Z) :
  loaded w data ->
  axis_type = "y"%string \/ axis_type = "x"%string ->
  int text = Some v ->
  0 <= v <= max_index axis_type data ->
  exists w1,
    set_2d_cut_indices to_string text axis_type w = (Ok tt, w1) /\
    set_2d_cut_indices to_string text axis_type w1 = (Ok tt, w1) /\
    cut_index axis_type w1 = v /\
    cut_updates w1
    = (if cut_index axis_type w =? v then cut_updates w else S (cut_updates w)) /\
    (cut_index axis_type w = v -> w1 = w).
Proof.
  intros L Hax Hi Hr. pose proof L as (Hd & _).
  destruct (Z.eqb_spec (cut_index axis_type w) v) as [E|NE].
  - exists w.
    rewrite (set_2d_cut_indices_same to_string w data text axis_type v Hd Hi Hr Hax E).
    repeat split. exact E.
  - rewrite (set_2d_cut_indices_new to_string w data text axis_type v L Hi Hr Hax NE).
    match goal with
    | |- context [update_2d_cuts to_string ?w0] =>
        assert (L0 : loaded w0 data)
          by (destruct (String.eqb axis_type "y"); exact L);
        destruct (update_2d_cuts_preserves to_string w0 data L0)
          as (w1 & U & L1 & _ & N & _ & Y & X & _)
    end.
    exists w1. split; [exact U|].
    assert (E1 : cut_index axis_type w1 = v).
    { unfold cut_index, max_index in *.
      destruct Hax as [-> | ->]; cbn [String.eqb Ascii.eqb Bool.eqb] in *;
        cbn in Y, X; lia. }
    destruct L1 as (Hd1 & _).
    split; [apply (set_2d_cut_indices_same to_string w1 data text axis_type v);
            assumption|].
    split; [exact E1|]. split.
    + rewrite N. destruct (String.eqb axis_type "y"); reflexivity.
    + intros E. contradiction.
Qed.

Lemma set_cut_idempotent_witness :
  exists w1,
    set_2d_cut_indices plain_table (str 2) "y" example_window = (Ok tt, w1) /\
    set_2d_cut_indices plain_table (str 2) "y" w1 = (Ok tt, w1) /\
    cut_index "y" w1 = 2 /\
    cut_updates w1
    = (if cut_index "y" example_window =? 2 then cut_updates example_window
       else S (cut_updates example_window)) /\
    (cut_index "y" example_window = 2 -> w1 = example_window).
Proof.
  apply (set_cut_idempotent plain_table example_window (frame_values example_frame)).
  - repeat split; try (vm_compute; lia).
    + eexists. split; [reflexivity|]. reflexivity.
    + eexists. split; [reflexivity|]. reflexivity.
  - left. reflexivity.
  - reflexivity.
  - vm_compute. split; discriminate.
Defined.

(** C2 as stated fails on the empty text: it is not an integer, yet with a
    matrix loaded the field that holds it is not reverted and no warning is
    shown. *)
Lemma set_cut_empty_text_counterexample :
  let w := set_y_cut_index_input EmptyString example_window in
  data_2d_loaded w = Some (frame_values example_frame) /\
  int EmptyString = None /\
  y_cut_text_changed plain_table EmptyString example_window = (Ok tt, w) /\
  set_2d_cut_indices plain_table EmptyString "y" w = (Ok tt, w) /\
  y_cut_index_input w <> str (current_y_cut_idx w) /\
  message_boxes w = [].
Proof.
  cbv zeta. repeat split; try reflexivity. vm_compute. discriminate.
Qed.

(** C2, amended: with a matrix loaded, for every non-empty text that is not
    an integer and for every integer outside [0, max index] of the axis,
    [set_2d_cut_indices] leaves both indices unchanged, sets the field of the
    axis back to the current index, recomputes nothing and shows one
    warning, which names the range 0..max index in the out-of-range case. *)
Theorem set_cut_rejects_invalid
    (to_string : dict (list pyfloat) -> string)
    (w : window) (data : ndarray) (text axis_type : string) :
  data_2d_loaded w = Some data ->
  axis_type = "y"%string \/ axis_type = "x"%string ->
  text <> EmptyString ->
  int text = None \/
  (exists v, int text = Some v /\ ~ (0 <= v <= max_index axis_type data)) ->
  exists w',
    set_2d_cut_indices to_string text axis_type w = (Ok tt, w') /\
    current_y_cut_idx w' = current_y_cut_idx w /\
    current_x_cut_idx w' = current_x_cut_idx w /\
    cut_field axis_type w' = str (cut_index axis_type w) /\
    cut_updates w' = cut_updates w /\
    message_boxes w'
    = message_boxes w ++
      [match int text with
       | None => invalid_input_warning
       | Some _ => range_warning axis_type data
       end].
Proof.
  intros Hd Hax Ht [Hi | (v & Hi & Hr)].
  - destruct (set_2d_cut_indices_not_integer to_string w data text axis_type
                Hd Ht Hi Hax) as (w' & S & Y & X & F & N & _ & M).
    exists w'. rewrite Hi. repeat split; assumption.
  - destruct (set_2d_cut_indices_out_of_range to_string w data text axis_type v
                Hd Hi Hr Hax) as (w' & S & Y & X & F & N & _ & M).
    exists w'. rewrite Hi. repeat split; assumption.
Qed.

Lemma set_cut_rejects_invalid_witness :
  let w := set_y_cut_index_input "4" example_window in
  exists w',
    set_2d_cut_indices plain_table "4" "y" w = (Ok tt, w') /\
    current_y_cut_idx w' = current_y_cut_idx w /\
    current_x_cut_idx w' = current_x_cut_idx w /\
    cut_field "y" w' = str (cut_index "y" w) /\
    cut_updates w' = cut_updates w /\
    message_boxes w'
    = message_boxes w ++
      [match int "4" with
       | None => invalid_input_warning
       | Some _ => range_warning "y" (frame_values example_frame)
       end].
Proof.
  intros w.
  apply (set_cut_rejects_invalid plain_table w (frame_values example_frame)).
  - reflexivity.
  - left. reflexivity.
  - discriminate.
  - right. exists 4. split; [reflexivity|]. vm_compute. intros [_ H]. apply H. reflexivity.
Defined.

(** C10: the empty text is a silent no-op of [set_2d_cut_indices], matrix
    loaded or not: the window is unchanged, so the index, the count of
    recomputations and the message boxes are, and the field the user
    emptied keeps the empty text. Every other text that is not an integer
    gets the "Invalid Input" warning and the field reverted. *)
Theorem set_cut_empty_text_ignored
    (to_string : dict (list pyfloat) -> string) (w : window) (axis_type : string) :
  set_2d_cut_indices to_string EmptyString axis_type w = (Ok tt, w) /\
  y_cut_text_changed to_string EmptyString w
  = (Ok tt, set_y_cut_index_input EmptyString w) /\
  x_cut_text_changed to_string EmptyString w
  = (Ok tt, set_x_cut_index_input EmptyString w) /\
  (forall data text,
      data_2d_loaded w = Some data ->
      axis_type = "y"%string \/ axis_type = "x"%string ->
      text <> EmptyString -> int text = None ->
      exists w',
        set_2d_cut_indices to_string text axis_type w = (Ok tt, w') /\
        cut_field axis_type w' = str (cut_index axis_type w) /\
        message_boxes w' = message_boxes w ++ [invalid_input_warning]).
Proof.
  split; [apply set_2d_cut_indices_empty|].
  split; [unfold y_cut_text_changed, bind, modify;
          apply set_2d_cut_indices_empty|].
  split; [unfold x_cut_text_changed, bind, modify;
          apply set_2d_cut_indices_empty|].
  intros data text Hd Hax Ht Hi.
  destruct (set_2d_cut_indices_not_integer to_string w data text axis_type
              Hd Ht Hi Hax) as (w' & S & _ & _ & F & _ & _ & M).
  exists w'. auto.
Qed.

Lemma set_cut_empty_text_ignored_witness :
  set_2d_cut_indices plain_table EmptyString "x" example_window
  = (Ok tt, example_window) /\
  exists w',
    set_2d_cut_indices plain_table "1.5" "x" example_window = (Ok tt, w') /\
    cut_field "x" w' = str (cut_index "x" example_window) /\
    message_boxes w' = message_boxes example_window ++ [invalid_input_warning].
Proof.
  destruct (set_cut_empty_text_ignored plain_table example_window "x")
    as (H1 & _ & _ & H4).
  split; [exact H1|].
  apply (H4 (frame_values example_frame) "1.5"%string).
  - reflexivity.
  - right. reflexivity.
  - discriminate.
  - reflexivity.
Defined.

(** What [update_2d_cuts] draws and writes for a loaded matrix whose indices
    are within it: the X-cut is row [current_y_cut_idx] against the x
    coordinates, the Y-cut column [current_x_cut_idx] against the y
    coordinates, each titled with the coordinate at the cut to two decimals.
    The table of a preview has the coordinates and the values when the axis
    label differs from the colorbar label, and the values alone when the two
    labels are the same text. *)
Lemma update_2d_cuts_slices
    (to_string : dict (list pyfloat) -> string) (w : window) (data : ndarray) :
  loaded w data -> in_bounds w ->
  exists w' xs ys y_coord x_coord,
    update_2d_cuts to_string w = (Ok tt, w') /\
    x_coords_2d w = Some xs /\ y_coords_2d w = Some ys /\
    nth_error ys (Z.to_nat (current_y_cut_idx w)) = Some y_coord /\
    nth_error xs (Z.to_nat (current_x_cut_idx w)) = Some x_coord /\
    let x_cut := map (fun c => item data (Z.to_nat (current_y_cut_idx w)) c)
                     (seq 0 (shape1 data)) in
    let y_cut := map (fun r => item data r (Z.to_nat (current_x_cut_idx w)))
                     (seq 0 (shape0 data)) in
    data_plotter_2d_x_cut w'
    = Lines [{| line_x := xs; line_y := x_cut; line_color := "b";
                line_label := "X-Cut Data"; line_axes := PrimaryAxes |}]
        ("X-Cut at Y-coord " ++ format_2f y_coord)
        (plot_2d_xaxis_input w) (plot_2d_cbar_input w) /\
    data_plotter_2d_y_cut w'
    = Lines [{| line_x := ys; line_y := y_cut; line_color := "b";
                line_label := "Y-Cut Data"; line_axes := PrimaryAxes |}]
        ("Y-Cut at X-coord " ++ format_2f x_coord)
        (plot_2d_yaxis_input w) (plot_2d_cbar_input w) /\
    x_cut_data_display w'
    = ("Y-Coordinate: " ++ format_2f y_coord ++ newline ++
       to_string
         (if String.eqb (plot_2d_xaxis_input w) (plot_2d_cbar_input w)
          then [(plot_2d_xaxis_input w, x_cut)]
          else [(plot_2d_xaxis_input w, xs); (plot_2d_cbar_input w, x_cut)]))%string /\
    y_cut_data_display w'
    = ("X-Coordinate: " ++ format_2f x_coord ++ newline ++
       to_string
         (if String.eqb (plot_2d_yaxis_input w) (plot_2d_cbar_input w)
          then [(plot_2d_yaxis_input w, y_cut)]
          else [(plot_2d_yaxis_input w, ys); (plot_2d_cbar_input w, y_cut)]))%string.
Proof.
  intros L B.
  destruct (update_2d_cuts_loaded to_string w data L)
    as (xs & ys & yc & xc & Hx & Hy & Ny & Nx & U).
  destruct L as (Hd & _ & _ & R & C).
  unfold in_bounds in B. rewrite Hd in B.
  assert (EY : Z.max 0 (Z.min (current_y_cut_idx w) (Z.of_nat (shape0 data) - 1))
               = current_y_cut_idx w) by lia.
  assert (EX : Z.max 0 (Z.min (current_x_cut_idx w) (Z.of_nat (shape1 data) - 1))
               = current_x_cut_idx w) by lia.
  exists (cuts_shown to_string w data xs ys yc xc), xs, ys, yc, xc.
  rewrite EY in Ny. rewrite EX in Nx.
  split; [exact U|]. repeat (split; [assumption|]).
  unfold cuts_shown. rewrite EY, EX. cbn zeta.
  cbn [data_plotter_2d_x_cut data_plotter_2d_y_cut
       x_cut_data_display y_cut_data_display].
  unfold dict_literal2. cbn [dict_set].
  repeat split.
Qed.

(** The example of the spec: 4 rows and 3 columns, y coordinates 10, 20, 30,
    40, x coordinates 1, 2, 3; with the row cut at index 2 the X-cut has
    the x coordinates and row 2, and its title ends with "30.00". *)
Example x_cut_of_example :
  data_plotter_2d_x_cut
    (snd (set_2d_cut_indices plain_table "2" "y" example_window))
  = Lines [{| line_x := [Finite (1 # 1); Finite (2 # 1); Finite (3 # 1)];
              line_y := [Finite (20 # 1); Finite (21 # 1); Finite (22 # 1)];
              line_color := "b"; line_label := "X-Cut Data";
              line_axes := PrimaryAxes |}]
      "X-Cut at Y-coord 30.00" "X-axis" "Intensity".
Proof. vm_compute. reflexivity. Qed.

(** C6 at the input where it fails: the example file is loaded into a new
    window and the colorbar label is then set to "X-axis", the text of the
    x-axis label. The X-cut is still row 0 against the x coordinates, but
    the table of its preview has one column, the values of the row: the x
    coordinates 1, 2, 3 are not in it. *)
Theorem x_cut_preview_without_coordinates
    (to_string : dict (list pyfloat) -> string) :
  let w0 := snd (_load_and_plot_2d to_string "scan.csv" example_file initial) in
  let w := snd (cbar_label_edited to_string "X-axis" w0) in
  plot_2d_xaxis_input w = plot_2d_cbar_input w /\
  data_plotter_2d_x_cut w
  = Lines [{| line_x := [Finite (1 # 1); Finite (2 # 1); Finite (3 # 1)];
              line_y := [Finite (0 # 1); Finite (1 # 1); Finite (2 # 1)];
              line_color := "b"; line_label := "X-Cut Data";
              line_axes := PrimaryAxes |}]
      "X-Cut at Y-coord 10.00" "X-axis" "X-axis" /\
  x_cut_data_display w
  = ("Y-Coordinate: 10.00" ++ newline ++
     to_string [("X-axis", [Finite (0 # 1); Finite (1 # 1); Finite (2 # 1)])])%string.
Proof.
  cbv zeta. repeat split; vm_compute; reflexivity.
Qed.

End CutsFacts.

(** ** The series configurator *)

Module SeriesFacts.
Import Py Qt DataPlotter Series.

Section WithTable.

Variable cell : Type.
Variable to_numeric : cell -> pyfloat.
Variable to_string : dict (list pyfloat) -> string.

Local Abbreviation table := (Series.table cell).
Local Abbreviation window := (Series.window cell).
Local Abbreviation update_1d := (update_1d_plot_from_column_selection cell to_numeric to_string).
Local Abbreviation add_series := (add_plot_series_input cell to_numeric to_string).
Local Abbreviation survives := (Series.survives cell to_numeric).
Local Abbreviation series_of := (Series.series_of cell to_numeric).
Local Abbreviation resolve := (Series.resolve cell to_numeric).
Local Abbreviation loop_body := (Series.loop_body cell to_numeric).
Local Abbreviation loop := (Series.loop cell to_numeric).
Local Abbreviation numeric_column := (Series.numeric_column cell to_numeric).
Local Abbreviation both_numeric := (Series.both_numeric cell to_numeric).

(** *** The recomputation keeps the data frame and the controls *)

Lemma update_1d_keeps (w : window) :
  current_1d_df (update_1d w) = current_1d_df w /\
  series_input_widgets (update_1d w) = series_input_widgets w.
Proof.
  unfold update_1d_plot_from_column_selection.
  destruct (current_1d_df w) as [df|] eqn:E; [|split; [cbn; auto|reflexivity]].
  destruct (series_to_plot _) as [|sd l].
  - cbn. auto.
  - destruct (display_data_dict _); cbn; auto.
Qed.

Lemma add_series_widgets (x : index_argument) (y : Z) (twinx : bool)
    (w : window) :
  current_1d_df (add_series x y twinx w) = current_1d_df w /\
  series_input_widgets (add_series x y twinx w)
  = series_input_widgets w ++
    [{| x_input := str_argument x; y_input := str y; twinx_checkbox := twinx |}].
Proof.
  unfold add_plot_series_input. cbn [current_1d_df set_series_input_widgets].
  destruct (current_1d_df w) eqn:E.
  - match goal with
    | |- context [update_1d ?w1] => destruct (update_1d_keeps w1) as (D & S)
    end.
    rewrite D, S. cbn. auto.
  - cbn. auto.
Qed.




(** *** Rows kept for a series *)

Lemma select_valid_mask (f g : nat -> pyfloat) (rows : list nat) :
  let keep := fun r => negb (isnan (f r)) && negb (isnan (g r)) in
  select (map f rows) (valid_mask (map f rows) (map g rows))
  = map f (filter keep rows) /\
  select (map g rows) (valid_mask (map f rows) (map g rows))
  = map g (filter keep rows).
Proof.
  intros keep. induction rows as [|r rows (IHf & IHg)]; [split; reflexivity|].
  cbn [map valid_mask select filter]. fold (keep r).
  destruct (keep r); cbn [map]; rewrite IHf, IHg; split; reflexivity.
Qed.

Lemma map_filter_nil {A B : Type} (f : A -> B) (p : A -> bool) (l : list A) :
  map f (filter p l) = [] <-> existsb p l = false.
Proof.
  induction l as [|a l IH]; cbn [filter existsb map]; [tauto|].
  destruct (p a); cbn [map orb]; [split; discriminate|exact IH].
Qed.

Lemma len_zero {A : Type} (l : list A) : (len l =? 0) = true <-> l = [].
Proof.
  unfold len. destruct l; cbn [List.length]; split; intros H;
    try reflexivity; discriminate.
Qed.

(** *** One iteration *)

Lemma resolve_survives (df : table) (i : nat) (widget : series_input) :
  survives df widget = true ->
  exists x_header y_header,
    resolve df i widget
    = Ok (Plottable (series_of df widget) x_header y_header
            (x_data (series_of df widget)) (y_data (series_of df widget))).
Proof.
  unfold Series.survives, Series.resolve, Series.series_of, int_.
  destruct (int (x_input widget)) as [x|]; [|discriminate].
  destruct (int (y_input widget)) as [y|]; [|discriminate].
  intros H.
  apply andb_true_iff in H. destruct H as [H He].
  apply andb_true_iff in H. destruct H as [H Hy2].
  apply andb_true_iff in H. destruct H as [H Hy1].
  apply andb_true_iff in H. destruct H as [Hx1 Hx2].
  rewrite Hx1, Hx2, Hy1, Hy2. cbn [andb negb].
  unfold Series.numeric_column.
  destruct (select_valid_mask
              (fun r => to_numeric (cell_at df r (Z.to_nat x)))
              (fun r => to_numeric (cell_at df r (Z.to_nat y)))
              (seq 0 (n_rows df))) as (Sx & Sy).
  cbv zeta in Sx, Sy. cbv zeta. rewrite Sx, Sy.
  fold (both_numeric df x y).
  destruct (len (map (fun r => to_numeric (cell_at df r (Z.to_nat x)))
                   (filter (both_numeric df x y) (seq 0 (n_rows df)))) =? 0) eqn:E.
  - apply len_zero in E. apply map_filter_nil in E.
    unfold Series.both_numeric in E. rewrite E in He. discriminate.
  - unfold num_cols in Hx2, Hy2. rewrite Hx2, Hy2.
    eexists. eexists. reflexivity.
Qed.

Lemma resolve_skipped (df : table) (i : nat) (widget : series_input) :
  survives df widget = false ->
  resolve df i widget = Ok NoValidRows \/
  (exists msg, resolve df i widget = Raise (ValueError msg)) \/
  exists msg, resolve df i widget = Raise (IndexError msg).
Proof.
  unfold Series.survives, Series.resolve, int_.
  destruct (int (x_input widget)) as [x|];
    [|right; left; eexists; reflexivity].
  destruct (int (y_input widget)) as [y|];
    [|right; left; eexists; reflexivity].
  intros H.
  destruct ((0 <=? x) && (x <? num_cols df)) eqn:Hx; cbn [negb];
    [|right; right; eexists; reflexivity].
  destruct ((0 <=? y) && (y <? num_cols df)) eqn:Hy; cbn [negb];
    [|right; right; eexists; reflexivity].
  left.
  apply andb_true_iff in Hx. destruct Hx as [Hx1 Hx2].
  apply andb_true_iff in Hy. destruct Hy as [Hy1 Hy2].
  rewrite ?Hx1, ?Hx2, ?Hy1, ?Hy2 in H. cbn [andb] in H.
  unfold Series.numeric_column.
  destruct (select_valid_mask
              (fun r => to_numeric (cell_at df r (Z.to_nat x)))
              (fun r => to_numeric (cell_at df r (Z.to_nat y)))
              (seq 0 (n_rows df))) as (Sx & Sy).
  cbv zeta in Sx, Sy. cbv zeta. rewrite Sx, Sy.
  apply map_filter_nil with (f := fun r => to_numeric (cell_at df r (Z.to_nat x))) in H.
  rewrite H. reflexivity.
Qed.

(** *** The loop *)

Lemma loop_spec (df : table) (widgets : list series_input) :
  forall (i : nat) (st : loop_state),
    series_to_plot (loop df i widgets st)
    = series_to_plot st ++ map (series_of df) (filter (survives df) widgets) /\
    exists warnings,
      shown (loop df i widgets st) = shown st ++ warnings /\
      List.length warnings
      = List.length (filter (fun widget => negb (survives df widget)) widgets) /\
      Forall (fun m : message => fst (fst m) = Warning) warnings.
Proof.
  induction widgets as [|widget rest IH]; intros i st.
  - cbn. rewrite app_nil_r. split; [reflexivity|].
    exists []. rewrite app_nil_r. auto.
  - cbn [Series.loop filter].
    destruct (IH (S i) (loop_body df i widget st)) as (P & warnings & Sh & Ln & Fa).
    rewrite P, Sh. clear P Sh.
    destruct (survives df widget) eqn:Sv; cbn [negb map List.length].
    + destruct (resolve_survives df i widget Sv) as (xh & yh & Rs).
      unfold Series.loop_body. rewrite Rs. cbn [series_to_plot shown].
      rewrite <- app_assoc. split; [reflexivity|].
      exists warnings. auto.
    + assert (B : series_to_plot (loop_body df i widget st) = series_to_plot st /\
                  exists m, shown (loop_body df i widget st) = shown st ++ [m] /\
                            fst (fst m) = Warning).
      { unfold Series.loop_body.
        destruct (resolve_skipped df i widget Sv)
          as [-> | [(msg & ->) | (msg & ->)]];
          (split; [reflexivity|]; eexists; split; [reflexivity|reflexivity]). }
      destruct B as (Bs & m & Bm & Bw). rewrite Bs, Bm.
      split; [reflexivity|].
      exists (m :: warnings). rewrite <- app_assoc. cbn [app List.length].
      split; [reflexivity|]. split; [congruence|]. constructor; assumption.
Qed.

(** What the recomputation shows, by the specs that survive. *)
Lemma update_1d_spec (w : window) (df : table) :
  current_1d_df w = Some df ->
  let w' := update_1d w in
  let kept := filter (survives df) (series_input_widgets w) in
  (exists warnings,
      message_boxes w'
      = message_boxes w ++ warnings ++
        (match kept with
         | [] => [(Information, "No Plottable Series",
                   "No valid series configured or found to plot.")%string]
         | _ :: _ => []
         end) /\
      List.length warnings
      = List.length (filter (fun widget => negb (survives df widget))
                       (series_input_widgets w)) /\
      Forall (fun m : message => fst (fst m) = Warning) warnings) /\
  (kept <> [] ->
   data_plotter_1d w'
   = plot_line (map (series_of df) kept) (plot_1d_title_input w)
       (plot_1d_xaxis_input w) (plot_1d_yaxis1_input w)) /\
  (kept = [] ->
   data_plotter_1d w' = Cleared /\ data_1d_display w' = EmptyString).
Proof.
  intros Hd w' kept. subst w'.
  unfold update_1d_plot_from_column_selection. rewrite Hd.
  match goal with
  | |- context [loop df 0%nat ?ws ?st] =>
      destruct (loop_spec df ws 0%nat st) as (P & warnings & Sh & Ln & Fa);
      set (st' := loop df 0%nat ws st) in *
  end.
  cbn [series_to_plot shown app] in P, Sh. fold kept in P.
  clearbody st'. rewrite P, Sh.
  destruct kept as [|k kept'] eqn:K; cbn [map].
  - cbn. split.
    + exists warnings. rewrite app_assoc. auto.
    + split; [intros NE; contradiction NE; reflexivity|auto].
  - split; [|split; [|discriminate]].
    + exists warnings. rewrite app_nil_r.
      split; [|auto]. destruct (display_data_dict st'); reflexivity.
    + intros _. destruct (display_data_dict st'); reflexivity.
Qed.

Lemma plot_series_nth (l : list series_data) :
  forall (i k : nat) (sd : series_data),
    nth_error l k = Some sd ->
    nth_error (plot_series i l) k
    = Some {| line_x := x_data sd;
              line_y := y_data sd;
              line_color := nth ((i + k) mod List.length colors) colors EmptyString;
              line_label := label sd;
              line_axes := if use_twinx sd then TwinAxes else PrimaryAxes |}.
Proof.
  induction l as [|a l IH]; intros i k sd H.
  - destruct k; discriminate.
  - destruct k as [|k]; cbn [plot_series nth_error] in *.
    + injection H as <-. rewrite Nat.add_0_r. reflexivity.
    + rewrite (IH (S i) k sd H). rewrite Nat.add_succ_r. reflexivity.
Qed.

Lemma plot_series_length (l : list series_data) :
  forall i, List.length (plot_series i l) = List.length l.
Proof.
  induction l as [|sd l IH]; intros i; cbn [plot_series List.length].
  - reflexivity.
  - rewrite IH. reflexivity.
Qed.

Lemma series_of_use_twinx (df : table) (widget : series_input) :
  survives df widget = true ->
  use_twinx (series_of df widget) = twinx_checkbox widget.
Proof.
  unfold Series.survives, Series.series_of.
  destruct (int (x_input widget)); [|discriminate].
  destruct (int (y_input widget)); [|discriminate].
  reflexivity.
Qed.

(** C7: a recomputation skips, with one warning each, the specs whose x or
    y index is not an integer or is outside [0, columnCount), or that keep
    no row once the rows with a non-numeric coordinate are dropped, and it
    draws every other spec, in order: the canvas holds one line per
    surviving spec, with its values, its label, its axes and the colour of
    its place among them, under the title and the labels of the three
    fields; when none survives it clears the plot and the preview and
    reports "No Plottable Series". A spec whose y index is the column count
    is one of the skipped. *)
Theorem recompute_skips_invalid_specs (w : window) (df : table) :
  current_1d_df w = Some df ->
  let w' := update_1d w in
  let kept := filter (survives df) (series_input_widgets w) in
  let skipped := filter (fun widget => negb (survives df widget))
                   (series_input_widgets w) in
  (exists warnings,
      message_boxes w'
      = message_boxes w ++ warnings ++
        (match kept with
         | [] => [(Information, "No Plottable Series",
                   "No valid series configured or found to plot.")%string]
         | _ :: _ => []
         end) /\
      List.length warnings = List.length skipped /\
      Forall (fun m : message => fst (fst m) = Warning) warnings) /\
  (kept <> [] ->
   exists drawn,
     data_plotter_1d w'
     = Lines drawn (plot_1d_title_input w) (plot_1d_xaxis_input w)
         (plot_1d_yaxis1_input w) /\
     List.length drawn = List.length kept /\
     forall k widget,
       nth_error kept k = Some widget ->
       nth_error drawn k
       = Some {| line_x := x_data (series_of df widget);
                 line_y := y_data (series_of df widget);
                 line_color := nth (k mod 9) colors EmptyString;
                 line_label := label (series_of df widget);
                 line_axes := if twinx_checkbox widget
                              then TwinAxes else PrimaryAxes |}) /\
  (kept = [] ->
   data_plotter_1d w' = Cleared /\ data_1d_display w' = EmptyString) /\
  (forall widget,
      int (y_input widget) = Some (num_cols df) -> survives df widget = false).
Proof.
  intros Hd w' kept skipped.
  destruct (update_1d_spec w df Hd) as (M & P & C).
  split; [exact M|]. split; [|split; [exact C|]].
  - intros NE. fold w' in P. fold kept in P. rewrite (P NE). unfold plot_line.
    eexists. split; [reflexivity|].
    split; [rewrite plot_series_length, length_map; reflexivity|].
    intros k widget Hk.
    rewrite (plot_series_nth (map (series_of df) kept) 0 k (series_of df widget))
      by (rewrite nth_error_map, Hk; reflexivity).
    assert (Sv : survives df widget = true).
    { apply nth_error_In in Hk. apply filter_In in Hk. apply Hk. }
    rewrite (series_of_use_twinx df widget Sv). reflexivity.
  - intros widget Hy. unfold Series.survives. rewrite Hy.
    destruct (int (x_input widget)); [|reflexivity].
    rewrite Z.ltb_irrefl, !andb_false_r. reflexivity.
Qed.

(** *** Colours *)

(** C8, amended: the colour of a surviving series is given by its position
    among the surviving series, which is its position in the list passed to
    [plot_line]: the k-th of them is drawn in colour k modulo 9 of the
    palette. A skipped spec takes no colour. *)
Theorem series_color_by_plotted_position (w : window) (df : table)
    (k : nat) (widget : series_input) :
  current_1d_df w = Some df ->
  nth_error (filter (survives df) (series_input_widgets w)) k = Some widget ->
  exists drawn title xlabel ylabel ln,
    data_plotter_1d (update_1d w) = Lines drawn title xlabel ylabel /\
    List.length drawn
    = List.length (filter (survives df) (series_input_widgets w)) /\
    nth_error drawn k = Some ln /\
    line_color ln = nth (k mod 9) colors EmptyString /\
    line_x ln = x_data (series_of df widget) /\
    line_y ln = y_data (series_of df widget) /\
    line_label ln = label (series_of df widget).
Proof.
  intros Hd Hk.
  destruct (update_1d_spec w df Hd) as (_ & P & _).
  assert (NE : filter (survives df) (series_input_widgets w) <> [])
    by (intros E; rewrite E in Hk; destruct k; discriminate).
  rewrite (P NE). unfold plot_line.
  eexists. eexists. eexists. eexists. eexists.
  split; [reflexivity|].
  split.
  - clear. generalize 0%nat.
    induction (filter (survives df) (series_input_widgets w)) as [|a l IH];
      intros i; cbn [map plot_series List.length]; [reflexivity|].
    rewrite (IH (S i)). reflexivity.
  - split.
    + apply plot_series_nth. rewrite nth_error_map, Hk. reflexivity.
    + cbn. repeat split.
Qed.

End WithTable.

Lemma recompute_skips_invalid_specs_witness :
  let df := number_table ["t"; "v"]%string in
  let w' := update_1d_plot_from_column_selection pyfloat (fun c => c)
              plain_table shifted_window in
  (exists warnings,
      message_boxes w' = message_boxes shifted_window ++ warnings ++ [] /\
      List.length warnings = 1%nat /\
      Forall (fun m : message => fst (fst m) = Warning) warnings) /\
  exists drawn,
    data_plotter_1d w' = Lines drawn "1D Line Plot" "X-axis" "Y-axis" /\
    List.length drawn = 1%nat /\
    nth_error drawn 0
    = Some {| line_x := [Finite (0 # 1); Finite (10 # 1)];
              line_y := [Finite (1 # 1); Finite (11 # 1)];
              line_color := "b";
              line_label := "(t vs v)";
              line_axes := PrimaryAxes |}.
Proof.
  intros df w'.
  destruct (recompute_skips_invalid_specs pyfloat (fun c => c) plain_table
              shifted_window df eq_refl) as (M & P & _).
  split.
  - exact M.
  - destruct P as (drawn & D & L & N); [discriminate|].
    exists drawn. split; [exact D|]. split; [exact L|].
    apply (N 0%nat {| x_input := "0"; y_input := "1"; twinx_checkbox := false |}).
    reflexivity.
Defined.


(** C8 as stated fails: the second spec of [shifted_window] is the only one
    that survives; it is at position 1 of the series list, and it is drawn
    in the colour at position 0 of the palette. *)
Lemma series_color_counterexample :
  let df := number_table ["t"; "v"]%string in
  let w' := update_1d_plot_from_column_selection pyfloat (fun c => c)
              plain_table shifted_window in
  map (Series.survives pyfloat (fun c => c) df) (series_input_widgets shifted_window)
  = [false; true] /\
  (exists ln title xlabel ylabel,
      data_plotter_1d w' = Lines [ln] title xlabel ylabel /\
      line_label ln = "(t vs v)"%string /\
      line_color ln = "b"%string) /\
  nth (1 mod List.length colors) colors EmptyString = "g"%string /\
  "b"%string <> "g"%string.
Proof.
  cbv zeta. split; [vm_compute; reflexivity|]. split.
  - eexists. eexists. eexists. eexists.
    split; [vm_compute; reflexivity|]. split; reflexivity.
  - split; [reflexivity|discriminate].
Qed.

Lemma series_color_by_plotted_position_witness :
  exists drawn title xlabel ylabel ln,
    data_plotter_1d
      (update_1d_plot_from_column_selection pyfloat (fun c => c)
         plain_table shifted_window)
    = Lines drawn title xlabel ylabel /\
    List.length drawn
    = List.length (filter (Series.survives pyfloat (fun c => c)
                             (number_table ["t"; "v"]%string))
                     (series_input_widgets shifted_window)) /\
    nth_error drawn 0 = Some ln /\
    line_color ln = nth (0 mod 9) colors EmptyString /\
    line_x ln
    = x_data (Series.series_of pyfloat (fun c => c) (number_table ["t"; "v"]%string)
                {| x_input := "0"; y_input := "1"; twinx_checkbox := false |}) /\
    line_y ln
    = y_data (Series.series_of pyfloat (fun c => c) (number_table ["t"; "v"]%string)
                {| x_input := "0"; y_input := "1"; twinx_checkbox := false |}) /\
    line_label ln
    = label (Series.series_of pyfloat (fun c => c) (number_table ["t"; "v"]%string)
               {| x_input := "0"; y_input := "1"; twinx_checkbox := false |}).
Proof.
  apply (series_color_by_plotted_position pyfloat (fun c => c) plain_table
           shifted_window (number_table ["t"; "v"]%string) 0).
  - reflexivity.
  - reflexivity.
Defined.


End SeriesFacts.

(** ** The 2D tab: loads that fail, folder selection, events *)

Module CutsEvents.
Import Py Qt DataPlotter Cuts CutsFacts.

Section WithRendering.

Variable to_string : dict (list pyfloat) -> string.

(** X1: choosing a folder for the 2D tab forgets the matrix and its
    coordinates, clears the three plots and the two previews, puts both cut
    indices at 0 with "0" in both fields and shows no message box; a
    cancelled dialog changes nothing. *)
Theorem select_root_folder_2d_resets (folder_path : string) (w : window) :
  (folder_path = EmptyString ->
   select_root_folder_2d folder_path w = (Ok tt, w)) /\
  (folder_path <> EmptyString ->
   exists w',
     select_root_folder_2d folder_path w = (Ok tt, w') /\
     data_2d_loaded w' = None /\
     x_coords_2d w' = None /\ y_coords_2d w' = None /\
     current_x_cut_idx w' = 0 /\ current_y_cut_idx w' = 0 /\
     x_cut_index_input w' = "0"%string /\ y_cut_index_input w' = "0"%string /\
     data_plotter_2d_main w' = Cleared /\
     data_plotter_2d_x_cut w' = Cleared /\
     data_plotter_2d_y_cut w' = Cleared /\
     x_cut_data_display w' = EmptyString /\
     y_cut_data_display w' = EmptyString /\
     message_boxes w' = message_boxes w /\
     cut_updates w' = cut_updates w).
Proof.
  unfold select_root_folder_2d. split.
  - intros ->. reflexivity.
  - intros H. destruct (String.eqb_spec folder_path EmptyString) as [E|_];
      [contradiction|].
    eexists. split; [reflexivity|]. cbn. repeat split.
Qed.

(** X2: when pandas can read a supported file neither way, the load shows
    the format warning and the load error, leaves no matrix, clears the
    three plots and the two previews, and keeps both cut indices and both
    cursor fields as they were before the load. *)
Theorem load_2d_unreadable_keeps_cursor
    (w0 : window) (file_path : string) (file : csv_file) (e1 e2 : exn) :
  supported file_path = true ->
  structured file = Raise e1 ->
  raw file = Raise e2 ->
  exists w' text1 text2,
    _load_and_plot_2d to_string file_path file w0 = (Ok tt, w') /\
    data_2d_loaded w' = None /\
    current_x_cut_idx w' = current_x_cut_idx w0 /\
    current_y_cut_idx w' = current_y_cut_idx w0 /\
    x_cut_index_input w' = x_cut_index_input w0 /\
    y_cut_index_input w' = y_cut_index_input w0 /\
    data_plotter_2d_main w' = Cleared /\
    data_plotter_2d_x_cut w' = Cleared /\
    data_plotter_2d_y_cut w' = Cleared /\
    x_cut_data_display w' = EmptyString /\
    y_cut_data_display w' = EmptyString /\
    cut_updates w' = cut_updates w0 /\
    message_boxes w'
    = message_boxes w0 ++
      [(Warning, "2D Data Format Warning"%string, text1);
       (Critical, "2D Data Load Error"%string, text2)].
Proof.
  intros Hs H1 H2. unfold _load_and_plot_2d, try_except.
  cbv [bind modify gets lift ret]. fold (supported file_path). rewrite Hs.
  unfold read_2d. rewrite H1. cbv [bind modify gets lift ret message_box].
  rewrite H2. eexists. eexists. eexists.
  split; [reflexivity|]. cbn -[String.append].
  repeat split. rewrite <- app_assoc. reflexivity.
Qed.

(** X3: a file whose name ends neither in .csv nor in .txt is not read:
    the matrix, its coordinates, both cut indices and both cursor fields
    stay as they were, but the three plots and the two previews are cleared
    and one warning is shown. *)
Theorem load_2d_unsupported_type
    (w0 : window) (file_path : string) (file : csv_file) :
  supported file_path = false ->
  exists w' text,
    _load_and_plot_2d to_string file_path file w0 = (Ok tt, w') /\
    data_2d_loaded w' = data_2d_loaded w0 /\
    x_coords_2d w' = x_coords_2d w0 /\ y_coords_2d w' = y_coords_2d w0 /\
    current_x_cut_idx w' = current_x_cut_idx w0 /\
    current_y_cut_idx w' = current_y_cut_idx w0 /\
    x_cut_index_input w' = x_cut_index_input w0 /\
    y_cut_index_input w' = y_cut_index_input w0 /\
    data_plotter_2d_main w' = Cleared /\
    data_plotter_2d_x_cut w' = Cleared /\
    data_plotter_2d_y_cut w' = Cleared /\
    x_cut_data_display w' = EmptyString /\
    y_cut_data_display w' = EmptyString /\
    cut_updates w' = cut_updates w0 /\
    message_boxes w'
    = message_boxes w0 ++ [(Warning, "Unsupported 2D File Type"%string, text)].
Proof.
  intros Hs. unfold _load_and_plot_2d, try_except.
  cbv [bind modify gets lift ret]. fold (supported file_path). rewrite Hs.
  cbv [message_box modify]. eexists. eexists.
  split; [reflexivity|]. cbn -[String.append]. repeat split.
Qed.

(** X4: a supported file that parses to a table without a row or without
    a column (a header line alone, or a single column, which becomes the
    index) is not kept: the load ends with the load error box and no
    matrix, with both cut indices at 0 and "0" in both fields. *)
Theorem load_2d_rejects_empty_matrix
    (w0 : window) (file_path : string) (file : csv_file) (data_df : frame) :
  supported file_path = true ->
  structured file = Ok data_df ->
  columns data_df = [] \/ index data_df = [] ->
  exists w' text,
    _load_and_plot_2d to_string file_path file w0 = (Ok tt, w') /\
    data_2d_loaded w' = None /\
    current_x_cut_idx w' = 0 /\ current_y_cut_idx w' = 0 /\
    x_cut_index_input w' = "0"%string /\ y_cut_index_input w' = "0"%string /\
    data_plotter_2d_main w' = Cleared /\
    cut_updates w' = cut_updates w0 /\
    last (message_boxes w') (Information, EmptyString, EmptyString)
    = (Critical, "2D Data Load Error"%string, text).
Proof.
  intros Hs H1 He. unfold _load_and_plot_2d, try_except.
  cbv [bind modify gets lift ret]. fold (supported file_path). rewrite Hs.
  unfold read_2d. rewrite H1. cbv [bind modify gets lift ret message_box].
  destruct (existsb isnan (columns data_df) || existsb isnan (index data_df));
    cbn -[update_2d_cuts plot_image String.append];
    match goal with
    | |- context [plot_image ?d ?xs ?ys ?t ?xl ?yl ?cb] =>
        destruct (plot_image_cases d xs ys t xl yl cb)
          as [(Hx & Hy & _) | (_ & e & P)]
    end;
    try (destruct He; contradiction);
    rewrite P; eexists; eexists; (split; [reflexivity|]);
    cbn -[String.append]; repeat split; apply last_last.
Qed.

(** *** The handlers leave the matrix and its coordinates alone *)

Lemma same_matrix_refl (w : window) : same_matrix w w.
Proof. repeat split. Qed.

Lemma same_matrix_trans (w1 w2 w3 : window) :
  same_matrix w1 w2 -> same_matrix w2 w3 -> same_matrix w1 w3.
Proof.
  intros (D1 & X1 & Y1) (D2 & X2 & Y2). repeat split; congruence.
Qed.

Lemma keeps_ret {A : Type} (a : A) : keeps_matrix (ret a).
Proof. intros w. apply same_matrix_refl. Qed.

Lemma keeps_lift {A : Type} (r : result A) : keeps_matrix (lift r).
Proof. intros w. apply same_matrix_refl. Qed.

Lemma keeps_gets {A : Type} (f : window -> A) : keeps_matrix (gets f).
Proof. intros w. apply same_matrix_refl. Qed.

Lemma keeps_modify (f : window -> window) :
  (forall w, same_matrix w (f w)) -> keeps_matrix (modify f).
Proof. intros H w. apply H. Qed.

Lemma keeps_bind {A B : Type} (m : M A) (k : A -> M B) :
  keeps_matrix m -> (forall a, keeps_matrix (k a)) -> keeps_matrix (bind m k).
Proof.
  intros Hm Hk w. unfold bind. specialize (Hm w).
  destruct (m w) as [[a|e] w1]; cbn [snd] in *.
  - apply (same_matrix_trans w w1); [exact Hm|apply Hk].
  - exact Hm.
Qed.

Lemma keeps_try_except {A : Type} (body : M A) (handler : exn -> M A) :
  keeps_matrix body -> (forall e, keeps_matrix (handler e)) ->
  keeps_matrix (try_except body handler).
Proof.
  intros Hb Hh w. unfold try_except. specialize (Hb w).
  destruct (body w) as [[a|e] w1]; cbn [snd] in *.
  - exact Hb.
  - apply (same_matrix_trans w w1); [exact Hb|apply Hh].
Qed.

Ltac keeps_matrix_step :=
  first
    [ apply keeps_ret
    | apply keeps_lift
    | apply keeps_gets
    | apply keeps_modify; intros ?; repeat split; reflexivity
    | apply keeps_bind; [|intros ?]
    | apply keeps_try_except; [|intros ?]
    | match goal with
      | |- keeps_matrix (match ?x with _ => _ end) => destruct x
      end ].

Lemma update_2d_cuts_keeps : keeps_matrix (update_2d_cuts to_string).
Proof. unfold update_2d_cuts. repeat keeps_matrix_step. Qed.

Lemma navigate_2d_cut_keeps (cut_type : string) (direction : Z) :
  keeps_matrix (navigate_2d_cut to_string cut_type direction).
Proof.
  unfold navigate_2d_cut.
  repeat first [apply update_2d_cuts_keeps | keeps_matrix_step].
Qed.

Lemma set_2d_cut_indices_keeps (text axis_type : string) :
  keeps_matrix (set_2d_cut_indices to_string text axis_type).
Proof.
  unfold set_2d_cut_indices, revert_on_value_error, message_box.
  repeat first [apply update_2d_cuts_keeps | keeps_matrix_step].
Qed.

Lemma drawable_same (w w' : window) :
  same_matrix w w' -> drawable w -> drawable w'.
Proof.
  intros (D & X & Y). unfold drawable. rewrite D, X, Y. auto.
Qed.

(** *** Every handler keeps the window consistent *)

Lemma finite_ends_nonempty (coords : list pyfloat) :
  finite_ends coords = true -> coords <> [].
Proof. intros H ->. discriminate. Qed.

Lemma nth_error_last {A : Type} (l : list A) :
  forall (a d : A), nth_error (a :: l) (List.length l) = Some (last (a :: l) d).
Proof.
  induction l as [|b l IH]; intros a d; [reflexivity|].
  cbn [List.length nth_error]. rewrite (IH b d). reflexivity.
Qed.

Lemma getitem_minus_one {A : Type} (a d : A) (l : list A) :
  getitem (a :: l) (-1) = Ok (last (a :: l) d).
Proof.
  unfold getitem, len. change (-1 <? 0) with true. cbn iota.
  set (n := Z.of_nat (List.length (a :: l))).
  assert (Hn : n = Z.of_nat (List.length l) + 1)
    by (subst n; cbn [List.length]; lia).
  destruct (Z.leb_spec 0 (-1 + n)); [|lia].
  destruct (Z.ltb_spec (-1 + n) n); [|lia].
  cbn [andb].
  replace (Z.to_nat (-1 + n)) with (List.length l) by lia.
  rewrite (nth_error_last l a d). reflexivity.
Qed.

Lemma finite_ends_spec (coords : list pyfloat) :
  finite_ends coords
  = match coords with
    | [] => false
    | _ :: _ => isfinite (hd NaN coords) && isfinite (last coords NaN)
    end.
Proof.
  unfold finite_ends. destruct coords as [|c coords]; [reflexivity|].
  rewrite getitem_first, (getitem_minus_one c NaN coords). reflexivity.
Qed.

(** What [plot_image] gives for a matrix and coordinates it can draw. *)
Lemma plot_image_ok (data : ndarray) (xs ys : list pyfloat)
    (title xlabel ylabel cbar : string) :
  array_dtype data = number ->
  finite_ends xs = true -> finite_ends ys = true ->
  plot_image data xs ys title xlabel ylabel cbar
  = Ok (Image data [hd NaN xs; last xs NaN; hd NaN ys; last ys NaN]
          title xlabel ylabel cbar).
Proof.
  intros Hd Hx Hy. rewrite finite_ends_spec in Hx, Hy.
  destruct xs as [|x xs]; [discriminate|].
  destruct ys as [|y ys]; [discriminate|].
  apply andb_true_iff in Hx. destruct Hx as [Hx0 Hx1].
  apply andb_true_iff in Hy. destruct Hy as [Hy0 Hy1].
  unfold plot_image.
  rewrite !getitem_first, (getitem_minus_one x NaN xs),
    (getitem_minus_one y NaN ys), Hd.
  cbn [forallb]. cbn [hd] in Hx0, Hy0. rewrite Hx0, Hx1, Hy0, Hy1. reflexivity.
Qed.

(** A load of a supported file either ends with [update_2d_cuts] on a
    window with a matrix that [plot_image] has drawn, or returns with no
    matrix. *)
Lemma load_supported_cases (w0 : window) (file_path : string) (file : csv_file) :
  supported file_path = true ->
  (exists w1 data,
      loaded w1 data /\ drawable w1 /\
      _load_and_plot_2d to_string file_path file w0 = update_2d_cuts to_string w1) \/
  (exists w',
      _load_and_plot_2d to_string file_path file w0 = (Ok tt, w') /\
      data_2d_loaded w' = None).
Proof.
  intros Hs. unfold _load_and_plot_2d, try_except.
  cbv [bind modify gets lift ret]. fold (supported file_path). rewrite Hs.
  unfold read_2d. cbv [bind modify gets lift ret message_box].
  destruct (structured file) as [df|parse_error].
  - destruct (existsb isnan (columns df) || existsb isnan (index df));
      cbn -[update_2d_cuts plot_image];
      match goal with
      | |- context [plot_image ?d ?xs ?ys ?t ?xl ?yl ?cb] =>
          destruct (plot_image_cases d xs ys t xl yl cb)
            as [(Hx & Hy & Dr & x0 & x1 & y0 & y1 & P) | (_ & e & P)]
      end; rewrite P;
      try (right; eexists; split; [reflexivity|reflexivity]);
      match goal with
      | |- context [update_2d_cuts to_string ?w] =>
          assert (L : loaded w (frame_values df))
            by (repeat split; cbn; eauto using nonempty_length);
          destruct (update_2d_cuts_loaded to_string w _ L)
            as (xs & ys & yc & xc & _ & _ & _ & _ & U);
          left; exists w, (frame_values df); split; [exact L|];
          split; [exact Dr|]; rewrite U; reflexivity
      end.
  - destruct (raw file) as [m|e]; cbn -[update_2d_cuts plot_image];
      [|right; eexists; split; [reflexivity|reflexivity]].
    match goal with
    | |- context [plot_image ?d ?xs ?ys ?t ?xl ?yl ?cb] =>
        destruct (plot_image_cases d xs ys t xl yl cb)
          as [(Hx & Hy & Dr & x0 & x1 & y0 & y1 & P) | (_ & e & P)]
    end; rewrite P;
      [|right; eexists; split; [reflexivity|reflexivity]].
    match goal with
    | |- context [update_2d_cuts to_string ?w] =>
        assert (L : loaded w m)
    end.
    { repeat split; cbn; eauto using length_arange.
      - rewrite <- (length_arange (shape0 m)). apply nonempty_length. assumption.
      - rewrite <- (length_arange (shape1 m)). apply nonempty_length. assumption. }
    match goal with
    | |- context [update_2d_cuts to_string ?w] =>
        destruct (update_2d_cuts_loaded to_string w _ L)
          as (xs & ys & yc & xc & _ & _ & _ & _ & U);
        left; exists w, m; split; [exact L|]; split; [exact Dr|];
        rewrite U; reflexivity
    end.
Qed.

Lemma consistent_of_loaded (w : window) (data : ndarray) :
  loaded w data -> in_bounds w -> drawable w -> consistent w.
Proof.
  intros L B Dr. unfold consistent. destruct L as (Hd & L).
  rewrite Hd. split; [split; assumption|]. split; [exact B|exact Dr].
Qed.

Lemma consistent_no_matrix (w : window) :
  data_2d_loaded w = None -> consistent w.
Proof. intros H. unfold consistent. rewrite H. exact I. Qed.

(** A handler that returns with the matrix in place and leaves it alone
    keeps a consistent window consistent. *)
Lemma consistent_kept {A : Type} (m : M A) (w w' : window) (a : A)
    (data : ndarray) :
  keeps_matrix m -> drawable w ->
  m w = (Ok a, w') -> loaded w' data -> in_bounds w' -> consistent w'.
Proof.
  intros K Dr E L B. apply (consistent_of_loaded w' data L B).
  apply (drawable_same w); [|exact Dr].
  specialize (K w). rewrite E in K. exact K.
Qed.

Lemma load_consistent (w0 : window) (file_path : string) (file : csv_file) :
  consistent w0 ->
  exists w',
    _load_and_plot_2d to_string file_path file w0 = (Ok tt, w') /\ consistent w'.
Proof.
  intros C0. destruct (supported file_path) eqn:Hs.
  - destruct (load_supported_cases w0 file_path file Hs)
      as [(w1 & data & L & Dr & E) | (w' & E & Hn)].
    + destruct (update_2d_cuts_preserves to_string w1 data L)
        as (w' & U & L' & B' & _).
      exists w'. rewrite E. split; [exact U|].
      apply (consistent_kept (update_2d_cuts to_string) w1 w' tt data);
        auto using update_2d_cuts_keeps.
    + exists w'. split; [exact E|]. apply consistent_no_matrix. exact Hn.
  - unfold _load_and_plot_2d, try_except.
    cbv [bind modify gets lift ret]. fold (supported file_path). rewrite Hs.
    cbv [message_box modify]. eexists. split; [reflexivity|].
    unfold consistent, loaded, in_bounds, drawable in *. cbn. exact C0.
Qed.

Lemma typed_consistent (w : window) (text axis_type : string) (w1 : window) :
  consistent w ->
  data_2d_loaded w1 = data_2d_loaded w ->
  x_coords_2d w1 = x_coords_2d w -> y_coords_2d w1 = y_coords_2d w ->
  current_x_cut_idx w1 = current_x_cut_idx w ->
  current_y_cut_idx w1 = current_y_cut_idx w ->
  exists w',
    set_2d_cut_indices to_string text axis_type w1 = (Ok tt, w') /\ consistent w'.
Proof.
  intros C Hd Hx Hy Ix Iy.
  assert (C1 : consistent w1).
  { unfold consistent, loaded, in_bounds, drawable in *.
    rewrite Hd, Hx, Hy, Ix, Iy. exact C. }
  destruct (data_2d_loaded w1) as [data|] eqn:D1.
  - unfold consistent in C1. rewrite D1 in C1. destruct C1 as (L & B & Dr).
    destruct (set_2d_cut_indices_preserves to_string w1 data text axis_type L B)
      as (w' & S & L' & B').
    exists w'. split; [exact S|].
    apply (consistent_kept (set_2d_cut_indices to_string text axis_type)
             w1 w' tt data); auto using set_2d_cut_indices_keeps.
  - exists w1. split; [|apply consistent_no_matrix; exact D1].
    unfold set_2d_cut_indices. cbv [bind gets ret]. rewrite D1. reflexivity.
Qed.

Lemma navigate_consistent (w : window) (cut_type : string) (direction : Z) :
  consistent w ->
  exists w',
    navigate_2d_cut to_string cut_type direction w = (Ok tt, w') /\ consistent w'.
Proof.
  intros C. destruct (data_2d_loaded w) as [data|] eqn:D.
  - unfold consistent in C. rewrite D in C. destruct C as (L & B & Dr).
    destruct (navigate_2d_cut_preserves to_string w data cut_type direction L)
      as (w' & N & L' & B').
    exists w'. split; [exact N|].
    apply (consistent_kept (navigate_2d_cut to_string cut_type direction)
             w w' tt data); auto using navigate_2d_cut_keeps.
  - exists w. split; [|apply consistent_no_matrix; exact D].
    unfold navigate_2d_cut. cbv [bind gets ret]. rewrite D. reflexivity.
Qed.

(** Drawing the image again, with any labels, then the cuts. *)
Lemma replot_2d_loaded (w : window) (data : ndarray)
    (xlabel_of ylabel_of cbar_of : window -> string) :
  loaded w data -> drawable w ->
  exists xs ys,
    x_coords_2d w = Some xs /\ y_coords_2d w = Some ys /\
    replot_2d to_string xlabel_of ylabel_of cbar_of w
    = update_2d_cuts to_string
        (set_data_plotter_2d_main
           (Image data [hd NaN xs; last xs NaN; hd NaN ys; last ys NaN]
              (plot_2d_title_input w) (xlabel_of w) (ylabel_of w) (cbar_of w))
           w).
Proof.
  intros (Hd & (xs & Hx & Lx) & (ys & Hy & Ly) & R & C) Dr.
  unfold drawable in Dr. rewrite Hd, Hx, Hy in Dr. destruct Dr as (Dd & Dx & Dy).
  unfold replot_2d. cbv [bind gets lift modify]. rewrite Hd, Hx, Hy.
  rewrite (plot_image_ok data xs ys (plot_2d_title_input w) (xlabel_of w)
             (ylabel_of w) (cbar_of w) Dd Dx Dy).
  exists xs, ys. auto.
Qed.

Lemma replot_2d_consistent (w : window)
    (xlabel_of ylabel_of cbar_of : window -> string) (w1 : window) :
  consistent w ->
  data_2d_loaded w1 = data_2d_loaded w ->
  x_coords_2d w1 = x_coords_2d w -> y_coords_2d w1 = y_coords_2d w ->
  current_x_cut_idx w1 = current_x_cut_idx w ->
  current_y_cut_idx w1 = current_y_cut_idx w ->
  exists w',
    replot_2d to_string xlabel_of ylabel_of cbar_of w1 = (Ok tt, w') /\
    consistent w'.
Proof.
  intros C Hd Hx Hy Ix Iy.
  assert (C1 : consistent w1).
  { unfold consistent, loaded, in_bounds, drawable in *.
    rewrite Hd, Hx, Hy, Ix, Iy. exact C. }
  destruct (data_2d_loaded w1) as [data|] eqn:D1.
  - unfold consistent in C1. rewrite D1 in C1. destruct C1 as (L & B & Dr).
    destruct (replot_2d_loaded w1 data xlabel_of ylabel_of cbar_of L Dr)
      as (xs & ys & _ & _ & E).
    match type of E with
    | _ = update_2d_cuts to_string ?w2 =>
        destruct (update_2d_cuts_preserves to_string w2 data L)
          as (w' & U & L' & B' & _);
        exists w'; rewrite E; split; [exact U|];
        apply (consistent_kept (update_2d_cuts to_string) w2 w' tt data);
          auto using update_2d_cuts_keeps
    end.
  - exists w1. split; [|apply consistent_no_matrix; exact D1].
    unfold replot_2d. cbv [bind gets ret]. rewrite D1. reflexivity.
Qed.

Lemma title_edited_consistent (w : window) (text : string) :
  consistent w ->
  exists w', title_edited text w = (Ok tt, w') /\ consistent w'.
Proof.
  intros C. unfold title_edited, set_2d_plot_title.
  cbv [bind gets lift modify ret].
  cbn [data_2d_loaded x_coords_2d y_coords_2d set_plot_2d_title_input].
  destruct (data_2d_loaded w) as [data|] eqn:D.
  - unfold consistent in C. rewrite D in C.
    destruct C as ((_ & (xs & Hx & Lx) & (ys & Hy & Ly) & R & Cc) & B & Dr).
    unfold drawable in Dr. rewrite D, Hx, Hy in Dr. destruct Dr as (Dd & Dx & Dy).
    rewrite Hx, Hy.
    match goal with
    | |- context [plot_image ?d ?a ?b ?t ?xl ?yl ?cb] =>
        rewrite (plot_image_ok d a b t xl yl cb Dd Dx Dy)
    end.
    eexists. split; [reflexivity|].
    unfold in_bounds in B. rewrite D in B.
    unfold consistent, loaded, in_bounds, drawable. cbn. rewrite D, Hx, Hy.
    split; [|split; [exact B|auto]]. split; [reflexivity|]. eauto 10.
  - eexists. split; [reflexivity|]. apply consistent_no_matrix. exact D.
Qed.

Lemma handle_consistent (e : event) (w : window) :
  consistent w ->
  exists w', handle to_string e w = (Ok tt, w') /\ consistent w'.
Proof.
  intros C. destruct e; cbn [handle].
  - unfold on_tree_view_clicked_2d. destruct is_dir.
    + exists w. split; [reflexivity|exact C].
    + apply load_consistent. exact C.
  - unfold select_root_folder_2d.
    destruct (String.eqb folder_path EmptyString).
    + exists w. split; [reflexivity|exact C].
    + eexists. split; [reflexivity|]. apply consistent_no_matrix. reflexivity.
  - unfold y_cut_text_changed, bind, modify.
    apply (typed_consistent w); auto.
  - unfold x_cut_text_changed, bind, modify.
    apply (typed_consistent w); auto.
  - apply navigate_consistent; exact C.
  - apply navigate_consistent; exact C.
  - apply navigate_consistent; exact C.
  - apply navigate_consistent; exact C.
  - apply title_edited_consistent; exact C.
  - unfold xaxis_label_edited, set_2d_xaxis_label, bind, modify.
    apply (replot_2d_consistent w); auto.
  - unfold yaxis_label_edited, set_2d_yaxis_label, bind, modify.
    apply (replot_2d_consistent w); auto.
  - unfold cbar_label_edited, set_2d_cbar_label, bind, modify.
    apply (replot_2d_consistent w); auto.
Qed.

(** X5: whatever the user does on the 2D tab, in any order and with any
    files, no handler lets an exception out, and whenever a matrix is loaded
    it is one that [plot_image] draws (a number dtype, finite ends of both
    coordinate vectors), with a row and a column, one coordinate for each,
    and both cut indices within it. *)
Theorem events_never_raise (events : list event) (w : window) :
  consistent w ->
  exists w',
    handle_all to_string events w = (Ok tt, w') /\ consistent w'.
Proof.
  revert w. induction events as [|e events IH]; intros w C.
  - exists w. split; [reflexivity|exact C].
  - destruct (handle_consistent e w C) as (w1 & H1 & C1).
    destruct (IH w1 C1) as (w' & H' & C').
    exists w'. cbn [handle_all]. unfold bind. rewrite H1. auto.
Qed.

(** *** Steps of the Prev/Next buttons *)

Lemma navigate_step (w : window) (data : ndarray) (cut_type : string)
    (direction : Z) :
  loaded w data ->
  cut_type = "x"%string \/ cut_type = "y"%string ->
  exists w',
    navigate_2d_cut to_string cut_type direction w = (Ok tt, w') /\
    loaded w' data /\ in_bounds w' /\
    navigated_index cut_type w'
    = Z.max 0 (Z.min (navigated_bound cut_type data)
                     (navigated_index cut_type w + direction)) /\
    cut_updates w' = S (cut_updates w).
Proof.
  intros L Hct. pose proof L as (Hd & _ & _ & R & C).
  rewrite (navigate_2d_cut_loaded to_string w data cut_type direction Hd).
  match goal with
  | |- context [update_2d_cuts to_string ?w2] =>
      assert (L2 : loaded w2 data)
        by (destruct (String.eqb cut_type "x"), (String.eqb cut_type "y"); exact L);
      destruct (update_2d_cuts_preserves to_string w2 data L2)
        as (w' & U & L' & B' & N & _ & Y & X & _)
  end.
  exists w'. split; [exact U|]. split; [exact L'|]. split; [exact B'|].
  unfold navigated_index, navigated_bound.
  destruct Hct as [-> | ->]; cbn [String.eqb Ascii.eqb Bool.eqb] in *;
    cbn in Y, X, N.
  - rewrite Y. split; [lia|exact N].
  - rewrite X. split; [lia|exact N].
Qed.

(** X6: pressing the same Prev or Next button k times, or any k steps of one
    size, moves the cut index to clamp(index + k * step, 0, bound) and runs
    [update_2d_cuts] k times: the index stops at the first or the last row
    or column and never wraps around. *)
Theorem navigate_repeated (k : nat) :
  forall (w : window) (data : ndarray) (cut_type : string) (direction : Z),
    loaded w data -> in_bounds w ->
    cut_type = "x"%string \/ cut_type = "y"%string ->
    exists w',
      run to_string (repeat (Navigate cut_type direction) k) w = (Ok tt, w') /\
      navigated_index cut_type w'
      = clamp (navigated_index cut_type w + Z.of_nat k * direction) 0
          (navigated_bound cut_type data) /\
      cut_updates w' = (cut_updates w + k)%nat.
Proof.
  induction k as [|k IH]; intros w data cut_type direction L B Hct.
  - exists w. split; [reflexivity|]. split; [|lia].
    pose proof L as (Hd & _). unfold in_bounds in B. rewrite Hd in B.
    unfold navigated_index, navigated_bound, clamp.
    destruct Hct as [-> | ->]; cbn [String.eqb Ascii.eqb Bool.eqb];
      rewrite Z.mul_0_l, Z.add_0_r;
      match goal with
      | |- ?c = (if ?c <? 0 then _ else if ?b <? ?c then _ else _) =>
          destruct (Z.ltb_spec c 0); [lia|destruct (Z.ltb_spec b c); lia]
      end.
  - destruct (navigate_step w data cut_type direction L Hct)
      as (w1 & N1 & L1 & B1 & I1 & U1).
    destruct (IH w1 data cut_type direction L1 B1 Hct) as (w' & Rn & I' & U').
    exists w'. cbn [repeat run perform]. unfold bind. rewrite N1.
    split; [exact Rn|]. split; [|lia].
    rewrite I', I1.
    pose proof L as (Hd & _ & _ & R & C).
    unfold in_bounds in B. rewrite Hd in B.
    assert (Hb : 0 <= navigated_index cut_type w <= navigated_bound cut_type data).
    { unfold navigated_index, navigated_bound.
      destruct (String.eqb cut_type "x"); lia. }
    set (c := navigated_index cut_type w) in *.
    set (b := navigated_bound cut_type data) in *.
    replace (Z.of_nat (S k) * direction)
      with (Z.of_nat k * direction + direction) by lia.
    assert (Hk : (0 <= direction -> 0 <= Z.of_nat k * direction) /\
                 (direction <= 0 -> Z.of_nat k * direction <= 0)) by nia.
    set (kd := Z.of_nat k * direction) in *.
    unfold clamp.
    destruct (Z.ltb_spec (Z.max 0 (Z.min b (c + direction)) + kd) 0);
      destruct (Z.ltb_spec (c + (kd + direction)) 0);
      try destruct (Z.ltb_spec b (Z.max 0 (Z.min b (c + direction)) + kd));
      try destruct (Z.ltb_spec b (c + (kd + direction)));
      lia.
Qed.

(** *** The text of a cut field and the index *)

Lemma set_cut_field_parses (w1 : window) (data : ndarray)
    (text axis_type : string) :
  loaded w1 data ->
  axis_type = "y"%string \/ axis_type = "x"%string ->
  text <> EmptyString ->
  cut_field axis_type w1 = text ->
  exists w',
    set_2d_cut_indices to_string text axis_type w1 = (Ok tt, w') /\
    int (cut_field axis_type w') = Some (cut_index axis_type w').
Proof.
  intros L Hax Ht Hf. pose proof L as (Hd & _).
  destruct (int text) as [v|] eqn:Hi.
  - destruct (Z.leb_spec 0 v) as [H0|H0];
      [destruct (Z.leb_spec v (max_index axis_type data)) as [H1|H1]|].
    + destruct (Z.eq_dec (cut_index axis_type w1) v) as [E|NE].
      * exists w1.
        rewrite (set_2d_cut_indices_same to_string w1 data text axis_type v)
          by (try assumption; lia).
        split; [reflexivity|]. rewrite Hf, Hi, E. reflexivity.
      * rewrite (set_2d_cut_indices_new to_string w1 data text axis_type v)
          by (try assumption; lia).
        match goal with
        | |- context [update_2d_cuts to_string ?w0] =>
            assert (L0 : loaded w0 data)
              by (destruct (String.eqb axis_type "y"); exact L);
            destruct (update_2d_cuts_preserves to_string w0 data L0)
              as (w' & U & _ & _ & _ & _ & _ & _ & TY & TX)
        end.
        exists w'. split; [exact U|]. unfold cut_field, cut_index.
        destruct (String.eqb axis_type "y"); [rewrite TY|rewrite TX];
          apply PyFacts.int_str.
    + destruct (set_2d_cut_indices_out_of_range to_string w1 data text
                  axis_type v Hd Hi ltac:(lia) Hax)
        as (w' & S & Y & X & F & _).
      exists w'. split; [exact S|]. rewrite F.
      unfold cut_index. rewrite Y, X. apply PyFacts.int_str.
    + destruct (set_2d_cut_indices_out_of_range to_string w1 data text
                  axis_type v Hd Hi ltac:(lia) Hax)
        as (w' & S & Y & X & F & _).
      exists w'. split; [exact S|]. rewrite F.
      unfold cut_index. rewrite Y, X. apply PyFacts.int_str.
  - destruct (set_2d_cut_indices_not_integer to_string w1 data text axis_type
                Hd Ht Hi Hax) as (w' & S & Y & X & F & _).
    exists w'. split; [exact S|]. rewrite F.
    unfold cut_index. rewrite Y, X. apply PyFacts.int_str.
Qed.

(** X7: with a matrix loaded, after the user changes a cut-index field to
    any text but the empty one, the field reads back as the cut index:
    [int] of what it shows is the index, whether the text was taken,
    rejected or equal to the index in another spelling. *)
Theorem cut_field_reads_back (w : window) (data : ndarray) (text : string) :
  loaded w data ->
  text <> EmptyString ->
  (exists w',
      y_cut_text_changed to_string text w = (Ok tt, w') /\
      int (y_cut_index_input w') = Some (current_y_cut_idx w')) /\
  (exists w',
      x_cut_text_changed to_string text w = (Ok tt, w') /\
      int (x_cut_index_input w') = Some (current_x_cut_idx w')).
Proof.
  intros L Ht. split.
  - unfold y_cut_text_changed, bind, modify.
    apply (set_cut_field_parses (set_y_cut_index_input text w) data text "y");
      auto.
  - unfold x_cut_text_changed, bind, modify.
    apply (set_cut_field_parses (set_x_cut_index_input text w) data text "x");
      auto.
Qed.

(** *** Recomputing twice *)

(** X8: [update_2d_cuts] is idempotent. Run on a window with no matrix, or
    with a matrix and its coordinates (whatever the indices), it returns,
    and a second run right after changes nothing but the count of runs:
    the indices, the fields, the plots and the previews stay. *)
Theorem update_2d_cuts_idempotent (w : window) :
  data_2d_loaded w = None \/ (exists data, loaded w data) ->
  exists w1,
    update_2d_cuts to_string w = (Ok tt, w1) /\
    update_2d_cuts to_string w1
    = (Ok tt, set_cut_updates (S (cut_updates w1)) w1).
Proof.
  intros [Hn | (data & L)].
  - rewrite (update_2d_cuts_no_matrix to_string w Hn).
    eexists. split; [reflexivity|].
    rewrite update_2d_cuts_no_matrix by exact Hn.
    destruct w. vm_compute. reflexivity.
  - destruct (update_2d_cuts_loaded to_string w data L)
      as (xs & ys & yc & xc & Hx & Hy & Ny & Nx & U).
    pose proof L as (Hd & (xs0 & Hx0 & Lx) & (ys0 & Hy0 & Ly) & R & C).
    rewrite Hx in Hx0. rewrite Hy in Hy0.
    injection Hx0 as <-. injection Hy0 as <-.
    set (w1 := cuts_shown to_string w data xs ys yc xc) in *.
    destruct (cuts_shown_loaded to_string w data xs ys yc xc Lx Ly R C)
      as (L1 & B1).
    fold w1 in L1, B1.
    destruct (update_2d_cuts_loaded to_string w1 data L1)
      as (xs' & ys' & yc' & xc' & Hx' & Hy' & Ny' & Nx' & U').
    exists w1. split; [exact U|]. rewrite U'.
    assert (EY : Z.max 0 (Z.min (current_y_cut_idx w1) (Z.of_nat (shape0 data) - 1))
                 = current_y_cut_idx w1) by (subst w1; cbn; lia).
    assert (EX : Z.max 0 (Z.min (current_x_cut_idx w1) (Z.of_nat (shape1 data) - 1))
                 = current_x_cut_idx w1) by (subst w1; cbn; lia).
    assert (Ex : xs' = xs) by (subst w1; cbn in Hx'; congruence).
    assert (Ey : ys' = ys) by (subst w1; cbn in Hy'; congruence).
    subst xs' ys'.
    rewrite EY in Ny'. rewrite EX in Nx'.
    assert (Eyc : yc' = yc) by (subst w1; cbn in Ny'; congruence).
    assert (Exc : xc' = xc) by (subst w1; cbn in Nx'; congruence).
    subst yc' xc'.
    f_equal. unfold cuts_shown at 1. rewrite EY, EX.
    subst w1. reflexivity.
Qed.

(** *** Label edits *)

(** X9: with a matrix loaded that [plot_image] draws, as every load leaves
    it, and the indices within it, ending the edit of the x-axis, y-axis or
    colorbar label redraws the cuts once with the new text as the label it
    names (the x label of the X-cut, the x label of the Y-cut, the y label
    of both), moves neither cut index and shows no message box. *)
Theorem label_edit_redraws_cuts (w : window) (data : ndarray) (text : string) :
  loaded w data -> in_bounds w -> drawable w ->
  (exists w' drawn title ylabel,
      xaxis_label_edited to_string text w = (Ok tt, w') /\
      data_plotter_2d_x_cut w' = Lines drawn title text ylabel /\
      current_y_cut_idx w' = current_y_cut_idx w /\
      current_x_cut_idx w' = current_x_cut_idx w /\
      cut_updates w' = S (cut_updates w) /\
      message_boxes w' = message_boxes w) /\
  (exists w' drawn title ylabel,
      yaxis_label_edited to_string text w = (Ok tt, w') /\
      data_plotter_2d_y_cut w' = Lines drawn title text ylabel /\
      current_y_cut_idx w' = current_y_cut_idx w /\
      current_x_cut_idx w' = current_x_cut_idx w /\
      cut_updates w' = S (cut_updates w) /\
      message_boxes w' = message_boxes w) /\
  (exists w' drawn_x title_x xlabel_x drawn_y title_y xlabel_y,
      cbar_label_edited to_string text w = (Ok tt, w') /\
      data_plotter_2d_x_cut w' = Lines drawn_x title_x xlabel_x text /\
      data_plotter_2d_y_cut w' = Lines drawn_y title_y xlabel_y text /\
      current_y_cut_idx w' = current_y_cut_idx w /\
      current_x_cut_idx w' = current_x_cut_idx w /\
      cut_updates w' = S (cut_updates w) /\
      message_boxes w' = message_boxes w).
Proof.
  intros L B Dr.
  pose proof L as (Hd & _ & _ & R & C).
  pose proof B as B0. unfold in_bounds in B0. rewrite Hd in B0.
  split; [|split].
  - unfold xaxis_label_edited, set_2d_xaxis_label, bind, modify.
    set (w1 := set_plot_2d_xaxis_input text w).
    destruct (replot_2d_loaded w1 data (fun _ => text) plot_2d_yaxis_input
                plot_2d_cbar_input L Dr) as (xs0 & ys0 & _ & _ & E).
    rewrite E.
    match goal with
    | |- context [update_2d_cuts to_string ?w0] => set (w2 := w0)
    end.
    destruct (update_2d_cuts_slices to_string w2 data L B)
      as (w' & xs & ys & yc & xc & U & _ & _ & _ & _ & PX & _).
    destruct (update_2d_cuts_preserves to_string w2 data L)
      as (w'' & U2 & _ & _ & N & M & Y & X & _).
    rewrite U in U2. injection U2 as <-.
    eexists. eexists. eexists. eexists.
    split; [exact U|]. split; [exact PX|].
    cbn in Y, X, N, M. repeat split; try assumption; lia.
  - unfold yaxis_label_edited, set_2d_yaxis_label, bind, modify.
    set (w1 := set_plot_2d_yaxis_input text w).
    destruct (replot_2d_loaded w1 data plot_2d_xaxis_input (fun _ => text)
                plot_2d_cbar_input L Dr) as (xs0 & ys0 & _ & _ & E).
    rewrite E.
    match goal with
    | |- context [update_2d_cuts to_string ?w0] => set (w2 := w0)
    end.
    destruct (update_2d_cuts_slices to_string w2 data L B)
      as (w' & xs & ys & yc & xc & U & _ & _ & _ & _ & _ & PY & _).
    destruct (update_2d_cuts_preserves to_string w2 data L)
      as (w'' & U2 & _ & _ & N & M & Y & X & _).
    rewrite U in U2. injection U2 as <-.
    eexists. eexists. eexists. eexists.
    split; [exact U|]. split; [exact PY|].
    cbn in Y, X, N, M. repeat split; try assumption; lia.
  - unfold cbar_label_edited, set_2d_cbar_label, bind, modify.
    set (w1 := set_plot_2d_cbar_input text w).
    destruct (replot_2d_loaded w1 data plot_2d_xaxis_input plot_2d_yaxis_input
                (fun _ => text) L Dr) as (xs0 & ys0 & _ & _ & E).
    rewrite E.
    match goal with
    | |- context [update_2d_cuts to_string ?w0] => set (w2 := w0)
    end.
    destruct (update_2d_cuts_slices to_string w2 data L B)
      as (w' & xs & ys & yc & xc & U & _ & _ & _ & _ & PX & PY & _).
    destruct (update_2d_cuts_preserves to_string w2 data L)
      as (w'' & U2 & _ & _ & N & M & Y & X & _).
    rewrite U in U2. injection U2 as <-.
    do 7 eexists.
    split; [exact U|]. split; [exact PX|]. split; [exact PY|].
    cbn in Y, X, N, M. repeat split; try assumption; lia.
Qed.

(** X10: with a matrix loaded that [plot_image] draws, as every load leaves
    it, ending the edit of the plot title draws the image again under the
    new title and leaves the cuts alone: [update_2d_cuts] does not run, and
    the two cut plots, the two previews, the indices and the fields are
    unchanged. With no matrix loaded only the title field changes. *)
Theorem title_edit_leaves_cuts (w : window) (text : string) :
  (forall data, loaded w data -> drawable w ->
   exists xs ys,
     x_coords_2d w = Some xs /\ y_coords_2d w = Some ys /\
     data_plotter_2d_main (snd (title_edited text w))
     = Image data [hd NaN xs; last xs NaN; hd NaN ys; last ys NaN] text
         (plot_2d_xaxis_input w) (plot_2d_yaxis_input w)
         (plot_2d_cbar_input w)) /\
  (data_2d_loaded w = None ->
   title_edited text w = (Ok tt, set_plot_2d_title_input text w)) /\
  (data_2d_loaded w = None \/ (exists data, loaded w data /\ drawable w) ->
   exists w',
     title_edited text w = (Ok tt, w') /\
     plot_2d_title_input w' = text /\
     cut_updates w' = cut_updates w /\
     data_plotter_2d_x_cut w' = data_plotter_2d_x_cut w /\
     data_plotter_2d_y_cut w' = data_plotter_2d_y_cut w /\
     x_cut_data_display w' = x_cut_data_display w /\
     y_cut_data_display w' = y_cut_data_display w /\
     current_y_cut_idx w' = current_y_cut_idx w /\
     current_x_cut_idx w' = current_x_cut_idx w /\
     y_cut_index_input w' = y_cut_index_input w /\
     x_cut_index_input w' = x_cut_index_input w /\
     message_boxes w' = message_boxes w).
Proof.
  assert (G : forall data, loaded w data -> drawable w ->
          exists xs ys,
            x_coords_2d w = Some xs /\ y_coords_2d w = Some ys /\
            title_edited text w
            = (Ok tt,
               set_data_plotter_2d_main
                 (Image data [hd NaN xs; last xs NaN; hd NaN ys; last ys NaN]
                    text (plot_2d_xaxis_input w)
                    (plot_2d_yaxis_input w) (plot_2d_cbar_input w))
                 (set_plot_2d_title_input text w))).
  { intros data (Hd & (xs & Hx & Lx) & (ys & Hy & Ly) & R & C) Dr.
    unfold drawable in Dr. rewrite Hd, Hx, Hy in Dr.
    destruct Dr as (Dd & Dx & Dy).
    unfold title_edited, set_2d_plot_title.
    cbv [bind gets lift modify ret].
    cbn [data_2d_loaded x_coords_2d y_coords_2d set_plot_2d_title_input
         plot_2d_xaxis_input plot_2d_yaxis_input plot_2d_cbar_input].
    rewrite Hd, Hx, Hy.
    rewrite (plot_image_ok data xs ys text (plot_2d_xaxis_input w)
               (plot_2d_yaxis_input w) (plot_2d_cbar_input w) Dd Dx Dy).
    exists xs, ys. auto. }
  assert (N : data_2d_loaded w = None ->
              title_edited text w = (Ok tt, set_plot_2d_title_input text w)).
  { intros Hn. unfold title_edited, set_2d_plot_title.
    cbv [bind gets lift modify ret]. cbn [data_2d_loaded set_plot_2d_title_input].
    rewrite Hn. reflexivity. }
  split; [|split; [exact N|]].
  - intros data L Dr. destruct (G data L Dr) as (xs & ys & Hx & Hy & E).
    rewrite E. exists xs, ys. auto.
  - intros [Hn | (data & L & Dr)].
    + rewrite (N Hn). eexists. split; [reflexivity|]. cbn. repeat split.
    + destruct (G data L Dr) as (xs & ys & _ & _ & E).
      rewrite E. eexists. split; [reflexivity|]. cbn. repeat split.
Qed.

(** *** The extent of the image and the fallback coordinates *)

(** X11: [plot_image] raises [IndexError] exactly when a coordinate vector
    is empty; otherwise it refuses a matrix of dtype object, and a first or
    last coordinate that is NaN or infinite; otherwise it spans the image
    from the first to the last x coordinate and from the first to the last
    y coordinate, in the order the vectors have them. *)
Theorem plot_image_extent (data : ndarray) (xs ys : list pyfloat)
    (title xlabel ylabel cbar : string) :
  let extent := [hd NaN xs; last xs NaN; hd NaN ys; last ys NaN] in
  (xs = [] \/ ys = [] ->
   exists msg,
     plot_image data xs ys title xlabel ylabel cbar = Raise (IndexError msg)) /\
  (xs <> [] -> ys <> [] -> array_dtype data = object ->
   plot_image data xs ys title xlabel ylabel cbar
   = Raise (OtherError
              "Image data of dtype object cannot be converted to float")) /\
  (xs <> [] -> ys <> [] -> array_dtype data = number ->
   forallb isfinite extent = false ->
   plot_image data xs ys title xlabel ylabel cbar
   = Raise (ValueError "Axis limits cannot be NaN or Inf")) /\
  (xs <> [] -> ys <> [] -> array_dtype data = number ->
   forallb isfinite extent = true ->
   plot_image data xs ys title xlabel ylabel cbar
   = Ok (Image data extent title xlabel ylabel cbar)).
Proof.
  cbv zeta. unfold plot_image. split; [|split; [|split]].
  - intros [-> | ->].
    + eexists. reflexivity.
    + destruct xs as [|x xs]; [eexists; reflexivity|].
      rewrite getitem_first, (getitem_minus_one x NaN xs).
      eexists. reflexivity.
  - intros Hx Hy Hd.
    destruct xs as [|x xs]; [contradiction|].
    destruct ys as [|y ys]; [contradiction|].
    rewrite !getitem_first.
    rewrite (getitem_minus_one x NaN xs), (getitem_minus_one y NaN ys), Hd.
    reflexivity.
  - intros Hx Hy Hd Hf.
    destruct xs as [|x xs]; [contradiction|].
    destruct ys as [|y ys]; [contradiction|].
    rewrite !getitem_first.
    rewrite (getitem_minus_one x NaN xs), (getitem_minus_one y NaN ys), Hd.
    cbn [hd] in Hf. rewrite Hf. reflexivity.
  - intros Hx Hy Hd Hf.
    destruct xs as [|x xs]; [contradiction|].
    destruct ys as [|y ys]; [contradiction|].
    rewrite !getitem_first.
    rewrite (getitem_minus_one x NaN xs), (getitem_minus_one y NaN ys), Hd.
    cbn [hd] in Hf. rewrite Hf. reflexivity.
Qed.

Lemma last_in {A : Type} (l : list A) (d : A) : l <> [] -> In (last l d) l.
Proof.
  induction l as [|a l IH]; [congruence|]. intros _.
  destruct l as [|b l]; [left; reflexivity|].
  right. apply IH. discriminate.
Qed.

Lemma finite_ends_arange (n : nat) : (1 <= n)%nat -> finite_ends (arange n) = true.
Proof.
  intros H. rewrite finite_ends_spec.
  assert (F : forall v, In v (arange n) -> isfinite v = true).
  { intros v Hv. unfold arange in Hv. apply in_map_iff in Hv.
    destruct Hv as (i & <- & _). reflexivity. }
  destruct (arange n) as [|a l] eqn:E.
  - apply (f_equal (@List.length _)) in E. rewrite length_arange in E.
    cbn in E. lia.
  - rewrite (F (hd NaN (a :: l))) by (left; reflexivity).
    rewrite (F (last (a :: l) NaN)) by (apply last_in; discriminate).
    reflexivity.
Qed.



Lemma nth_error_arange (n : nat) (i : Z) :
  0 <= i < Z.of_nat n ->
  nth_error (arange n) (Z.to_nat i) = Some (Finite (i # 1)).
Proof.
  intros H. unfold arange. rewrite nth_error_map.
  rewrite nth_error_seq.
  destruct (Nat.ltb_spec (Z.to_nat i) n) as [_|Hf]; [|lia].
  cbn [option_map Nat.add]. rewrite Z2Nat.id by lia. reflexivity.
Qed.

(** X12: when a supported file is read only by the fallback, as a matrix
    of numbers with a row and a column, the load shows the format warning
    and takes the row and column numbers 0, 1, 2, ... as coordinates; from
    then on the title of a cut shows the cut index itself, to two
    decimals. *)
Theorem fallback_load_numbers_coordinates :
  (forall (w0 : window) (file_path : string) (file : csv_file) (e : exn)
          (m : ndarray),
      supported file_path = true ->
      structured file = Raise e ->
      raw file = Ok m ->
      array_dtype m = number ->
      (1 <= shape0 m)%nat -> (1 <= shape1 m)%nat ->
      exists w' text,
        _load_and_plot_2d to_string file_path file w0 = (Ok tt, w') /\
        data_2d_loaded w' = Some m /\
        x_coords_2d w' = Some (arange (shape1 m)) /\
        y_coords_2d w' = Some (arange (shape0 m)) /\
        message_boxes w'
        = message_boxes w0 ++
          [(Warning, "2D Data Format Warning"%string, text)]) /\
  (forall (w : window) (m : ndarray),
      data_2d_loaded w = Some m ->
      x_coords_2d w = Some (arange (shape1 m)) ->
      y_coords_2d w = Some (arange (shape0 m)) ->
      in_bounds w ->
      exists w' drawn_x xlabel_x ylabel_x drawn_y xlabel_y ylabel_y,
        update_2d_cuts to_string w = (Ok tt, w') /\
        data_plotter_2d_x_cut w'
        = Lines drawn_x
            ("X-Cut at Y-coord " ++ format_2f (Finite (current_y_cut_idx w # 1)))
            xlabel_x ylabel_x /\
        data_plotter_2d_y_cut w'
        = Lines drawn_y
            ("Y-Cut at X-coord " ++ format_2f (Finite (current_x_cut_idx w # 1)))
            xlabel_y ylabel_y).
Proof.
  split.
  - intros w0 file_path file e m Hs H1 H2 Hn R C.
    unfold _load_and_plot_2d, try_except.
    cbv [bind modify gets lift ret]. fold (supported file_path). rewrite Hs.
    unfold read_2d. rewrite H1. cbv [bind modify gets lift ret message_box].
    rewrite H2. cbn -[update_2d_cuts plot_image String.append].
    match goal with
    | |- context [plot_image ?d ?a ?b ?t ?xl ?yl ?cb] =>
        rewrite (plot_image_ok d a b t xl yl cb Hn (finite_ends_arange _ C)
                   (finite_ends_arange _ R))
    end.
    match goal with
    | |- context [update_2d_cuts to_string ?w] =>
        assert (L : loaded w m)
          by (repeat split; cbn; eauto using length_arange);
        destruct (update_2d_cuts_loaded to_string w m L)
          as (xs & ys & yc & xc & Hx & Hy & _ & _ & U)
    end.
    rewrite U. cbn in Hx, Hy. injection Hx as <-. injection Hy as <-.
    eexists. eexists. split; [reflexivity|].
    cbn -[String.append]. repeat split.
  - intros w m Hd Hx Hy B.
    pose proof B as B0. unfold in_bounds in B0. rewrite Hd in B0.
    assert (L : loaded w m).
    { split; [exact Hd|].
      split; [exists (arange (shape1 m)); split; [exact Hx|apply length_arange]|].
      split; [exists (arange (shape0 m)); split; [exact Hy|apply length_arange]|].
      lia. }
    destruct (update_2d_cuts_slices to_string w m L B)
      as (w' & xs & ys & yc & xc & U & Hx' & Hy' & Ny & Nx & PX & PY & _).
    rewrite Hx in Hx'. rewrite Hy in Hy'.
    injection Hx' as <-. injection Hy' as <-.
    rewrite nth_error_arange in Ny by lia.
    rewrite nth_error_arange in Nx by lia.
    injection Ny as <-. injection Nx as <-.
    do 7 eexists. split; [exact U|]. split; [exact PX|exact PY].
Qed.

End WithRendering.

(** *** Instances *)

Ltac example_loaded :=
  repeat split; try (vm_compute; lia);
  (eexists; split; [reflexivity|]; reflexivity).

Lemma select_root_folder_2d_resets_witness :
  select_root_folder_2d EmptyString example_window = (Ok tt, example_window) /\
  exists w',
    select_root_folder_2d "/data/run2" example_window = (Ok tt, w') /\
    data_2d_loaded w' = None /\
    x_coords_2d w' = None /\ y_coords_2d w' = None /\
    current_x_cut_idx w' = 0 /\ current_y_cut_idx w' = 0 /\
    x_cut_index_input w' = "0"%string /\ y_cut_index_input w' = "0"%string /\
    data_plotter_2d_main w' = Cleared /\
    data_plotter_2d_x_cut w' = Cleared /\
    data_plotter_2d_y_cut w' = Cleared /\
    x_cut_data_display w' = EmptyString /\
    y_cut_data_display w' = EmptyString /\
    message_boxes w' = message_boxes example_window /\
    cut_updates w' = cut_updates example_window.
Proof.
  split.
  - apply (select_root_folder_2d_resets EmptyString example_window). reflexivity.
  - apply (select_root_folder_2d_resets "/data/run2"%string example_window).
    discriminate.
Defined.

Lemma load_2d_unreadable_keeps_cursor_witness :
  let w0 := set_current_y_cut_idx 2 (set_y_cut_index_input "2" example_window) in
  exists w' text1 text2,
    _load_and_plot_2d plain_table "broken.csv" unreadable_file w0 = (Ok tt, w') /\
    data_2d_loaded w' = None /\
    current_x_cut_idx w' = current_x_cut_idx w0 /\
    current_y_cut_idx w' = current_y_cut_idx w0 /\
    x_cut_index_input w' = x_cut_index_input w0 /\
    y_cut_index_input w' = y_cut_index_input w0 /\
    data_plotter_2d_main w' = Cleared /\
    data_plotter_2d_x_cut w' = Cleared /\
    data_plotter_2d_y_cut w' = Cleared /\
    x_cut_data_display w' = EmptyString /\
    y_cut_data_display w' = EmptyString /\
    cut_updates w' = cut_updates w0 /\
    message_boxes w'
    = message_boxes w0 ++
      [(Warning, "2D Data Format Warning"%string, text1);
       (Critical, "2D Data Load Error"%string, text2)].
Proof.
  intros w0.
  apply (load_2d_unreadable_keeps_cursor plain_table w0 "broken.csv"%string
           unreadable_file (OtherError "No columns to parse from file")
           (OtherError "No columns to parse from file")).
  - vm_compute. reflexivity.
  - reflexivity.
  - reflexivity.
Defined.

Lemma load_2d_unsupported_type_witness :
  exists w' text,
    _load_and_plot_2d plain_table "notes.dat" example_file example_window
    = (Ok tt, w') /\
    data_2d_loaded w' = data_2d_loaded example_window /\
    x_coords_2d w' = x_coords_2d example_window /\
    y_coords_2d w' = y_coords_2d example_window /\
    current_x_cut_idx w' = current_x_cut_idx example_window /\
    current_y_cut_idx w' = current_y_cut_idx example_window /\
    x_cut_index_input w' = x_cut_index_input example_window /\
    y_cut_index_input w' = y_cut_index_input example_window /\
    data_plotter_2d_main w' = Cleared /\
    data_plotter_2d_x_cut w' = Cleared /\
    data_plotter_2d_y_cut w' = Cleared /\
    x_cut_data_display w' = EmptyString /\
    y_cut_data_display w' = EmptyString /\
    cut_updates w' = cut_updates example_window /\
    message_boxes w'
    = message_boxes example_window ++
      [(Warning, "Unsupported 2D File Type"%string, text)].
Proof.
  apply (load_2d_unsupported_type plain_table example_window "notes.dat"%string
           example_file).
  vm_compute. reflexivity.
Defined.

Lemma load_2d_rejects_empty_matrix_witness :
  let header_only :=
    {| columns := [Finite (1 # 1); Finite (2 # 1)];
       index := [];
       values := fun _ _ => NaN;
       values_dtype := number |} in
  let file := {| structured := Ok header_only;
                 raw := Raise (OtherError "not read") |} in
  exists w' text,
    _load_and_plot_2d plain_table "header.csv" file
      (set_current_y_cut_idx 3 example_window) = (Ok tt, w') /\
    data_2d_loaded w' = None /\
    current_x_cut_idx w' = 0 /\ current_y_cut_idx w' = 0 /\
    x_cut_index_input w' = "0"%string /\ y_cut_index_input w' = "0"%string /\
    data_plotter_2d_main w' = Cleared /\
    cut_updates w' = cut_updates (set_current_y_cut_idx 3 example_window) /\
    last (message_boxes w') (Information, EmptyString, EmptyString)
    = (Critical, "2D Data Load Error"%string, text).
Proof.
  intros header_only file.
  apply (load_2d_rejects_empty_matrix plain_table
           (set_current_y_cut_idx 3 example_window) "header.csv"%string file
           header_only).
  - vm_compute. reflexivity.
  - reflexivity.
  - right. reflexivity.
Defined.


Lemma events_never_raise_witness :
  exists w',
    handle_all plain_table
      [TreeClicked "scan.csv" false example_file; NextY; NextY; XCutTyped "7";
       CbarEdited "X-axis"; TreeClicked "broken.csv" false unreadable_file;
       PrevX; YCutTyped ""; TreeClicked "raw.txt" false raw_file; NextX; NextX;
       TitleEdited "run 2"; TreeClicked "nan.csv" false nan_header_file;
       TitleEdited "run 3"; TreeClicked "scan.csv" false example_file;
       TreeClicked "text.csv" false text_cell_file; YLabelEdited "B";
       FolderSelected "/data"; XLabelEdited "t"]%string
      initial
    = (Ok tt, w') /\
    consistent w'.
Proof.
  apply events_never_raise. vm_compute. exact I.
Defined.

Lemma navigate_repeated_witness :
  exists w',
    run plain_table (repeat (Navigate "x" 1) 6) example_window = (Ok tt, w') /\
    navigated_index "x" w'
    = clamp (navigated_index "x" example_window + Z.of_nat 6 * 1) 0
        (navigated_bound "x" (frame_values example_frame)) /\
    cut_updates w' = (cut_updates example_window + 6)%nat.
Proof.
  apply navigate_repeated.
  - example_loaded.
  - vm_compute. repeat split; discriminate.
  - left. reflexivity.
Defined.

Lemma cut_field_reads_back_witness :
  (exists w',
      y_cut_text_changed plain_table " 03" example_window = (Ok tt, w') /\
      int (y_cut_index_input w') = Some (current_y_cut_idx w')) /\
  (exists w',
      x_cut_text_changed plain_table " 03" example_window = (Ok tt, w') /\
      int (x_cut_index_input w') = Some (current_x_cut_idx w')).
Proof.
  apply (cut_field_reads_back plain_table example_window
           (frame_values example_frame)).
  - example_loaded.
  - discriminate.
Defined.

Lemma update_2d_cuts_idempotent_witness :
  exists w1,
    update_2d_cuts plain_table (set_current_y_cut_idx 9 example_window)
    = (Ok tt, w1) /\
    update_2d_cuts plain_table w1
    = (Ok tt, set_cut_updates (S (cut_updates w1)) w1).
Proof.
  apply update_2d_cuts_idempotent.
  right. exists (frame_values example_frame). example_loaded.
Defined.

Lemma label_edit_redraws_cuts_witness :
  exists w' drawn title ylabel,
    xaxis_label_edited plain_table "Field (T)" example_window = (Ok tt, w') /\
    data_plotter_2d_x_cut w' = Lines drawn title "Field (T)" ylabel /\
    current_y_cut_idx w' = current_y_cut_idx example_window /\
    current_x_cut_idx w' = current_x_cut_idx example_window /\
    cut_updates w' = S (cut_updates example_window) /\
    message_boxes w' = message_boxes example_window.
Proof.
  apply (label_edit_redraws_cuts plain_table example_window
           (frame_values example_frame) "Field (T)"%string).
  - example_loaded.
  - vm_compute. repeat split; discriminate.
  - vm_compute. repeat split.
Defined.

Lemma title_edit_leaves_cuts_witness :
  data_plotter_2d_main (snd (title_edited "run 2" example_window))
  = Image (frame_values example_frame)
      [Finite (1 # 1); Finite (3 # 1); Finite (10 # 1); Finite (40 # 1)]
      "run 2" "X-axis" "Y-axis" "Intensity" /\
  title_edited "run 2" initial = (Ok tt, set_plot_2d_title_input "run 2" initial).
Proof.
  destruct (title_edit_leaves_cuts example_window "run 2"%string) as (H1 & _ & _).
  destruct (title_edit_leaves_cuts initial "run 2"%string) as (_ & H2 & _).
  split.
  - destruct (H1 (frame_values example_frame)) as (xs & ys & Hx & Hy & E).
    + example_loaded.
    + vm_compute. repeat split.
    + injection Hx as <-. injection Hy as <-. exact E.
  - apply H2. reflexivity.
Defined.

Lemma plot_image_extent_witness :
  plot_image (frame_values example_frame) (columns example_frame)
    (index example_frame) "scan.csv" "X-axis" "Y-axis" "Intensity"
  = Ok (Image (frame_values example_frame)
          [Finite (1 # 1); Finite (3 # 1); Finite (10 # 1); Finite (40 # 1)]
          "scan.csv" "X-axis" "Y-axis" "Intensity") /\
  (exists msg,
      plot_image (frame_values example_frame) (columns example_frame) []
        "scan.csv" "X-axis" "Y-axis" "Intensity"
      = Raise (IndexError msg)) /\
  plot_image (frame_values example_frame) [NaN; Finite (2 # 1); Finite (3 # 1)]
    (index example_frame) "nan.csv" "X-axis" "Y-axis" "Intensity"
  = Raise (ValueError "Axis limits cannot be NaN or Inf").
Proof.
  split; [|split].
  - apply (plot_image_extent (frame_values example_frame) (columns example_frame)
             (index example_frame)); try discriminate; reflexivity.
  - apply (plot_image_extent (frame_values example_frame) (columns example_frame)
             []).
    right. reflexivity.
  - apply (plot_image_extent (frame_values example_frame)
             [NaN; Finite (2 # 1); Finite (3 # 1)] (index example_frame));
      try discriminate; reflexivity.
Defined.

Lemma fallback_load_numbers_coordinates_witness :
  let m := {| shape0 := 2; shape1 := 2;
              item := fun r c => Finite (Z.of_nat (r + c) # 1);
              array_dtype := number |} in
  let w := set_current_y_cut_idx 1
             (snd (_load_and_plot_2d plain_table "raw.txt" raw_file example_window)) in
  (exists w' text,
      _load_and_plot_2d plain_table "raw.txt" raw_file example_window
      = (Ok tt, w') /\
      data_2d_loaded w' = Some m /\
      x_coords_2d w' = Some (arange 2) /\
      y_coords_2d w' = Some (arange 2) /\
      message_boxes w'
      = message_boxes example_window ++
        [(Warning, "2D Data Format Warning"%string, text)]) /\
  (exists w' drawn_x xlabel_x ylabel_x drawn_y xlabel_y ylabel_y,
      update_2d_cuts plain_table w = (Ok tt, w') /\
      data_plotter_2d_x_cut w'
      = Lines drawn_x
          ("X-Cut at Y-coord " ++ format_2f (Finite (current_y_cut_idx w # 1)))
          xlabel_x ylabel_x /\
      data_plotter_2d_y_cut w'
      = Lines drawn_y
          ("Y-Cut at X-coord " ++ format_2f (Finite (current_x_cut_idx w # 1)))
          xlabel_y ylabel_y).
Proof.
  intros m w.
  destruct (fallback_load_numbers_coordinates plain_table) as (H1 & H2).
  split.
  - apply (H1 example_window "raw.txt"%string raw_file
             (OtherError "could not convert string to float") m);
      try reflexivity; vm_compute; lia.
  - apply (H2 w m); try reflexivity.
    vm_compute. repeat split; discriminate.
Defined.

End CutsEvents.

(** ** The 1D tab: loads that fail, folder selection, adding and removing *)

Module SeriesEdits.
Import Py Qt DataPlotter Series SeriesFacts.

Section WithTable.

Variable cell : Type.
Variable to_numeric : cell -> pyfloat.
Variable to_string : dict (list pyfloat) -> string.

Local Abbreviation table := (Series.table cell).
Local Abbreviation window := (Series.window cell).
Local Abbreviation update_1d := (update_1d_plot_from_column_selection cell to_numeric to_string).
Local Abbreviation add_series := (add_plot_series_input cell to_numeric to_string).
Local Abbreviation remove_last := (remove_last_plot_series_input cell to_numeric to_string).
Local Abbreviation load_1d := (_load_and_plot_1d cell to_numeric to_string).
Local Abbreviation survives := (Series.survives cell to_numeric).
Local Abbreviation series_of := (Series.series_of cell to_numeric).
Local Abbreviation resolve := (Series.resolve cell to_numeric).
Local Abbreviation loop_body := (Series.loop_body cell to_numeric).
Local Abbreviation loop := (Series.loop cell to_numeric).

(** X13: choosing a folder for the 1D tab forgets the data frame, clears
    the plot and the preview and replaces the series controls, whatever
    they were, by the two defaults (0, 1) and (0, 3, secondary); it shows no
    message box and does not raise. A cancelled dialog changes nothing. *)
Theorem select_root_folder_1d_defaults (folder_path : string) (w : window) :
  (folder_path = EmptyString ->
   select_root_folder_1d cell to_numeric to_string folder_path w = Ok w) /\
  (folder_path <> EmptyString ->
   exists w',
     select_root_folder_1d cell to_numeric to_string folder_path w = Ok w' /\
     current_1d_df w' = None /\
     series_input_widgets w'
     = [{| x_input := "0"; y_input := "1"; twinx_checkbox := false |};
        {| x_input := "0"; y_input := "3"; twinx_checkbox := true |}] /\
     data_plotter_1d w' = Cleared /\
     data_1d_display w' = EmptyString /\
     message_boxes w' = message_boxes w).
Proof.
  unfold select_root_folder_1d. split.
  - intros ->. reflexivity.
  - intros H. destruct (String.eqb_spec folder_path EmptyString) as [E|_];
      [contradiction|].
    eexists. split; [reflexivity|]. cbn. repeat split.
Qed.

(** X16: when pandas cannot read a 1D file, the load shows the load error,
    leaves no data frame, clears the plot and the preview and replaces the
    series controls by the single (0, 0). *)
Theorem load_1d_unreadable (file_path : string) (e : exn) (w : window) :
  let w' := load_1d file_path (Raise e) w in
  current_1d_df w' = None /\
  current_1d_file_path w' = Some file_path /\
  series_input_widgets w'
  = [{| x_input := "0"; y_input := "0"; twinx_checkbox := false |}] /\
  data_plotter_1d w' = Cleared /\
  data_1d_display w' = EmptyString /\
  message_boxes w'
  = message_boxes w ++
    [(Critical, "1D Data Load Error",
      "Failed to load 1D data from '" ++ basename file_path ++ "':"
      ++ newline ++ exn_text e)%string].
Proof.
  cbn -[String.append basename newline exn_text]. repeat split.
Qed.

(** X17: a file that parses to a data frame without a row or without a
    column is refused with one warning: the data frame loaded before is
    dropped and the plot and the preview are cleared, but the series controls
    stay as they were. *)
Theorem load_1d_empty_frame (file_path : string) (df : table) (w : window) :
  empty df = true ->
  let w' := load_1d file_path (Ok df) w in
  current_1d_df w' = None /\
  current_1d_file_path w' = Some file_path /\
  series_input_widgets w' = series_input_widgets w /\
  data_plotter_1d w' = Cleared /\
  data_1d_display w' = EmptyString /\
  message_boxes w'
  = message_boxes w ++
    [(Warning, "Empty 1D Data",
      "File '" ++ basename file_path ++
      "' is empty or contains no valid data.")%string].
Proof.
  intros He. unfold _load_and_plot_1d. rewrite He.
  cbn -[String.append basename]. repeat split.
Qed.

(** *** What a recomputation depends on *)

Lemma loop_body_view (df : table) (i : nat) (widget : series_input)
    (st1 st2 : loop_state) :
  series_to_plot st1 = series_to_plot st2 ->
  display_data_dict st1 = display_data_dict st2 ->
  series_to_plot (loop_body df i widget st1)
  = series_to_plot (loop_body df i widget st2) /\
  display_data_dict (loop_body df i widget st1)
  = display_data_dict (loop_body df i widget st2).
Proof.
  intros Hs Hd. unfold Series.loop_body.
  destruct (resolve df i widget) as [[sd xh yh xs ys|]|[msg|msg|msg]];
    cbn [series_to_plot display_data_dict warn]; rewrite ?Hs, ?Hd; auto.
Qed.

Lemma loop_view (df : table) (widgets : list series_input) :
  forall (i : nat) (st1 st2 : loop_state),
    series_to_plot st1 = series_to_plot st2 ->
    display_data_dict st1 = display_data_dict st2 ->
    series_to_plot (loop df i widgets st1) = series_to_plot (loop df i widgets st2) /\
    display_data_dict (loop df i widgets st1)
    = display_data_dict (loop df i widgets st2).
Proof.
  induction widgets as [|widget rest IH]; intros i st1 st2 Hs Hd.
  - auto.
  - cbn [Series.loop].
    destruct (loop_body_view df i widget st1 st2 Hs Hd) as (Hs' & Hd').
    apply IH; assumption.
Qed.

Lemma loop_body_shown (df : table) (i : nat) (widget : series_input) :
  exists news, forall st,
    shown (loop_body df i widget st) = shown st ++ news.
Proof.
  unfold Series.loop_body.
  destruct (resolve df i widget) as [[sd xh yh xs ys|]|[msg|msg|msg]].
  - exists []. intros st. cbn. rewrite app_nil_r. reflexivity.
  - eexists. intros st. reflexivity.
  - eexists. intros st. reflexivity.
  - eexists. intros st. reflexivity.
  - eexists. intros st. reflexivity.
Qed.

Lemma loop_shown (df : table) (widgets : list series_input) :
  forall (i : nat),
  exists news, forall st,
    shown (loop df i widgets st) = shown st ++ news.
Proof.
  induction widgets as [|widget rest IH]; intros i.
  - exists []. intros st. cbn. rewrite app_nil_r. reflexivity.
  - destruct (loop_body_shown df i widget) as (n1 & H1).
    destruct (IH (S i)) as (n2 & H2).
    exists (n1 ++ n2). intros st. cbn [Series.loop].
    rewrite H2, H1, app_assoc. reflexivity.
Qed.

Lemma update_1d_keeps_inputs (w : window) :
  plot_1d_title_input (update_1d w) = plot_1d_title_input w /\
  plot_1d_xaxis_input (update_1d w) = plot_1d_xaxis_input w /\
  plot_1d_yaxis1_input (update_1d w) = plot_1d_yaxis1_input w.
Proof.
  unfold update_1d_plot_from_column_selection.
  destruct (current_1d_df w) as [df|]; [|cbn; auto].
  destruct (series_to_plot _) as [|sd l].
  - cbn. auto.
  - destruct (display_data_dict _); cbn; auto.
Qed.

(** The plot and the preview of a recomputation are given by the data
    frame, the series controls and the three label fields. *)
Lemma update_1d_view (w1 w2 : window) :
  current_1d_df w1 = current_1d_df w2 ->
  series_input_widgets w1 = series_input_widgets w2 ->
  plot_1d_title_input w1 = plot_1d_title_input w2 ->
  plot_1d_xaxis_input w1 = plot_1d_xaxis_input w2 ->
  plot_1d_yaxis1_input w1 = plot_1d_yaxis1_input w2 ->
  data_plotter_1d (update_1d w1) = data_plotter_1d (update_1d w2) /\
  data_1d_display (update_1d w1) = data_1d_display (update_1d w2).
Proof.
  intros Hd Hw Ht Hx Hy.
  unfold update_1d_plot_from_column_selection. rewrite Hd, Hw.
  destruct (current_1d_df w2) as [df|]; [|cbn; auto].
  match goal with
  | |- context [loop df 0%nat ?ws ?sa] =>
      match goal with
      | |- context [loop df 0%nat ws ?sb] =>
          lazymatch sa with
          | sb => fail
          | _ => destruct (loop_view df ws 0%nat sa sb eq_refl eq_refl) as (Vs & Vd);
                 set (st1 := loop df 0%nat ws sa) in *;
                 set (st2 := loop df 0%nat ws sb) in *
          end
      end
  end.
  clearbody st1 st2. rewrite Vs, Vd.
  destruct (series_to_plot st2) as [|sd l].
  - cbn. auto.
  - destruct (display_data_dict st2); cbn; rewrite Ht, Hx, Hy; auto.
Qed.

(** The message boxes of a recomputation are given by the data frame and
    the series controls. *)
Lemma update_1d_news (w1 w2 : window) :
  current_1d_df w1 = current_1d_df w2 ->
  series_input_widgets w1 = series_input_widgets w2 ->
  exists news,
    message_boxes (update_1d w1) = message_boxes w1 ++ news /\
    message_boxes (update_1d w2) = message_boxes w2 ++ news.
Proof.
  intros Hd Hw.
  unfold update_1d_plot_from_column_selection. rewrite Hd, Hw.
  destruct (current_1d_df w2) as [df|];
    [|exists []; cbn; rewrite !app_nil_r; auto].
  destruct (loop_shown df (series_input_widgets w2) 0%nat) as (news & Sh).
  match goal with
  | |- context [loop df 0%nat ?ws ?sa] =>
      match goal with
      | |- context [loop df 0%nat ws ?sb] =>
          lazymatch sa with
          | sb => fail
          | _ => destruct (loop_view df ws 0%nat sa sb eq_refl eq_refl) as (Vs & Vd);
                 pose proof (Sh sa) as Sa; pose proof (Sh sb) as Sb;
                 set (st1 := loop df 0%nat ws sa) in *;
                 set (st2 := loop df 0%nat ws sb) in *
          end
      end
  end.
  cbn [shown] in Sa, Sb. clearbody st1 st2. rewrite Vs, Vd, Sa, Sb.
  destruct (series_to_plot st2) as [|sd l].
  - exists (news ++ [(Information, "No Plottable Series",
                      "No valid series configured or found to plot.")%string]).
    cbn. rewrite !app_assoc. auto.
  - exists news. destruct (display_data_dict st2); cbn; auto.
Qed.

(** X20: recomputing twice in a row draws the same plot and the same
    preview as recomputing once, and shows the same message boxes a second
    time; the data frame and the series controls are untouched. *)
Theorem update_1d_twice (w : window) :
  let w1 := update_1d w in
  let w2 := update_1d w1 in
  current_1d_df w2 = current_1d_df w /\
  series_input_widgets w2 = series_input_widgets w /\
  data_plotter_1d w2 = data_plotter_1d w1 /\
  data_1d_display w2 = data_1d_display w1 /\
  exists news,
    message_boxes w1 = message_boxes w ++ news /\
    message_boxes w2 = message_boxes w ++ news ++ news.
Proof.
  cbv zeta.
  destruct (update_1d_keeps cell to_numeric to_string w) as (D & S).
  destruct (update_1d_keeps cell to_numeric to_string (update_1d w)) as (D1 & S1).
  destruct (update_1d_keeps_inputs w) as (T & X & Y).
  destruct (update_1d_view (update_1d w) w D S T X Y) as (P & V).
  destruct (update_1d_news (update_1d w) w D S) as (news & N1 & N).
  split; [congruence|]. split; [congruence|].
  split; [exact P|]. split; [exact V|].
  exists news. split; [exact N|]. rewrite N1, N, app_assoc. reflexivity.
Qed.

(** *** Adding and removing a series *)

Lemma add_series_keeps_inputs (x : index_argument) (y : Z) (twinx : bool)
    (w : window) :
  plot_1d_title_input (add_series x y twinx w) = plot_1d_title_input w /\
  plot_1d_xaxis_input (add_series x y twinx w) = plot_1d_xaxis_input w /\
  plot_1d_yaxis1_input (add_series x y twinx w) = plot_1d_yaxis1_input w.
Proof.
  unfold add_plot_series_input. cbn [current_1d_df set_series_input_widgets].
  destruct (current_1d_df w).
  - match goal with
    | |- context [update_1d ?w1] =>
        destruct (update_1d_keeps_inputs w1) as (T & X & Y)
    end.
    rewrite T, X, Y. cbn. auto.
  - cbn. auto.
Qed.

(** X14: adding a series, with any arguments, and removing the last one
    right after gives back the series controls as they were, with the same
    data frame, and leaves the plot and the preview that a recomputation of
    the window before draws. *)
Theorem add_then_remove_last (x : index_argument) (y : Z) (twinx : bool)
    (w : window) :
  let w' := remove_last (add_series x y twinx w) in
  series_input_widgets w' = series_input_widgets w /\
  current_1d_df w' = current_1d_df w /\
  data_plotter_1d w' = data_plotter_1d (update_1d w) /\
  data_1d_display w' = data_1d_display (update_1d w).
Proof.
  cbv zeta.
  destruct (add_series_widgets cell to_numeric to_string x y twinx w) as (D & S).
  destruct (add_series_keeps_inputs x y twinx w) as (T & X & Y).
  set (wa := add_series x y twinx w) in *.
  unfold remove_last_plot_series_input. rewrite S.
  destruct (series_input_widgets w ++
            [{| x_input := str_argument x; y_input := str y;
                twinx_checkbox := twinx |}])
    as [|a l] eqn:E.
  - destruct (series_input_widgets w); discriminate.
  - rewrite <- E, removelast_last.
    set (wr := set_series_input_widgets cell (series_input_widgets w) wa).
    destruct (update_1d_keeps cell to_numeric to_string wr) as (D' & S').
    assert (Dr : current_1d_df wr = current_1d_df w) by (subst wr; cbn; exact D).
    destruct (update_1d_view wr w Dr eq_refl T X Y) as (P & V).
    split; [rewrite S'; reflexivity|]. split; [rewrite D'; exact Dr|].
    split; [exact P|exact V].
Qed.

(** X15: removing from an empty list of series only shows the "No Series to
    Remove" box, without recomputing; otherwise the last control, and only
    it, is removed and the data frame is kept. *)
Theorem remove_last_cases (w : window) :
  (series_input_widgets w = [] ->
   remove_last w
   = message_box cell Information "No Series to Remove"
       "There are no plot series to remove." w) /\
  (series_input_widgets w <> [] ->
   series_input_widgets (remove_last w) = removelast (series_input_widgets w) /\
   current_1d_df (remove_last w) = current_1d_df w).
Proof.
  unfold remove_last_plot_series_input. split.
  - intros ->. reflexivity.
  - intros H. destruct (series_input_widgets w) as [|a l] eqn:E;
      [contradiction|].
    match goal with
    | |- context [update_1d ?w1] =>
        destruct (update_1d_keeps cell to_numeric to_string w1) as (D & S)
    end.
    rewrite D, S. cbn. auto.
Qed.

(** *** The lines drawn *)

Lemma series_of_plottable (df : table) (widget : series_input) :
  survives df widget = true ->
  plottable (x_data (series_of df widget)) (y_data (series_of df widget)).
Proof.
  unfold Series.survives, Series.series_of.
  destruct (int (x_input widget)) as [x|]; [|discriminate].
  destruct (int (y_input widget)) as [y|]; [|discriminate].
  intros H. apply andb_true_iff in H. destruct H as [_ He].
  cbn [x_data y_data]. unfold plottable.
  split; [rewrite !length_map; reflexivity|].
  split.
  - intros E. apply map_filter_nil in E.
    unfold Series.both_numeric in E. rewrite E in He. discriminate.
  - split; apply Forall_map, Forall_forall; intros r Hr;
      apply filter_In in Hr; destruct Hr as [_ Hr];
      unfold Series.both_numeric in Hr;
      apply andb_true_iff in Hr; destruct Hr as [Hx Hy];
      apply negb_true_iff; assumption.
Qed.

Lemma plot_series_plottable (l : list series_data) :
  Forall (fun sd => plottable (x_data sd) (y_data sd)) l ->
  forall i, Forall (fun ln => plottable (line_x ln) (line_y ln)) (plot_series i l).
Proof.
  induction 1 as [|sd l H _ IH]; intros i; cbn [plot_series]; constructor.
  - exact H.
  - apply IH.
Qed.

Lemma length_plot_series (l : list series_data) :
  forall i, List.length (plot_series i l) = List.length l.
Proof.
  induction l as [|sd l IH]; intros i; cbn [plot_series List.length].
  - reflexivity.
  - rewrite IH. reflexivity.
Qed.

(** X18: whenever a recomputation leaves lines on the 1D canvas, there is
    one line per surviving series, and every line has as many x as y values,
    at least one point and no NaN. *)
Theorem drawn_lines_well_formed (w : window) (df : table)
    (drawn : list line) (title xlabel ylabel : string) :
  current_1d_df w = Some df ->
  data_plotter_1d (update_1d w) = Lines drawn title xlabel ylabel ->
  List.length drawn
  = List.length (filter (survives df) (series_input_widgets w)) /\
  drawn <> [] /\
  Forall (fun ln => plottable (line_x ln) (line_y ln)) drawn.
Proof.
  intros D P.
  destruct (update_1d_spec cell to_numeric to_string w df D) as (_ & Hk & He).
  cbv zeta in Hk, He.
  destruct (filter (survives df) (series_input_widgets w)) as [|a kept] eqn:K.
  - destruct (He eq_refl) as (C & _). rewrite C in P. discriminate.
  - rewrite Hk in P by discriminate.
    assert (Ed : plot_series 0 (map (series_of df) (a :: kept)) = drawn)
      by (unfold plot_line in P; congruence).
    rewrite <- Ed.
    split; [rewrite length_plot_series, length_map; reflexivity|].
    split; [cbn; discriminate|].
    apply plot_series_plottable, Forall_map, Forall_forall.
    intros widget Hw. apply series_of_plottable.
    assert (Hin : In widget (filter (survives df) (series_input_widgets w)))
      by (rewrite K; exact Hw).
    apply filter_In in Hin. apply Hin.
Qed.

(** *** The preview table *)

Lemma dict_mem_false {V : Type} (d : dict V) (k : string) (v : V) :
  dict_mem d k = false ->
  dict_set d k v = d ++ [(k, v)] /\ ~ In k (map fst d).
Proof.
  induction d as [|[k' v'] r IH]; cbn [dict_mem dict_set map fst app In].
  - intros _. split; [reflexivity|tauto].
  - intros H. apply orb_false_iff in H. destruct H as [Hk Hr].
    rewrite Hk. destruct (IH Hr) as (-> & Hn). split; [reflexivity|].
    intros [E|E]; [|tauto].
    subst k'. rewrite String.eqb_refl in Hk. discriminate.
Qed.

Lemma resolve_headers (df : table) (i : nat) (widget : series_input)
    (sd : series_data) (x_header y_header : string) (xs ys : list pyfloat) :
  resolve df i widget = Ok (Plottable sd x_header y_header xs ys) ->
  In x_header (column_names df) /\ In y_header (column_names df).
Proof.
  unfold Series.resolve, int_.
  destruct (int (x_input widget)) as [x|]; [|discriminate].
  destruct (int (y_input widget)) as [y|]; [|discriminate].
  destruct ((0 <=? x) && (x <? num_cols df)) eqn:Bx; cbn [negb]; [|discriminate].
  destruct ((0 <=? y) && (y <? num_cols df)) eqn:By; cbn [negb]; [|discriminate].
  cbv zeta. destruct (len _ =? 0); [discriminate|].
  apply andb_true_iff in Bx. destruct Bx as [Bx1 Bx2].
  apply andb_true_iff in By. destruct By as [By1 By2].
  unfold num_cols in Bx2, By2. rewrite Bx2, By2.
  intros E. injection E as _ <- <- _ _.
  unfold len in Bx2, By2. split; apply nth_In; lia.
Qed.

Lemma dict_add_ok (df : table) (d : dict (list pyfloat)) (k : string)
    (v : list pyfloat) :
  In k (column_names df) ->
  NoDup (map fst d) /\ Forall (fun k => In k (column_names df)) (map fst d) ->
  let d' := if dict_mem d k then d else dict_set d k v in
  (NoDup (map fst d') /\ Forall (fun k => In k (column_names df)) (map fst d')) /\
  (dict_mem d k = false -> d' <> []).
Proof.
  intros Hk (Hn & Hf). cbv zeta.
  destruct (dict_mem d k) eqn:M.
  - split; [split; assumption|discriminate].
  - destruct (dict_mem_false d k v M) as (-> & Hnot).
    rewrite map_app. cbn [map fst]. split; [split|].
    + apply NoDup_app.
      * exact Hn.
      * constructor; [intros []|constructor].
      * intros a Ha [<-|[]]. exact (Hnot Ha).
    + apply Forall_app. split; [exact Hf|]. constructor; [exact Hk|constructor].
    + intros _ E. destruct d; discriminate.
Qed.

Lemma loop_body_preview_ok (df : table) (i : nat) (widget : series_input)
    (st : loop_state) :
  preview_ok df st -> preview_ok df (loop_body df i widget st).
Proof.
  intros (Hn & Hf & He). unfold Series.loop_body.
  destruct (resolve df i widget) as [[sd xh yh xs ys|]|[msg|msg|msg]] eqn:R;
    try (split; [exact Hn|split; [exact Hf|exact He]]).
  destruct (resolve_headers df i widget sd xh yh xs ys R) as (Hx & Hy).
  destruct (dict_add_ok df (display_data_dict st) xh xs Hx (conj Hn Hf))
    as (I1 & N1).
  cbv zeta in I1, N1.
  set (d1 := if dict_mem (display_data_dict st) xh
             then display_data_dict st
             else dict_set (display_data_dict st) xh xs) in *.
  destruct (dict_add_ok df d1 yh ys Hy I1) as ((Hn2 & Hf2) & N2).
  cbv zeta in Hn2, Hf2, N2. cbv zeta.
  fold d1.
  set (d2 := if dict_mem d1 yh then d1 else dict_set d1 yh ys) in *.
  unfold preview_ok. cbn [display_data_dict series_to_plot].
  split; [exact Hn2|]. split; [exact Hf2|].
  intros _. destruct (dict_mem d1 yh) eqn:M.
  - subst d2. intros E. rewrite E in M. discriminate.
  - apply N2. reflexivity.
Qed.

Lemma loop_preview_ok (df : table) (widgets : list series_input) :
  forall (i : nat) (st : loop_state),
    preview_ok df st -> preview_ok df (loop df i widgets st).
Proof.
  induction widgets as [|widget rest IH]; intros i st H.
  - exact H.
  - cbn [Series.loop]. apply IH, loop_body_preview_ok, H.
Qed.

Lemma max_len_ge (d : dict (list pyfloat)) (kv : string * list pyfloat) :
  In kv d -> (List.length (snd kv) <= max_len d)%nat.
Proof.
  unfold max_len. induction d as [|a d IH]; cbn [In fold_right].
  - intros [].
  - intros [->|H]; [lia|]. specialize (IH H). lia.
Qed.

Lemma padded_data_rectangular (d : dict (list pyfloat)) :
  map fst (padded_data d) = map fst d /\
  Forall (fun kv => List.length (snd kv) = max_len d) (padded_data d) /\
  Forall2 (fun kv kv' =>
             snd kv' = snd kv ++ repeat NaN (max_len d - List.length (snd kv)))
          d (padded_data d).
Proof.
  unfold padded_data. split; [|split].
  - rewrite map_map. reflexivity.
  - apply Forall_map, Forall_forall. intros kv H. cbn [snd]. unfold pad.
    rewrite length_app, repeat_length.
    pose proof (max_len_ge d kv H). lia.
  - generalize (max_len d). intros m.
    induction d as [|a d IH]; cbn [map]; constructor; [reflexivity|exact IH].
Qed.

(** X19: when at least one series survives, the preview is the rendering of
    a table that is never empty: its headers are distinct column names of
    the data frame, in the order the series first use them, and every column
    has the length of the longest one, the shorter ones being filled up with
    NaN at the end. *)
Theorem preview_table_rectangular (w : window) (df : table) :
  current_1d_df w = Some df ->
  filter (survives df) (series_input_widgets w) <> [] ->
  exists d,
    data_1d_display (update_1d w) = to_string (padded_data d) /\
    d <> [] /\
    NoDup (map fst d) /\
    Forall (fun k => In k (column_names df)) (map fst d) /\
    map fst (padded_data d) = map fst d /\
    Forall (fun kv => List.length (snd kv) = max_len d) (padded_data d) /\
    Forall2 (fun kv kv' =>
               snd kv' = snd kv ++ repeat NaN (max_len d - List.length (snd kv)))
            d (padded_data d).
Proof.
  intros D K.
  unfold update_1d_plot_from_column_selection. rewrite D.
  set (st0 := {| series_to_plot := []; display_data_dict := [];
                 shown := message_boxes w |}).
  assert (I0 : preview_ok df st0).
  { split; [constructor|]. split; [constructor|]. intros H. contradiction. }
  pose proof (loop_preview_ok df (series_input_widgets w) 0%nat st0 I0)
    as (Hn & Hf & He).
  destruct (loop_spec cell to_numeric df (series_input_widgets w) 0%nat st0)
    as (Hs & _).
  cbn [series_to_plot app] in Hs.
  set (st := loop df 0%nat (series_input_widgets w) st0) in *.
  clearbody st.
  assert (Hne : series_to_plot st <> []).
  { rewrite Hs. intros E. apply map_eq_nil in E. contradiction. }
  specialize (He Hne).
  destruct (series_to_plot st) as [|sd l]; [contradiction|].
  destruct (display_data_dict st) as [|kv d] eqn:Ed; [contradiction|].
  exists (kv :: d).
  destruct (padded_data_rectangular (kv :: d)) as (P1 & P2 & P3).
  split; [reflexivity|]. split; [discriminate|].
  split; [exact Hn|]. split; [exact Hf|].
  split; [exact P1|]. split; [exact P2|exact P3].
Qed.

(** *** The warnings name the series by their place in the list *)

Lemma resolve_index_error (df : table) (i : nat) (widget : series_input)
    (msg : string) :
  resolve df i widget = Raise (IndexError msg) ->
  exists rest, msg = (series_name i ++ rest)%string.
Proof.
  unfold Series.resolve, int_.
  destruct (int (x_input widget)) as [x|]; [|discriminate].
  destruct (int (y_input widget)) as [y|]; [|discriminate].
  destruct ((0 <=? x) && (x <? num_cols df)); cbn [negb].
  - destruct ((0 <=? y) && (y <? num_cols df)); cbn [negb].
    + cbv zeta. destruct (len _ =? 0); discriminate.
    + intros E. injection E as <-. eexists. reflexivity.
  - intros E. injection E as <-. eexists. reflexivity.
Qed.

Lemma loop_names_series (df : table) (widgets : list series_input) :
  forall (i : nat) (st : loop_state),
  exists warnings,
    shown (loop df i widgets st) = shown st ++ warnings /\
    Forall2 names_series (skipped_positions cell to_numeric df i widgets) warnings.
Proof.
  induction widgets as [|widget rest IH]; intros i st.
  - exists []. cbn. rewrite app_nil_r. split; [reflexivity|constructor].
  - cbn [Series.loop Series.skipped_positions].
    destruct (IH (S i) (loop_body df i widget st)) as (ws & Hs & Hf).
    destruct (survives df widget) eqn:S.
    + destruct (resolve_survives cell to_numeric df i widget S) as (xh & yh & R).
      exists ws. rewrite Hs. unfold Series.loop_body at 1. rewrite R.
      cbn [shown]. split; [reflexivity|exact Hf].
    + destruct (resolve_skipped cell to_numeric df i widget S)
        as [R|[(msg & R)|(msg & R)]].
      * eexists (_ :: ws). rewrite Hs. unfold Series.loop_body at 1. rewrite R.
        cbn [shown warn]. rewrite <- app_assoc. split; [reflexivity|].
        constructor; [|exact Hf]. split; [reflexivity|].
        eexists. reflexivity.
      * eexists (_ :: ws). rewrite Hs. unfold Series.loop_body at 1. rewrite R.
        cbn [shown warn]. rewrite <- app_assoc. split; [reflexivity|].
        constructor; [|exact Hf]. split; [reflexivity|].
        eexists. reflexivity.
      * destruct (resolve_index_error df i widget msg R) as (rest' & ->).
        eexists (_ :: ws). rewrite Hs. unfold Series.loop_body at 1. rewrite R.
        cbn [shown warn]. rewrite <- app_assoc. split; [reflexivity|].
        constructor; [|exact Hf]. split; [reflexivity|].
        eexists. reflexivity.
Qed.

(** X21: the warnings of a recomputation come one per skipped series, in
    the order of the list, and the text of each starts with "Series n",
    n being the place of the skipped series in the list of controls counted
    from 1, whether or not the series before it were skipped; at most the
    "No Plottable Series" box follows them. *)
Theorem warnings_name_list_position (w : window) (df : table) :
  current_1d_df w = Some df ->
  exists warnings tail,
    message_boxes (update_1d w) = message_boxes w ++ warnings ++ tail /\
    Forall2 names_series
      (skipped_positions cell to_numeric df 0 (series_input_widgets w)) warnings /\
    (tail = [] \/
     tail = [(Information, "No Plottable Series",
              "No valid series configured or found to plot.")%string]).
Proof.
  intros D.
  unfold update_1d_plot_from_column_selection. rewrite D.
  set (st0 := {| series_to_plot := []; display_data_dict := [];
                 shown := message_boxes w |}).
  destruct (loop_names_series df (series_input_widgets w) 0%nat st0)
    as (ws & Hs & Hf).
  cbn [shown] in Hs.
  set (st := loop df 0%nat (series_input_widgets w) st0) in *.
  clearbody st.
  exists ws.
  destruct (series_to_plot st) as [|sd l].
  - eexists. split; [|split; [exact Hf|right; reflexivity]].
    cbn. rewrite Hs, <- app_assoc. reflexivity.
  - exists []. split; [|split; [exact Hf|left; reflexivity]].
    rewrite app_nil_r. destruct (display_data_dict st); cbn; exact Hs.
Qed.

(** *** The Add Series button *)

Lemma loop_app (df : table) (ws1 ws2 : list series_input) :
  forall (i : nat) (st : loop_state),
    loop df i (ws1 ++ ws2) st
    = loop df (i + List.length ws1) ws2 (loop df i ws1 st).
Proof.
  induction ws1 as [|a ws1 IH]; intros i st.
  - cbn [app Series.loop List.length]. rewrite Nat.add_0_r. reflexivity.
  - change (loop df i ((a :: ws1) ++ ws2) st)
      with (loop df (S i) (ws1 ++ ws2) (loop_body df i a st)).
    rewrite IH. cbn [Series.loop List.length].
    rewrite Nat.add_succ_r. reflexivity.
Qed.

(** X30: the Add Series button does not add a usable series. Its [clicked]
    signal hands its [checked] flag to [add_plot_series_input], so the new
    control shows "False" (or "True") as X index and the default 2 as Y
    index; it is no integer, so with a data frame loaded the recomputation
    skips the new series with the "Invalid Column Index" warning that names
    its place, and the plot and the preview are those of the series that
    were there before. *)
Theorem add_series_button_control_is_skipped (checked : bool) (w : window)
    (df : table) :
  current_1d_df w = Some df ->
  let control := {| x_input := if checked then "True" else "False";
                    y_input := "2";
                    twinx_checkbox := false |} in
  let w' := add_series_clicked cell to_numeric to_string checked w in
  series_input_widgets w' = series_input_widgets w ++ [control] /\
  int (x_input control) = None /\
  survives df control = false /\
  data_plotter_1d w' = data_plotter_1d (update_1d w) /\
  data_1d_display w' = data_1d_display (update_1d w) /\
  exists warnings tail,
    message_boxes (update_1d w) = message_boxes w ++ warnings ++ tail /\
    message_boxes w'
    = message_boxes w ++ warnings ++
      [(Warning, "Invalid Column Index",
        series_name (List.length (series_input_widgets w)) ++
        ": Please enter valid integer numbers for column indices.")%string]
      ++ tail /\
    (tail = [] \/
     tail = [(Information, "No Plottable Series",
              "No valid series configured or found to plot.")%string]).
Proof.
  intros Hd control w'.
  assert (Hi : int (x_input control) = None)
    by (subst control; destruct checked; reflexivity).
  assert (Ec : {| x_input := str_argument (bool_argument checked);
                  y_input := str 2;
                  twinx_checkbox := false |} = control)
    by (subst control; destruct checked; reflexivity).
  destruct (add_series_widgets cell to_numeric to_string
              (bool_argument checked) 2 false w) as (_ & S).
  rewrite Ec in S.
  split; [exact S|]. split; [exact Hi|].
  split; [unfold Series.survives; rewrite Hi; reflexivity|].
  subst w'. unfold add_series_clicked, add_plot_series_input.
  cbn [current_1d_df set_series_input_widgets]. rewrite Hd, Ec.
  unfold update_1d_plot_from_column_selection.
  cbn [current_1d_df set_series_input_widgets series_input_widgets
       message_boxes plot_1d_title_input plot_1d_xaxis_input
       plot_1d_yaxis1_input current_1d_file_path data_plotter_1d
       data_1d_display].
  rewrite Hd.
  set (st0 := {| series_to_plot := []; display_data_dict := [];
                 shown := message_boxes w |}).
  rewrite (loop_app df (series_input_widgets w) [control] 0%nat st0).
  destruct (loop_shown df (series_input_widgets w) 0%nat) as (news & Sh).
  specialize (Sh st0). cbn [shown] in Sh.
  set (st := loop df 0%nat (series_input_widgets w) st0) in *.
  clearbody st.
  cbn [Series.loop Nat.add]. unfold Series.loop_body, Series.resolve, int_.
  rewrite Hi. cbn [warn series_to_plot display_data_dict shown].
  destruct (series_to_plot st) as [|sd l].
  - cbn. split; [reflexivity|]. split; [reflexivity|].
    exists news. eexists. split; [rewrite Sh, <- !app_assoc; reflexivity|].
    split; [rewrite Sh, <- !app_assoc; reflexivity|]. right. reflexivity.
  - destruct (display_data_dict st); cbn;
      (split; [reflexivity|]; split; [reflexivity|];
       exists news, []; rewrite !app_nil_r;
       split; [exact Sh|]; split; [rewrite Sh, <- app_assoc; reflexivity|];
       left; reflexivity).
Qed.

End WithTable.

(** *** Instances *)

Lemma select_root_folder_1d_defaults_witness :
  select_root_folder_1d pyfloat (fun c => c) plain_table EmptyString shifted_window
  = Ok shifted_window /\
  exists w',
    select_root_folder_1d pyfloat (fun c => c) plain_table "/data" shifted_window
    = Ok w' /\
    current_1d_df w' = None /\
    series_input_widgets w'
    = [{| x_input := "0"; y_input := "1"; twinx_checkbox := false |};
       {| x_input := "0"; y_input := "3"; twinx_checkbox := true |}] /\
    data_plotter_1d w' = Cleared /\
    data_1d_display w' = EmptyString /\
    message_boxes w' = message_boxes shifted_window.
Proof.
  split.
  - apply (select_root_folder_1d_defaults pyfloat (fun c => c) plain_table
             EmptyString shifted_window).
    reflexivity.
  - apply (select_root_folder_1d_defaults pyfloat (fun c => c) plain_table
             "/data"%string shifted_window).
    discriminate.
Defined.

Lemma load_1d_empty_frame_witness :
  let header_only := {| column_names := ["t"; "v"]%string;
                        n_rows := 0;
                        cell_at := fun _ _ => NaN |} in
  let w' := _load_and_plot_1d pyfloat (fun c => c) plain_table "runs/empty.csv"
              (Ok header_only) shifted_window in
  current_1d_df w' = None /\
  current_1d_file_path w' = Some "runs/empty.csv"%string /\
  series_input_widgets w' = series_input_widgets shifted_window /\
  data_plotter_1d w' = Cleared /\
  data_1d_display w' = EmptyString /\
  message_boxes w'
  = message_boxes shifted_window ++
    [(Warning, "Empty 1D Data",
      "File '" ++ basename "runs/empty.csv" ++
      "' is empty or contains no valid data.")%string].
Proof.
  intros header_only.
  apply (load_1d_empty_frame pyfloat (fun c => c) plain_table
           "runs/empty.csv"%string header_only shifted_window).
  reflexivity.
Defined.

Lemma remove_last_cases_witness :
  remove_last_plot_series_input pyfloat (fun c => c) plain_table
    (set_series_input_widgets pyfloat [] shifted_window)
  = message_box pyfloat Information "No Series to Remove"
      "There are no plot series to remove."
      (set_series_input_widgets pyfloat [] shifted_window) /\
  series_input_widgets
    (remove_last_plot_series_input pyfloat (fun c => c) plain_table shifted_window)
  = removelast (series_input_widgets shifted_window).
Proof.
  split.
  - apply (remove_last_cases pyfloat (fun c => c) plain_table
             (set_series_input_widgets pyfloat [] shifted_window)).
    reflexivity.
  - apply (remove_last_cases pyfloat (fun c => c) plain_table shifted_window).
    discriminate.
Defined.

Lemma drawn_lines_well_formed_witness :
  let drawn :=
    [{| line_x := [Finite (0 # 1); Finite (10 # 1)];
        line_y := [Finite (1 # 1); Finite (11 # 1)];
        line_color := "b";
        line_label := "(t vs v)";
        line_axes := PrimaryAxes |}]%string in
  List.length drawn = 1%nat /\
  drawn <> [] /\
  Forall (fun ln => plottable (line_x ln) (line_y ln)) drawn.
Proof.
  intros drawn.
  apply (drawn_lines_well_formed pyfloat (fun c => c) plain_table shifted_window
           (number_table ["t"; "v"]%string) drawn
           "1D Line Plot" "X-axis" "Y-axis").
  - reflexivity.
  - vm_compute. reflexivity.
Defined.

Lemma preview_table_rectangular_witness :
  exists d,
    data_1d_display
      (update_1d_plot_from_column_selection pyfloat (fun c => c) plain_table
         shifted_window)
    = plain_table (padded_data d) /\
    d <> [] /\
    NoDup (map fst d) /\
    Forall (fun k => In k ["t"; "v"]%string) (map fst d) /\
    map fst (padded_data d) = map fst d /\
    Forall (fun kv => List.length (snd kv) = max_len d) (padded_data d) /\
    Forall2 (fun kv kv' =>
               snd kv' = snd kv ++ repeat NaN (max_len d - List.length (snd kv)))
            d (padded_data d).
Proof.
  apply (preview_table_rectangular pyfloat (fun c => c) plain_table
           shifted_window (number_table ["t"; "v"]%string)).
  - reflexivity.
  - vm_compute. discriminate.
Defined.

Lemma warnings_name_list_position_witness :
  exists warnings tail,
    message_boxes
      (update_1d_plot_from_column_selection pyfloat (fun c => c) plain_table
         shifted_window)
    = message_boxes shifted_window ++ warnings ++ tail /\
    Forall2 names_series
      (skipped_positions pyfloat (fun c => c) (number_table ["t"; "v"]%string) 0
         (series_input_widgets shifted_window)) warnings /\
    (tail = [] \/
     tail = [(Information, "No Plottable Series",
              "No valid series configured or found to plot.")%string]).
Proof.
  apply (warnings_name_list_position pyfloat (fun c => c) plain_table
           shifted_window (number_table ["t"; "v"]%string)).
  reflexivity.
Defined.

Lemma add_series_button_control_is_skipped_witness :
  let w := _load_and_plot_1d pyfloat (fun c => c) plain_table "run.csv"
             (Ok (number_table ["t"; "v"; "u"]%string)) initial in
  let w' := add_series_clicked pyfloat (fun c => c) plain_table false w in
  series_input_widgets w'
  = [{| x_input := "0"; y_input := "1"; twinx_checkbox := false |};
     {| x_input := "False"; y_input := "2"; twinx_checkbox := false |}] /\
  data_plotter_1d w' = data_plotter_1d w /\
  last (message_boxes w') (Information, EmptyString, EmptyString)
  = (Warning, "Invalid Column Index",
     "Series 2: Please enter valid integer numbers for column indices.")%string.
Proof.
  intros w w'.
  destruct (add_series_button_control_is_skipped pyfloat (fun c => c)
              plain_table false w (number_table ["t"; "v"; "u"]%string) eq_refl)
    as (S & _ & _ & P & _).
  split; [exact S|].
  split; [etransitivity; [exact P|vm_compute; reflexivity]|].
  vm_compute. reflexivity.
Defined.

End SeriesEdits.

(** ** The 1D tab of the first version *)

Module LegacyFacts.
Import Py Qt Legacy.

Section WithTable.

Variable cell : Type.
Variable to_numeric : cell -> pyfloat.
Variable to_string : dict (list pyfloat) -> string.

Local Abbreviation table := (Series.table cell).
Local Abbreviation load_1d := (Legacy._load_and_plot_1d cell to_numeric to_string).
Local Abbreviation numeric_column := (Series.numeric_column cell to_numeric).
Local Abbreviation two_numeric := (Legacy.two_numeric cell to_numeric).
Local Abbreviation three_numeric := (Legacy.three_numeric cell to_numeric).

Lemma select_two_rows {A : Type} (k : nat -> A) (f g : nat -> pyfloat)
    (rows : list nat) :
  Series.select (map k rows) (Series.valid_mask (map f rows) (map g rows))
  = map k (filter (fun r => negb (isnan (f r)) && negb (isnan (g r))) rows).
Proof.
  induction rows as [|r rows IH]; cbn; [reflexivity|].
  destruct (isnan (f r)), (isnan (g r)); cbn; rewrite IH; reflexivity.
Qed.

Lemma select_three_rows {A : Type} (k : nat -> A) (f g h : nat -> pyfloat)
    (rows : list nat) :
  Series.select (map k rows)
    (and_not_nan (Series.valid_mask (map f rows) (map g rows)) (map h rows))
  = map k (filter (fun r => negb (isnan (f r)) && negb (isnan (g r)) &&
                            negb (isnan (h r))) rows).
Proof.
  induction rows as [|r rows IH]; cbn; [reflexivity|].
  destruct (isnan (f r)), (isnan (g r)), (isnan (h r)); cbn; rewrite IH;
    reflexivity.
Qed.

Lemma len_positive {A B : Type} (k : A -> B) (p : A -> bool) (l : list A) :
  existsb p l = true -> (0 <? len (map k (filter p l))) = true.
Proof.
  intros H. apply Z.ltb_lt. unfold len.
  destruct (map k (filter p l)) eqn:E.
  - apply SeriesFacts.map_filter_nil in E. congruence.
  - cbn [List.length]. lia.
Qed.

Lemma len_not_positive {A B : Type} (k : A -> B) (p : A -> bool) (l : list A) :
  existsb p l = false -> (0 <? len (map k (filter p l))) = false.
Proof.
  intros H. apply SeriesFacts.map_filter_nil with (f := k) in H. rewrite H.
  reflexivity.
Qed.

(** X22: the first version cannot show a file of exactly three columns:
    with three columns or more it reads the second y array from the column
    at index 3, which such a file does not have; the load ends in the load
    error box, with nothing plotted, nothing kept and the Y2 field disabled. *)
Theorem legacy_three_columns_fail (file_path : string) (read : read_1d cell)
    (df : table) (w : window) :
  frame_of cell read = Some df ->
  Series.num_cols df = 3 ->
  let w' := load_1d file_path read w in
  data_plotter_1d w' = Cleared /\
  data_1d_display w' = EmptyString /\
  data_1d_loaded_x w' = None /\
  data_1d_loaded_y1 w' = None /\
  data_1d_loaded_y2 w' = None /\
  plot_1d_yaxis2_enabled w' = false /\
  exists before,
    message_boxes w'
    = message_boxes w ++ before ++
      [(Critical, "1D Data Load Error",
        "Failed to load 1D data from '" ++ basename file_path ++ "':" ++ newline
        ++ "single positional indexer is out-of-bounds")%string] /\
    (List.length before <= 1)%nat.
Proof.
  intros F N. unfold _load_and_plot_1d, assign_and_show.
  destruct read as [df'|reason df'|r1 r2]; cbn [frame_of] in F;
    [injection F as ->|injection F as ->|discriminate];
    rewrite N; cbn -[String.append basename newline];
    repeat (split; [reflexivity|]).
  - exists []. split; [reflexivity|cbn; lia].
  - eexists [_]. rewrite <- app_assoc. split; [reflexivity|cbn; lia].
Qed.

(** X23: a file of fewer than two columns is refused with the load error
    box that asks for at least two columns; nothing is plotted or kept. *)
Theorem legacy_needs_two_columns (file_path : string) (read : read_1d cell)
    (df : table) (w : window) :
  frame_of cell read = Some df ->
  Series.num_cols df < 2 ->
  let w' := load_1d file_path read w in
  data_plotter_1d w' = Cleared /\
  data_1d_display w' = EmptyString /\
  data_1d_loaded_x w' = None /\
  data_1d_loaded_y1 w' = None /\
  data_1d_loaded_y2 w' = None /\
  plot_1d_yaxis2_enabled w' = false /\
  exists before,
    message_boxes w'
    = message_boxes w ++ before ++
      [(Critical, "1D Data Load Error",
        "Failed to load 1D data from '" ++ basename file_path ++ "':" ++ newline
        ++ "Not enough columns found in 1D data. Expected at least two for X and Y.")%string] /\
    (List.length before <= 1)%nat.
Proof.
  intros F N. unfold _load_and_plot_1d, assign_and_show.
  assert (C3 : (3 <=? Series.num_cols df) = false) by (apply Z.leb_gt; lia).
  assert (C2 : (2 <=? Series.num_cols df) = false) by (apply Z.leb_gt; lia).
  destruct read as [df'|reason df'|r1 r2]; cbn [frame_of] in F;
    [injection F as ->|injection F as ->|discriminate];
    rewrite C3, C2; cbn -[String.append basename newline];
    repeat (split; [reflexivity|]).
  - exists []. split; [reflexivity|cbn; lia].
  - eexists [_]. rewrite <- app_assoc. split; [reflexivity|cbn; lia].
Qed.

(** X24: on a file read with its header that has four columns or more, the
    first version plots the columns 0 and 1 on the axes and the column 3 on
    the twin axes, at the rows where all three are numeric; the preview shows
    the values of the column 3 under the name of the column 2. *)
Theorem legacy_second_axis_header (file_path : string) (df : table) (w : window) :
  4 <= Series.num_cols df ->
  existsb (three_numeric df) (seq 0 (Series.n_rows df)) = true ->
  let rows := filter (three_numeric df) (seq 0 (Series.n_rows df)) in
  let col := fun j => map (fun r => to_numeric (Series.cell_at df r j)) rows in
  let name := fun j => nth j (Series.column_names df) EmptyString in
  let w' := load_1d file_path (WithHeader cell df) w in
  data_plotter_1d w'
  = Line (col 0%nat) (col 1%nat) (basename file_path) (plot_1d_xaxis_input w)
      (plot_1d_yaxis1_input w) (Some (col 3%nat, Some (plot_1d_yaxis2_input w))) /\
  data_1d_display w'
  = to_string (dict_set (dict_set (dict_set [] (name 0%nat) (col 0%nat))
                           (name 1%nat) (col 1%nat))
                 (name 2%nat) (col 3%nat)) /\
  plot_1d_yaxis2_enabled w' = true /\
  message_boxes w' = message_boxes w.
Proof.
  intros N E rows col name.
  unfold _load_and_plot_1d, assign_and_show.
  assert (C3 : (3 <=? Series.num_cols df) = true) by (apply Z.leb_le; lia).
  assert (C4 : (3 <? Series.num_cols df) = true) by (apply Z.ltb_lt; lia).
  rewrite C3, C4. unfold show_loaded, Series.numeric_column.
  change (Z.to_nat 0) with 0%nat. change (Z.to_nat 1) with 1%nat.
  change (Z.to_nat 3) with 3%nat.
  rewrite !select_three_rows.
  change (fun r : nat =>
            negb (isnan (to_numeric (Series.cell_at df r 0))) &&
            negb (isnan (to_numeric (Series.cell_at df r 1))) &&
            negb (isnan (to_numeric (Series.cell_at df r 3))))
    with (three_numeric df).
  rewrite (len_positive _ _ _ E).
  unfold Series.num_cols in N.
  assert (L1 : (1 <=? len (Series.column_names df)) = true) by (apply Z.leb_le; lia).
  assert (L2 : (2 <=? len (Series.column_names df)) = true) by (apply Z.leb_le; lia).
  assert (L3 : (3 <=? len (Series.column_names df)) = true) by (apply Z.leb_le; lia).
  rewrite L1, L2, L3.
  cbn -[dict_set basename filter]. repeat split.
Qed.

(** X25: a file of two columns that is read only without a header is
    plotted as one line, without twin axes, after the header warning; the
    preview names its columns "Column 1" and "Column 2", and the Y2 field
    is disabled. *)
Theorem legacy_two_columns_no_header (file_path reason : string) (df : table)
    (w : window) :
  Series.num_cols df = 2 ->
  existsb (two_numeric df) (seq 0 (Series.n_rows df)) = true ->
  let rows := filter (two_numeric df) (seq 0 (Series.n_rows df)) in
  let col := fun j => map (fun r => to_numeric (Series.cell_at df r j)) rows in
  let w' := load_1d file_path (WithoutHeader cell reason df) w in
  data_plotter_1d w'
  = Line (col 0%nat) (col 1%nat) (basename file_path) (plot_1d_xaxis_input w)
      (plot_1d_yaxis1_input w) None /\
  data_1d_display w'
  = to_string (dict_set (dict_set [] "Column 1" (col 0%nat))
                 "Column 2" (col 1%nat)) /\
  data_1d_loaded_y2 w' = None /\
  plot_1d_yaxis2_enabled w' = false /\
  message_boxes w'
  = message_boxes w ++
    [(Warning, "1D Data Header Warning",
      "Could not read '" ++ basename file_path ++
      "' with header. Attempting without header. Reason: " ++ reason)%string].
Proof.
  intros N E rows col.
  unfold _load_and_plot_1d, assign_and_show, default_header_names.
  rewrite N. cbn [Z.leb Z.ltb Z.compare Pos.compare Pos.compare_cont].
  unfold Series.num_cols, len in N.
  destruct (Series.column_names df) as [|a [|b [|c names]]]; cbn in N; try lia.
  cbn [List.length seq map].
  change (str (Z.of_nat 0 + 1)) with "1"%string.
  change (str (Z.of_nat 1 + 1)) with "2"%string.
  unfold show_loaded, Series.numeric_column.
  change (Z.to_nat 0) with 0%nat. change (Z.to_nat 1) with 1%nat.
  rewrite !select_two_rows.
  change (fun r : nat =>
            negb (isnan (to_numeric (Series.cell_at df r 0))) &&
            negb (isnan (to_numeric (Series.cell_at df r 1))))
    with (two_numeric df).
  rewrite (len_positive _ _ _ E).
  cbn -[dict_set basename filter String.append]. repeat split.
Qed.

(** X26: after a load that found two columns, or four or more, editing the
    title redraws the plot from the columns as they were read, with one
    point per row of the file: the rows that the load had left out because
    a value was not numeric are drawn again. *)
Theorem legacy_title_edit_draws_all_rows (file_path title_text : string)
    (read : read_1d cell) (df : table) (w : window) :
  frame_of cell read = Some df ->
  Series.num_cols df = 2 \/ 4 <= Series.num_cols df ->
  let w' := set_1d_plot_title title_text (load_1d file_path read w) in
  exists twin,
    data_plotter_1d w'
    = Line (numeric_column df 0) (numeric_column df 1) title_text
        (plot_1d_xaxis_input w) (plot_1d_yaxis1_input w) twin /\
    List.length (numeric_column df 0) = Series.n_rows df /\
    List.length (numeric_column df 1) = Series.n_rows df /\
    (twin = None <-> Series.num_cols df = 2).
Proof.
  intros F N.
  assert (L : forall j, List.length (numeric_column df j) = Series.n_rows df).
  { intros j. unfold Series.numeric_column. rewrite length_map, length_seq.
    reflexivity. }
  unfold _load_and_plot_1d, assign_and_show, show_loaded.
  destruct N as [N|N].
  - exists None.
    destruct read as [df'|reason df'|r1 r2]; cbn [frame_of] in F;
      [injection F as ->|injection F as ->|discriminate];
      rewrite N; cbn [Z.leb Z.ltb Z.compare Pos.compare Pos.compare_cont];
      (split; [|split; [apply L|split; [apply L|tauto]]]);
      match goal with
      | |- context [0 <? ?n] => destruct (0 <? n)
      end; reflexivity.
  - assert (C3 : (3 <=? Series.num_cols df) = true) by (apply Z.leb_le; lia).
    assert (C4 : (3 <? Series.num_cols df) = true) by (apply Z.ltb_lt; lia).
    exists (Some (numeric_column df 3, Some (plot_1d_yaxis2_input w))).
    destruct read as [df'|reason df'|r1 r2]; cbn [frame_of] in F;
      [injection F as ->|injection F as ->|discriminate];
      rewrite C3, C4;
      (split; [|split; [apply L|split; [apply L|split; [discriminate|lia]]]]);
      match goal with
      | |- context [0 <? ?n] => destruct (0 <? n)
      end; reflexivity.
Qed.

(** X27: on a file of four columns or more, read with or without its
    header, the first version draws exactly the rows where the columns 0, 1
    and 3 are all numeric: the values of the column 0 against those of the
    column 1 on the axes and against those of the column 3 on the twin axes,
    so that a value that is not numeric in the column 3 costs the first line
    its point too. When there is no such row it clears the canvas and the
    preview and shows the "No Plottable Data" warning. *)
Theorem legacy_rows_need_all_three (file_path : string) (read : read_1d cell)
    (df : table) (w : window) :
  frame_of cell read = Some df ->
  4 <= Series.num_cols df ->
  let rows := filter (three_numeric df) (seq 0 (Series.n_rows df)) in
  let col := fun j => map (fun r => to_numeric (Series.cell_at df r j)) rows in
  let w' := load_1d file_path read w in
  (rows <> [] ->
   data_plotter_1d w'
   = Line (col 0%nat) (col 1%nat) (basename file_path) (plot_1d_xaxis_input w)
       (plot_1d_yaxis1_input w)
       (Some (col 3%nat, Some (plot_1d_yaxis2_input w)))) /\
  (rows = [] ->
   data_plotter_1d w' = Cleared /\
   data_1d_display w' = EmptyString /\
   exists before,
     message_boxes w'
     = message_boxes w ++ before ++
       [(Warning, "No Plottable Data",
         "No valid numeric data points found in '" ++ basename file_path ++
         "' to plot.")%string] /\
     (List.length before <= 1)%nat).
Proof.
  intros F N rows col.
  assert (C3 : (3 <=? Series.num_cols df) = true) by (apply Z.leb_le; lia).
  assert (C4 : (3 <? Series.num_cols df) = true) by (apply Z.ltb_lt; lia).
  assert (R : forall hn w0,
             fst (assign_and_show cell to_numeric to_string file_path df hn w0)
             = Done /\
             let w1 := snd (assign_and_show cell to_numeric to_string file_path
                              df hn w0) in
             (rows <> [] ->
              data_plotter_1d w1
              = Line (col 0%nat) (col 1%nat) (basename file_path)
                  (plot_1d_xaxis_input w0) (plot_1d_yaxis1_input w0)
                  (Some (col 3%nat, Some (plot_1d_yaxis2_input w0)))) /\
             (rows = [] ->
              data_plotter_1d w1 = Cleared /\
              data_1d_display w1 = EmptyString /\
              message_boxes w1
              = message_boxes w0 ++
                [(Warning, "No Plottable Data",
                  "No valid numeric data points found in '" ++
                  basename file_path ++ "' to plot.")%string])).
  { intros hn w0. unfold assign_and_show. rewrite C3, C4.
    split; [reflexivity|].
    unfold show_loaded, Series.numeric_column.
    change (Z.to_nat 0) with 0%nat. change (Z.to_nat 1) with 1%nat.
    change (Z.to_nat 3) with 3%nat.
    rewrite !select_three_rows.
    change (fun r : nat =>
              negb (isnan (to_numeric (Series.cell_at df r 0))) &&
              negb (isnan (to_numeric (Series.cell_at df r 1))) &&
              negb (isnan (to_numeric (Series.cell_at df r 3))))
      with (three_numeric df).
    fold rows.
    destruct (existsb (three_numeric df) (seq 0 (Series.n_rows df))) eqn:E.
    - unfold rows. rewrite (len_positive _ _ _ E). fold rows.
      cbn -[dict_set basename rows col].
      split; [intros _; reflexivity|].
      intros Z. unfold rows in Z.
      apply (f_equal (map (fun r : nat => r))) in Z.
      apply SeriesFacts.map_filter_nil in Z. congruence.
    - unfold rows. rewrite (len_not_positive _ _ _ E). fold rows.
      cbn -[basename rows col String.append].
      pose proof (proj2 (SeriesFacts.map_filter_nil (fun r : nat => r)
                           (three_numeric df) (seq 0 (Series.n_rows df))) E) as Z.
      rewrite map_id in Z. fold rows in Z.
      split; [intros NE; contradiction|].
      intros _. repeat split. }
  unfold _load_and_plot_1d.
  destruct read as [df'|reason df'|r1 r2]; cbn [frame_of] in F;
    [injection F as ->|injection F as ->|discriminate].
  - match goal with
    | |- context [assign_and_show _ _ _ ?f ?d ?hn ?w0] =>
        destruct (R hn w0) as (O & P1 & P2);
        destruct (assign_and_show cell to_numeric to_string f d hn w0) as [o w1]
    end.
    cbn [fst snd] in O, P1, P2. rewrite O. split.
    + intros NE. rewrite (P1 NE). reflexivity.
    + intros Z. destruct (P2 Z) as (A & B & C). split; [exact A|].
      split; [exact B|]. exists []. rewrite C. split; [reflexivity|cbn; lia].
  - match goal with
    | |- context [assign_and_show _ _ _ ?f ?d ?hn ?w0] =>
        destruct (R hn w0) as (O & P1 & P2);
        destruct (assign_and_show cell to_numeric to_string f d hn w0) as [o w1]
    end.
    cbn [fst snd] in O, P1, P2. rewrite O. split.
    + intros NE. rewrite (P1 NE). reflexivity.
    + intros Z. destruct (P2 Z) as (A & B & C). split; [exact A|].
      split; [exact B|]. eexists [_]. rewrite C.
      split; [cbn -[String.append basename]; rewrite <- app_assoc; reflexivity
             |cbn; lia].
Qed.

End WithTable.

(** *** Instances *)

Lemma legacy_three_columns_fail_witness :
  let w' := Legacy._load_and_plot_1d pyfloat (fun c => c) Series.plain_table
              "runs/three.csv"
              (WithHeader pyfloat (Series.number_table ["t"; "a"; "b"]%string))
              Legacy.initial in
  data_plotter_1d w' = Cleared /\
  data_1d_loaded_x w' = None /\
  message_boxes w'
  = [(Critical, "1D Data Load Error",
      "Failed to load 1D data from '" ++ basename "runs/three.csv" ++ "':"
      ++ newline ++ "single positional indexer is out-of-bounds")%string].
Proof.
  intros w'.
  destruct (legacy_three_columns_fail pyfloat (fun c => c) Series.plain_table
              "runs/three.csv"%string
              (WithHeader pyfloat (Series.number_table ["t"; "a"; "b"]%string))
              (Series.number_table ["t"; "a"; "b"]%string) Legacy.initial
              eq_refl eq_refl) as (P & _ & X & _).
  split; [exact P|]. split; [exact X|]. vm_compute. reflexivity.
Defined.

Lemma legacy_needs_two_columns_witness :
  let w' := Legacy._load_and_plot_1d pyfloat (fun c => c) Series.plain_table
              "runs/one.csv"
              (WithoutHeader pyfloat "no header"
                 (Series.number_table ["t"]%string))
              Legacy.initial in
  data_plotter_1d w' = Cleared /\
  data_1d_display w' = EmptyString /\
  data_1d_loaded_x w' = None /\
  data_1d_loaded_y1 w' = None /\
  data_1d_loaded_y2 w' = None /\
  plot_1d_yaxis2_enabled w' = false.
Proof.
  intros w'.
  destruct (legacy_needs_two_columns pyfloat (fun c => c) Series.plain_table
              "runs/one.csv"%string
              (WithoutHeader pyfloat "no header"
                 (Series.number_table ["t"]%string))
              (Series.number_table ["t"]%string) Legacy.initial
              eq_refl) as (P & D & X & Y1 & Y2 & E & _).
  - vm_compute. reflexivity.
  - repeat split; assumption.
Defined.

Lemma legacy_second_axis_header_witness :
  let w' := Legacy._load_and_plot_1d pyfloat (fun c => c) Series.plain_table
              "runs/four.csv"
              (WithHeader pyfloat (gap_table ["t"; "a"; "b"; "c"]%string))
              Legacy.initial in
  data_plotter_1d w'
  = Line [Finite (0 # 1)] [Finite (1 # 1)] (basename "runs/four.csv")
      "X-axis" "Y1-axis" (Some ([Finite (3 # 1)], Some "Y2-axis"%string)) /\
  data_1d_display w' = "t a b"%string.
Proof.
  intros w'.
  destruct (legacy_second_axis_header pyfloat (fun c => c) Series.plain_table
              "runs/four.csv"%string (gap_table ["t"; "a"; "b"; "c"]%string)
              Legacy.initial) as (P & D & _).
  - vm_compute. discriminate.
  - vm_compute. reflexivity.
  - split; [exact P|exact D].
Defined.

Lemma legacy_two_columns_no_header_witness :
  let w' := Legacy._load_and_plot_1d pyfloat (fun c => c) Series.plain_table
              "runs/two.dat"
              (WithoutHeader pyfloat "no header"
                 (Series.number_table ["0"; "1"]%string))
              Legacy.initial in
  data_plotter_1d w'
  = Line [Finite (0 # 1); Finite (10 # 1)] [Finite (1 # 1); Finite (11 # 1)]
      (basename "runs/two.dat") "X-axis" "Y1-axis" None /\
  data_1d_display w' = "Column 1 Column 2"%string /\
  plot_1d_yaxis2_enabled w' = false.
Proof.
  intros w'.
  destruct (legacy_two_columns_no_header pyfloat (fun c => c) Series.plain_table
              "runs/two.dat"%string "no header"%string
              (Series.number_table ["0"; "1"]%string) Legacy.initial)
    as (P & D & _ & E & _).
  - reflexivity.
  - vm_compute. reflexivity.
  - split; [exact P|]. split; [exact D|exact E].
Defined.

Lemma legacy_title_edit_draws_all_rows_witness :
  let df := gap_table ["t"; "a"; "b"; "c"]%string in
  exists twin,
    data_plotter_1d
      (set_1d_plot_title "again"
         (Legacy._load_and_plot_1d pyfloat (fun c => c) Series.plain_table
            "runs/four.csv" (WithHeader pyfloat df) Legacy.initial))
    = Line [Finite (0 # 1); Finite (10 # 1)] [Finite (1 # 1); Finite (11 # 1)]
        "again" "X-axis" "Y1-axis" twin.
Proof.
  intros df.
  destruct (legacy_title_edit_draws_all_rows pyfloat (fun c => c)
              Series.plain_table "runs/four.csv"%string "again"%string
              (WithHeader pyfloat df) df Legacy.initial eq_refl)
    as (twin & P & _).
  - right. vm_compute. discriminate.
  - exists twin. exact P.
Defined.

Lemma legacy_rows_need_all_three_witness :
  let df := gap_table ["t"; "a"; "b"; "c"]%string in
  data_plotter_1d
    (Legacy._load_and_plot_1d pyfloat (fun c => c) Series.plain_table
       "runs/four.csv" (WithoutHeader pyfloat "no header" df) Legacy.initial)
  = Line [Finite (0 # 1)] [Finite (1 # 1)] (basename "runs/four.csv")
      "X-axis" "Y1-axis" (Some ([Finite (3 # 1)], Some "Y2-axis"%string)).
Proof.
  intros df.
  destruct (legacy_rows_need_all_three pyfloat (fun c => c)
              Series.plain_table "runs/four.csv"%string
              (WithoutHeader pyfloat "no header" df) df Legacy.initial eq_refl)
    as (H & _).
  - vm_compute. discriminate.
  - apply H. vm_compute. discriminate.
Defined.

End LegacyFacts.

(** ** The theme *)

Module ThemeFacts.
Import Theme.

Lemma toggle_theme_cases (w : window) :
  toggle_theme w
  = if String.eqb (current_theme w) "light"
    then {| current_theme := "dark"; styleSheet := dark_stylesheet |}
    else {| current_theme := "light"; styleSheet := light_stylesheet |}.
Proof.
  unfold toggle_theme, apply_stylesheet. cbn [current_theme styleSheet].
  destruct (String.eqb (current_theme w) "light"); reflexivity.
Qed.

(** X28: the Toggle Theme button alternates between the two themes: after
    n clicks on a fresh window the theme is light for an even n and dark for
    an odd one, with the stylesheet of that theme applied; and from any
    window two more clicks after the first give back the same theme and
    stylesheet. *)
Theorem toggle_theme_alternates (n : nat) (blank : stylesheet) (w : window) :
  Nat.iter n toggle_theme (initial blank)
  = (if Nat.even n
     then {| current_theme := "light"; styleSheet := light_stylesheet |}
     else {| current_theme := "dark"; styleSheet := dark_stylesheet |}) /\
  toggle_theme (toggle_theme (toggle_theme w)) = toggle_theme w.
Proof.
  split.
  - assert (H : Nat.iter n toggle_theme (initial blank)
                = (if Nat.even n
                   then {| current_theme := "light"; styleSheet := light_stylesheet |}
                   else {| current_theme := "dark"; styleSheet := dark_stylesheet |})
                /\ Nat.iter (S n) toggle_theme (initial blank)
                = (if Nat.even (S n)
                   then {| current_theme := "light"; styleSheet := light_stylesheet |}
                   else {| current_theme := "dark"; styleSheet := dark_stylesheet |})).
    { induction n as [|n (IH1 & IH2)].
      - split; reflexivity.
      - split; [exact IH2|].
        change (Nat.iter (S (S n)) toggle_theme (initial blank))
          with (toggle_theme (Nat.iter (S n) toggle_theme (initial blank))).
        rewrite IH2, toggle_theme_cases.
        change (Nat.even (S (S n))) with (Nat.even n).
        destruct n as [|n]; [reflexivity|].
        change (Nat.even (S (S n))) with (Nat.even n).
        destruct (Nat.even n) eqn:E.
        + replace (Nat.even (S n)) with false; [reflexivity|].
          rewrite Nat.even_succ, <- Nat.negb_even, E. reflexivity.
        + replace (Nat.even (S n)) with true; [reflexivity|].
          rewrite Nat.even_succ, <- Nat.negb_even, E. reflexivity. }
    apply H.
  - rewrite !toggle_theme_cases.
    destruct (String.eqb (current_theme w) "light"); reflexivity.
Qed.

End ThemeFacts.
